(** * Tariff simulator front end: a shallow embedding and its properties

    The development follows the TypeScript sources of the dashboard:
    the URL helper of [lib/apiConfig.ts], the page component with the cart
    counter, the simulator calculator, the tariff calculator form, the
    comparison panel, the trends visualization, the results table and the
    tariff definitions table.

    JavaScript numbers are IEEE 754 binary64 values and are modelled by the
    primitive floats of Rocq; strings are [string]; React state is a record
    that every handler transforms; what the network and the session provider
    answer is an explicit argument of the handler that awaits it. Built-in
    functions of the platform that the sources call but do not define
    ([Number.parseFloat], [Number.prototype.toFixed], [JSON.parse],
    [encodeURIComponent], the clock) are section variables. *)

From Stdlib Require Import ZArith Floats Lia.
From stdpp Require Import base option strings list gmap pretty.

Local Open Scope string_scope.

(* Decimal literals such as 1.35 denote the nearest binary64 value, as they
   do in JavaScript. *)
#[local] Set Warnings "-inexact-float".

(** ** JavaScript primitives used by the sources *)

Module JS.

(** [s.startsWith(p)] *)
Definition startsWith (s p : string) : bool := String.prefix p s.

(** [s.slice(1)] *)
Definition slice1 (s : string) : string :=
  match s with
  | EmptyString => EmptyString
  | String _ rest => rest
  end.

(** [s.endsWith(suffix)]: some tail of [s] is [suffix]. *)
Fixpoint endsWith (s suffix : string) : bool :=
  String.eqb s suffix ||
  match s with
  | EmptyString => false
  | String _ rest => endsWith rest suffix
  end.

(** [s.includes(sub)]: [sub] is a prefix of some tail of [s]. *)
Fixpoint includes (s sub : string) : bool :=
  String.prefix sub s ||
  match s with
  | EmptyString => false
  | String _ rest => includes rest sub
  end.

(** Truthiness of a string: every string but the empty one. *)
Definition truthy (s : string) : bool := negb (String.eqb s "").

(** Truthiness of a value that is a string or [undefined]. *)
Definition truthy_opt (o : option string) : bool :=
  match o with
  | Some s => truthy s
  | None => false
  end.

(** [a || b] on strings. *)
Definition or_else (a b : string) : string := if truthy a then a else b.

(** [a || b] where [a] may be [undefined]. *)
Definition opt_or_else (a : option string) (b : string) : string :=
  match a with
  | Some s => or_else s b
  | None => b
  end.

(** [arr.findIndex(p)], with [None] for the result [-1]. *)
Fixpoint findIndex {A} (p : A -> bool) (l : list A) : option nat :=
  match l with
  | [] => None
  | x :: rest => if p x then Some 0 else S <$> findIndex p rest
  end.

(** [arr.join(sep)] on an array of strings. *)
Definition join (sep : string) (l : list string) : string := String.concat sep l.

(** [isNaN(x)] on a number. *)
Definition isNaN (x : float) : bool := PrimFloat.is_nan x.

End JS.

(** ** lib/apiConfig.ts *)

Module ApiConfig.

(** [process.env.NEXT_PUBLIC_API_BASE_URL || "http://localhost:8080/api"] *)
Definition API_BASE_URL (env : option string) : string :=
  JS.opt_or_else env "http://localhost:8080/api".

Definition getApiUrl (API_BASE_URL : string) (endpoint : string) : string :=
  let cleanEndpoint :=
    if JS.startsWith endpoint "/" then JS.slice1 endpoint else endpoint in
  let baseUrl :=
    if JS.endsWith API_BASE_URL "/api" then API_BASE_URL
    else API_BASE_URL +:+ "/api" in
  baseUrl +:+ "/" +:+ cleanEndpoint.

End ApiConfig.

(** ** Requests, responses and the session provider *)

Module Http.

Inductive Method := GET | POST | PUT | DELETE.

(** The second argument of [fetch]. A request built without a [method]
    field is a GET. *)
Record Request := {
  url : string;
  method : Method;
  headers : list (string * string);
  credentials : option string;
}.

(** [headers[name]] of a request. *)
Fixpoint header (name : string) (hs : list (string * string)) : option string :=
  match hs with
  | [] => None
  | (k, v) :: rest => if String.eqb k name then Some v else header name rest
  end.

(** What the client reads of a response: the status, the content type
    header, the body as text and the body as [response.json()] decodes it
    ([None] when decoding throws). *)
Record Response (Body : Type) := {
  status : nat;
  content_type : option string;
  text : string;
  json : option Body;
}.
Arguments status {Body} _.
Arguments content_type {Body} _.
Arguments text {Body} _.
Arguments json {Body} _.

(** [response.ok]: the status is in the range 200-299. *)
Definition ok {Body} (r : Response Body) : bool :=
  (200 <=? status r)%nat && (status r <=? 299)%nat.

(** The outcome of awaiting [fetch]: the promise rejects or a response
    arrives. *)
Inductive FetchResult (Body : Type) :=
| NetworkError
| Resp (r : Response Body).
Arguments NetworkError {Body}.
Arguments Resp {Body} r.

(** The outcome of [supabase.auth.getSession()]: the promise rejects, or
    it gives a session whose [access_token] may be missing. *)
Inductive SessionResult :=
| SessionRejects
| SessionOk (access_token : option string).

(** [token ? `Bearer ${token}` : ''] *)
Definition bearer (token : option string) : string :=
  match token with
  | Some t => if JS.truthy t then "Bearer " +:+ t else ""
  | None => ""
  end.

(** [session?.access_token || ""], the body of every [getAuthToken]. *)
Definition getAuthToken (access_token : option string) : string :=
  JS.opt_or_else access_token "".

(** [createAuthHeaders(token)], the same in every component. *)
Definition createAuthHeaders (token : string) : list (string * string) :=
  [("Authorization", bearer (Some token)); ("Content-Type", "application/json")].

(** A value decoded from JSON, for bodies the client inspects without
    a declared shape. *)
#[local] Unset Elimination Schemes.
Inductive Json :=
| JNull
| JBool (b : bool)
| JNum (x : float)
| JStr (s : string)
| JArr (items : list Json)
| JObj (fields : list (string * Json)).
#[local] Set Elimination Schemes.

End Http.

(** ** components/simulator-calculator.tsx *)

Module Simulator.
Import Http.

Record FormData := {
  product : string;
  unit : string;
  exportingFrom : string;
  importingTo : string;
  tariffType : string;
  tariffRate : string;
  quantity : string;
  customCost : string;
  calculationDate : string;
}.

(** A row of the [breakdown] array. *)
Record BreakdownRow := {
  description : string;
  type : string;
  rate : string;
  amount : float;
}.

(** The [result] object handed to [setCalculationResult]. *)
Record CalculationResult := {
  res_product : string;
  res_exportingFrom : string;
  res_importingTo : string;
  res_quantity : float;
  res_unit : string;
  res_costPerUnit : float;
  res_productCost : float;
  res_tariffType : string;
  res_tariffRate : float;
  res_tariffCost : float;
  res_totalCost : float;
  res_calculationDate : string;
  res_breakdown : list BreakdownRow;
  res_mode : string;
  res_currency : string;
  res_calculationId : option string;
}.

(** The component's state. *)
Record State := {
  formData : FormData;
  error : string;
  isLoading : bool;
  calculationResult : option CalculationResult;
}.

(** What the history endpoints answer: a saved calculation carries an
    [id] or a [calculationId]; the history is an array of them or
    something that is not an array. *)
Record SavedCalculation := {
  saved_id : option string;
  saved_calculationId : option string;
}.

Inductive HistoryBody :=
| HistoryNotArray
| HistoryArray (items : list SavedCalculation).

(** What the outside world answers during one submission. [stamp] is the
    text [`${Date.now()}_${Math.random().toString(36).substr(2, 9)}`]. *)
Record Env := {
  session : SessionResult;
  saveHistory : FetchResult SavedCalculation;
  getHistory : FetchResult HistoryBody;
  stamp : string;
}.

(** [x.id || x.calculationId] *)
Definition id_of (x : SavedCalculation) : option string :=
  if JS.truthy_opt (saved_id x) then saved_id x else saved_calculationId x.

Section WithPlatform.

Variable parseFloat : string -> float.
(** [x.toFixed(2)] and the conversion of a number in a template literal. *)
Variable toFixed2 : float -> string.
Variable numberToString : float -> string.
Variable API_BASE_URL : string.

Definition saveRequest (token : option string) : Request :=
  {| url := ApiConfig.getApiUrl API_BASE_URL "tariff/history/save";
     method := POST;
     headers := [("Authorization", bearer token); ("Content-Type", "application/json")];
     credentials := Some "include" |}.

Definition historyRequest (token : option string) : Request :=
  {| url := ApiConfig.getApiUrl API_BASE_URL "tariff/history";
     method := GET;
     headers := [("Authorization", bearer token); ("Content-Type", "application/json")];
     credentials := Some "include" |}.

(** The required-field test at the top of [handleSubmit]. *)
Definition missingRequired (f : FormData) : bool :=
  negb (JS.truthy (product f)) ||
  negb (JS.truthy (unit f)) ||
  negb (JS.truthy (exportingFrom f)) ||
  negb (JS.truthy (importingTo f)) ||
  negb (JS.truthy (tariffRate f)) ||
  negb (JS.truthy (quantity f)) ||
  negb (JS.truthy (customCost f)).

(** The local computation of the outer [try] block, up to [const result]. *)
Definition computeResult (f : FormData) : CalculationResult :=
  let quantity := parseFloat (quantity f) in
  let unitCost := parseFloat (customCost f) in
  let tariffRate := parseFloat (tariffRate f) in
  let productCost := (unitCost * quantity)%float in
  let tariffCost :=
    if String.eqb (tariffType f) "percentage" then
      ((productCost * tariffRate) / 100)%float
    else if String.eqb (tariffType f) "fixed" then
      (tariffRate * quantity)%float
    else 0%float in
  let totalCost := (productCost + tariffCost)%float in
  let unitLabel := unit f in
  let breakdown := [
    {| description := product f;
       type := "Product Cost";
       rate := "$" +:+ toFixed2 unitCost +:+ "/" +:+ JS.or_else unitLabel "unit";
       amount := productCost |};
    {| description :=
         "Tariff from " +:+ exportingFrom f +:+ " to " +:+ importingTo f;
       type := "Tariff";
       rate :=
         if String.eqb (tariffType f) "percentage" then
           numberToString tariffRate +:+ "%"
         else "$" +:+ numberToString tariffRate +:+ "/" +:+ JS.or_else unitLabel "unit";
       amount := tariffCost |} ] in
  {| res_product := product f;
     res_exportingFrom := exportingFrom f;
     res_importingTo := importingTo f;
     res_quantity := quantity;
     res_unit := unitLabel;
     res_costPerUnit := unitCost;
     res_productCost := productCost;
     res_tariffType :=
       if String.eqb (tariffType f) "percentage" then
         numberToString tariffRate +:+ "% Tariff"
       else "$" +:+ numberToString tariffRate +:+ " Fixed Tariff";
     res_tariffRate := tariffRate;
     res_tariffCost := tariffCost;
     res_totalCost := totalCost;
     res_calculationDate := calculationDate f;
     res_breakdown := breakdown;
     res_mode := "simulator";
     res_currency := "USD";
     res_calculationId := None |}.

(** The inner [try] block that saves to the history. The first component
    is [None] when the block throws (the [catch] then assigns a local id),
    and otherwise the value left in [result.calculationId]; the second
    component lists the requests sent. *)
Definition saveToHistory (env : Env) : option (option string) * list Request :=
  match session env with
  | SessionRejects => (None, [])
  | SessionOk token =>
    match saveHistory env with
    | NetworkError => (None, [saveRequest token])
    | Resp historyResponse =>
      if ok historyResponse then
        match json historyResponse with
        | None => (None, [saveRequest token])
        | Some savedCalculation =>
            (Some (id_of savedCalculation), [saveRequest token])
        end
      else
        match getHistory env with
        | NetworkError => (None, [saveRequest token; historyRequest token])
        | Resp getHistoryResponse =>
          if ok getHistoryResponse then
            match json getHistoryResponse with
            | None => (None, [saveRequest token; historyRequest token])
            | Some (HistoryArray (latestCalculation :: _)) =>
                (Some (id_of latestCalculation),
                 [saveRequest token; historyRequest token])
            | Some _ => (Some None, [saveRequest token; historyRequest token])
            end
          else (Some None, [saveRequest token; historyRequest token])
        end
    end
  end.

(** [`local_${Date.now()}_${...}`] *)
Definition localId (env : Env) : string := "local_" +:+ stamp env.

(** The id the result ends with: the one of the inner block when it is
    truthy, a local one when the block threw or left a falsy value. *)
Definition finalId (env : Env) : option string :=
  match fst (saveToHistory env) with
  | None => Some (localId env)
  | Some id => if JS.truthy_opt id then id else Some (localId env)
  end.

Definition withId (r : CalculationResult) (id : option string) : CalculationResult :=
  {| res_product := res_product r;
     res_exportingFrom := res_exportingFrom r;
     res_importingTo := res_importingTo r;
     res_quantity := res_quantity r;
     res_unit := res_unit r;
     res_costPerUnit := res_costPerUnit r;
     res_productCost := res_productCost r;
     res_tariffType := res_tariffType r;
     res_tariffRate := res_tariffRate r;
     res_tariffCost := res_tariffCost r;
     res_totalCost := res_totalCost r;
     res_calculationDate := res_calculationDate r;
     res_breakdown := res_breakdown r;
     res_mode := res_mode r;
     res_currency := res_currency r;
     res_calculationId := id |}.

(** A validation failure: [setError(msg); setIsLoading(false); return]. *)
Definition reject (st : State) (msg : string) : State * list Request :=
  ({| formData := formData st; error := msg; isLoading := false;
      calculationResult := calculationResult st |}, []).

Definition handleSubmit (st : State) (env : Env) : State * list Request :=
  let f := formData st in
  if missingRequired f then reject st "Please fill in all required fields"
  else if (parseFloat (quantity f) <=? 0)%float then
    reject st "Quantity must be greater than 0"
  else if (parseFloat (customCost f) <=? 0)%float then
    reject st "Unit cost must be greater than 0"
  else if (parseFloat (tariffRate f) <? 0)%float then
    reject st "Tariff rate cannot be negative"
  else
    let result := withId (computeResult f) (finalId env) in
    ({| formData := f; error := ""; isLoading := false;
        calculationResult := Some result |},
     snd (saveToHistory env)).

End WithPlatform.

(** [Number.parseFloat] on the strings that are a sequence of one to
    fifteen decimal digits, whose value a binary64 number holds exactly;
    every other string is sent to NaN. It is used to run [handleSubmit] on
    concrete forms. *)
Definition digit_value (c : Ascii.ascii) : option Z :=
  let n := Z.of_nat (Ascii.nat_of_ascii c) in
  if ((48 <=? n) && (n <=? 57))%Z then Some (n - 48)%Z else None.

Fixpoint digits_value (acc : Z) (s : string) : option Z :=
  match s with
  | EmptyString => Some acc
  | String c rest =>
      match digit_value c with
      | Some d => digits_value (10 * acc + d) rest
      | None => None
      end
  end.

Definition parseFloat_digits (s : string) : float :=
  if ((1 <=? String.length s) && (String.length s <=? 15))%nat then
    match digits_value 0 s with
    | Some n => PrimFloat.of_uint63 (Uint63.of_Z n)
    | None => PrimFloat.nan
    end
  else PrimFloat.nan.

(** A filled form, the state of a freshly mounted component holding it,
    and a world in which the session provider is unreachable. *)
Definition riceForm (exportingFrom importingTo tariffType : string) : FormData :=
  {| product := "Rice"; unit := "kg";
     exportingFrom := exportingFrom; importingTo := importingTo;
     tariffType := tariffType; tariffRate := "10"; quantity := "4";
     customCost := "5"; calculationDate := "2025-01-01" |}.

Definition mounted (f : FormData) : State :=
  {| formData := f; error := ""; isLoading := false; calculationResult := None |}.

Definition offline : Env :=
  {| session := SessionRejects; saveHistory := NetworkError;
     getHistory := NetworkError; stamp := "1700000000000_k3j9x0a1b" |}.

End Simulator.

(** ** app/page.tsx: the page component and its cart counter *)

Module Home.
Import Http.

Inductive DashboardView :=
| dashboard | global_tariffs | simulator_tariffs | cart | trade_insights | admin.

Definition EMPTY_CART_STATUS : nat := 204.

Record State := {
  currentView : DashboardView;
  cartCount : nat;
}.

Definition setCartCount (n : nat) (st : State) : State :=
  {| currentView := currentView st; cartCount := n |}.

Definition setCurrentView (v : DashboardView) (st : State) : State :=
  {| currentView := v; cartCount := cartCount st |}.

(** [Array.isArray(cartData) ? cartData.length : 0] *)
Definition arrayLength (cartData : Json) : nat :=
  match cartData with
  | JArr items => length items
  | _ => 0
  end.

Section WithBase.

Variable API_BASE_URL : string.

Definition cartRequest (token : option string) : Request :=
  {| url := ApiConfig.getApiUrl API_BASE_URL "export-cart";
     method := GET;
     headers := [("Authorization", bearer token); ("Content-Type", "application/json")];
     credentials := Some "include" |}.

Definition fetchCartCount (session : SessionResult) (answer : FetchResult Json)
    (st : State) : State * list Request :=
  match session with
  | SessionRejects => (setCartCount 0 st, [])
  | SessionOk token =>
    match answer with
    | NetworkError => (setCartCount 0 st, [cartRequest token])
    | Resp response =>
      (if (status response =? 204)%nat || negb (ok response) then
         setCartCount 0 st
       else if ok response then
         match content_type response with
         | Some contentType =>
           if JS.truthy contentType && JS.includes contentType "application/json" then
             match json response with
             | Some cartData => setCartCount (arrayLength cartData) st
             | None => setCartCount 0 st
             end
           else setCartCount 0 st
         | None => setCartCount 0 st
         end
       else st,
       [cartRequest token])
    end
  end.

Definition parseCartResponse (response : Response Json) : nat :=
  if (status response =? EMPTY_CART_STATUS)%nat || negb (ok response) then 0
  else
    match content_type response with
    | None => 0
    | Some contentType =>
      if negb (JS.truthy contentType) || negb (JS.includes contentType "application/json")
      then 0
      else
        match json response with
        | Some cartData => arrayLength cartData
        | None => 0
        end
    end.

(** [navigateToCart]: select the cart view, then refresh the counter. *)
Definition navigateToCart (session : SessionResult) (answer : FetchResult Json)
    (st : State) : State * list Request :=
  fetchCartCount session answer (setCurrentView cart st).

End WithBase.

End Home.

(** ** components/tariff-trends-visualization.tsx *)

Module Trends.
Import Http.

Record TariffDataPoint := {
  date : string;
  tariffRate : float;
}.

Record TariffSeries := {
  id : string;
  importCountry : string;
  exportCountry : string;
  product : string;
  data : list TariffDataPoint;
  color : string;
}.

Record DateRange := {
  start : string;
  end_ : string;
}.

Record FilterSelection := {
  exportCountries : list string;
  importCountries : list string;
  products : list string;
  dateRange : DateRange;
}.

Definition MAX_LINES : nat := 10.

Record State := {
  filters : FilterSelection;
  chartData : list TariffSeries;
  loading : bool;
  error : option string;
}.

(** The payload of the trends endpoint, as [formatTariffSeriesData] reads it. *)
Record RawPoint := {
  raw_date : string;
  raw_rate : float;
}.

Record RawSeries := {
  raw_importCountry : string;
  raw_exportCountry : string;
  raw_product : string;
  dataPoints : list RawPoint;
}.

Record TrendsBody := {
  success : bool;
  body_data : option (list RawSeries);
  body_error : option string;
}.

Definition colors : list string := [
  "#3b82f6"; "#10b981"; "#f59e0b"; "#ef4444"; "#8b5cf6";
  "#ec4899"; "#14b8a6"; "#f97316"; "#06b6d4"; "#84cc16" ].

Definition formatTariffSeriesData (data : list RawSeries) : list TariffSeries :=
  imap (fun index series =>
    {| id := raw_importCountry series +:+ "-" +:+ raw_exportCountry series
             +:+ "-" +:+ raw_product series;
       importCountry := raw_importCountry series;
       exportCountry := raw_exportCountry series;
       product := raw_product series;
       data := map (fun point =>
                 {| date := raw_date point; tariffRate := raw_rate point |})
               (dataPoints series);
       color := nth (index mod length colors) colors "" |}) data.

Section WithPlatform.

Variable API_BASE_URL : string.
(** [new URLSearchParams(record).toString()] *)
Variable urlSearchParams : list (string * string) -> string.

Definition trendsRequest (token : string) (filters : FilterSelection) : Request :=
  let params := urlSearchParams [
    ("startDate", start (dateRange filters));
    ("endDate", end_ (dateRange filters));
    ("importCountries", JS.join "," (importCountries filters));
    ("exportCountries", JS.join "," (exportCountries filters));
    ("products", JS.join "," (products filters)) ] in
  {| url := ApiConfig.getApiUrl API_BASE_URL "tariff-trends" +:+ "?" +:+ params;
     method := GET;
     headers := createAuthHeaders token;
     credentials := Some "include" |}.

(** [fetchTariffTrendsData]: [None] in the first component when it throws. *)
Definition fetchTariffTrendsData (session : SessionResult)
    (answer : FetchResult TrendsBody) (filters : FilterSelection)
    : option (list TariffSeries) * list Request :=
  match session with
  | SessionRejects => (None, [])
  | SessionOk access_token =>
    let token := getAuthToken access_token in
    (match answer with
     | NetworkError => None
     | Resp response =>
       if negb (ok response) then None
       else
         match json response with
         | None => None
         | Some result =>
           match body_data result with
           | Some data =>
               if negb (success result) then None
               else Some (formatTariffSeriesData data)
           | None => None
           end
         end
     end,
     [trendsRequest token filters])
  end.

Definition handleFilterChange (session : SessionResult)
    (answer : FetchResult TrendsBody) (newFilters : FilterSelection)
    (st : State) : State * list Request :=
  if (length (importCountries newFilters) =? 0)%nat
     || (length (exportCountries newFilters) =? 0)%nat
     || (length (products newFilters) =? 0)%nat
  then
    ({| filters := newFilters; chartData := []; loading := loading st;
        error := Some "Please fill in all the boxes" |}, [])
  else
    let totalLines :=
      (length (importCountries newFilters) * length (exportCountries newFilters)
       * length (products newFilters))%nat in
    if (MAX_LINES <? totalLines)%nat then
      ({| filters := newFilters; chartData := []; loading := loading st;
          error := Some ("Too many combinations (" +:+ pretty totalLines
            +:+ " lines). Please reduce selections to create " +:+ pretty MAX_LINES
            +:+ " or fewer lines for optimal readability.") |}, [])
    else
      match fetchTariffTrendsData session answer newFilters with
      | (Some data, requests) =>
          ({| filters := newFilters; chartData := data; loading := false;
              error := None |}, requests)
      | (None, requests) =>
          ({| filters := newFilters; chartData := []; loading := false;
              error := Some "Unable to load tariff data. Please try again later." |},
           requests)
      end.

End WithPlatform.

End Trends.

(** ** The currency list shared by the calculator form and the comparison panel *)

Module Currencies.

Record Currency := {
  code : string;
  name : string;
  rate : float;
  lastUpdated : string;
}.

(** The [currency] field of the payload: an array of currencies, or
    anything else (a missing field included). *)
Inductive CurrencyField :=
| NotAnArray
| CurrencyArray (items : list Currency).

(** The payload of [GET tariffs/currencies]: [None] stands for [null]. *)
Definition Payload := option CurrencyField.

(** [Array.isArray(payload?.currency) ? payload.currency : []] *)
Definition currencyList (payload : Payload) : list Currency :=
  match payload with
  | Some (CurrencyArray items) => items
  | _ => []
  end.

(** [FALLBACK_CURRENCIES]; [today] is
    [new Date().toISOString().split("T")[0]]. *)
Definition FALLBACK_CURRENCIES (today : string) : list Currency := [
  {| code := "USD"; name := "United States Dollar"; rate := 1.0; lastUpdated := today |};
  {| code := "SGD"; name := "Singapore Dollar"; rate := 1.35; lastUpdated := today |};
  {| code := "EUR"; name := "Euro"; rate := 0.93; lastUpdated := today |};
  {| code := "CNY"; name := "Chinese Yuan"; rate := 7.12; lastUpdated := today |} ].

(** [list[0].code] of a list known to be non-empty. *)
Definition firstCode (l : list Currency) : string :=
  match l with
  | c :: _ => code c
  | [] => ""
  end.

End Currencies.

(** ** components/tariff-calculator-form.tsx *)

Module CalculatorForm.
Import Http Currencies.

Record FormData := {
  product : string;
  exportingFrom : string;
  importingTo : string;
  quantity : string;
  customCost : string;
  calculationDate : string;
  currency : option string;
}.

Record State := {
  formData : FormData;
  availableCurrencies : list Currency;
}.

Definition setCurrency (c : option string) (f : FormData) : FormData :=
  {| product := product f;
     exportingFrom := exportingFrom f;
     importingTo := importingTo f;
     quantity := quantity f;
     customCost := customCost f;
     calculationDate := calculationDate f;
     currency := c |}.

Section WithPlatform.

Variable API_BASE_URL : string.
Variable today : string.

Definition currenciesRequest (token : string) : Request :=
  {| url := ApiConfig.getApiUrl API_BASE_URL "tariffs/currencies";
     method := GET;
     headers := createAuthHeaders token;
     credentials := Some "include" |}.

(** The [catch] branch of [loadCurrencies]. *)
Definition useFallback (st : State) : State :=
  {| formData :=
       setCurrency
         (Some (JS.opt_or_else (currency (formData st))
                  (firstCode (FALLBACK_CURRENCIES today))))
         (formData st);
     availableCurrencies := FALLBACK_CURRENCIES today |}.

(** The end of the [try] branch of [loadCurrencies]. *)
Definition useFetched (currencies : list Currency) (st : State) : State :=
  let prev := formData st in
  {| formData :=
       setCurrency
         (if JS.truthy_opt (currency prev)
             && existsb (fun c => bool_decide (Some (code c) = currency prev)) currencies
          then currency prev
          else Some (firstCode currencies))
         prev;
     availableCurrencies := currencies |}.

Definition loadCurrencies (session : SessionResult) (answer : FetchResult Payload)
    (st : State) : State * list Request :=
  match session with
  | SessionRejects => (useFallback st, [])
  | SessionOk access_token =>
    let token := getAuthToken access_token in
    (match answer with
     | NetworkError => useFallback st
     | Resp response =>
       if negb (ok response) then useFallback st
       else
         match json response with
         | None => useFallback st
         | Some payload =>
           let currencies := currencyList payload in
           if (length currencies =? 0)%nat then useFallback st
           else useFetched currencies st
         end
     end,
     [currenciesRequest token])
  end.

End WithPlatform.

End CalculatorForm.

(** ** components/tariff-comparison-panel.tsx *)

Module ComparisonPanel.
Import Http Currencies.

Record ComparisonFormData := {
  product : string;
  exportingFrom : string;
  importingToCountries : list string;
  quantity : string;
  customCost : string;
  currency : string;
}.

Definition INITIAL_FORM_DATA : ComparisonFormData :=
  {| product := ""; exportingFrom := ""; importingToCountries := [];
     quantity := "1"; customCost := ""; currency := "USD" |}.

Record State := {
  formData : ComparisonFormData;
  currencies : list Currency;
}.

Definition setCurrency (c : string) (f : ComparisonFormData) : ComparisonFormData :=
  {| product := product f;
     exportingFrom := exportingFrom f;
     importingToCountries := importingToCountries f;
     quantity := quantity f;
     customCost := customCost f;
     currency := c |}.

Section WithPlatform.

Variable API_BASE_URL : string.
Variable today : string.

Definition currenciesRequest (token : string) : Request :=
  {| url := ApiConfig.getApiUrl API_BASE_URL "tariffs/currencies";
     method := GET;
     headers := createAuthHeaders token;
     credentials := Some "include" |}.

Definition useFallback (st : State) : State :=
  {| formData :=
       setCurrency
         (JS.or_else (currency (formData st)) (firstCode (FALLBACK_CURRENCIES today)))
         (formData st);
     currencies := FALLBACK_CURRENCIES today |}.

Definition useFetched (currencyList : list Currency) (st : State) : State :=
  let prev := formData st in
  {| formData :=
       setCurrency
         (if existsb (fun c => String.eqb (code c) (currency prev)) currencyList
          then currency prev
          else firstCode currencyList)
         prev;
     currencies := currencyList |}.

Definition loadCurrencies (session : SessionResult) (answer : FetchResult Payload)
    (st : State) : State * list Request :=
  match session with
  | SessionRejects => (useFallback st, [])
  | SessionOk access_token =>
    let token := getAuthToken access_token in
    (match answer with
     | NetworkError => useFallback st
     | Resp response =>
       if negb (ok response) then useFallback st
       else
         match json response with
         | None => useFallback st
         | Some payload =>
           let currencyList := Currencies.currencyList payload in
           if (length currencyList =? 0)%nat then useFallback st
           else useFetched currencyList st
         end
     end,
     [currenciesRequest token])
  end.

End WithPlatform.

End ComparisonPanel.

(** ** components/results-table.tsx *)

Module ResultsTable.
Import Http.

Definition HTTP_STATUS_BAD_REQUEST : nat := 400.
Definition HTTP_STATUS_NOT_FOUND : nat := 404.

Record State := {
  exportError : string;
  successMessage : string;
  debugInfo : string;
}.

Definition clearMessages (st : State) : State :=
  {| exportError := ""; successMessage := ""; debugInfo := "" |}.

Definition setExportError (msg : string) (st : State) : State :=
  {| exportError := msg; successMessage := successMessage st; debugInfo := debugInfo st |}.

Definition showSuccessMessage (msg : string) (st : State) : State :=
  {| exportError := exportError st; successMessage := msg; debugInfo := debugInfo st |}.

(** The error object of the backend: [message] and [error] are strings
    when present. *)
Record ErrorData := {
  message : option string;
  error : option string;
}.

(** The [results] property: [data_calculationId] is [Some id] when
    [results.data] is truthy, with [id] the value of
    [results.data.calculationId]; [own_calculationId] is
    [results.calculationId]. *)
Record Results := {
  data_calculationId : option (option string);
  own_calculationId : option string;
}.

(** [extractCalculationData()?.calculationId] *)
Definition getCalculationId (results : option Results) : option string :=
  match results with
  | None => None
  | Some r =>
    match data_calculationId r with
    | Some id => id
    | None => own_calculationId r
    end
  end.

(** What the outside world answers during [handleAddingExport];
    [rejection] is the [message] of the error a rejected promise carries,
    [onAddToCart] is [Some msg] when the callback throws an error with
    message [msg]. *)
Record Env := {
  session : SessionResult;
  addToCart : FetchResult unit;
  rejection : string;
  onAddToCart : option string;
}.

Section WithPlatform.

Variable API_BASE_URL : string.
Variable encodeURIComponent : string -> string.
(** [JSON.parse] followed by the reading of [message] and [error]:
    [None] when either throws, which lands in the same [catch]. *)
Variable JSON_parse : string -> option ErrorData.

Definition parseErrorResponse (response : Response unit) : string :=
  let responseText := text response in
  let errorMessage := "Server returned " +:+ pretty (status response) in
  match JSON_parse responseText with
  | Some errorData =>
      if JS.truthy_opt (message errorData) then default "" (message errorData)
      else if JS.truthy_opt (error errorData) then default "" (error errorData)
      else errorMessage
  | None => JS.or_else responseText errorMessage
  end.

Definition handleBadRequestError (errorMessage : string) (st : State) : State :=
  if JS.includes errorMessage "already in cart" then
    setExportError "This calculation is already in your export cart" st
  else
    setExportError ("Failed to add to cart: " +:+ errorMessage) st.

Definition handleNotFoundError (st : State) : State :=
  setExportError "Calculation not found in history. Please calculate again." st.

Definition handleApiError (response : Response unit) (st : State) : State :=
  let errorMessage := parseErrorResponse response in
  if (status response =? HTTP_STATUS_BAD_REQUEST)%nat then
    handleBadRequestError errorMessage st
  else if (status response =? HTTP_STATUS_NOT_FOUND)%nat then
    handleNotFoundError st
  else
    setExportError ("Failed to add to cart: " +:+ errorMessage) st.

Definition addToCartRequest (calculationId token : string) : Request :=
  {| url := ApiConfig.getApiUrl API_BASE_URL
              ("export-cart/add/" +:+ encodeURIComponent calculationId);
     method := POST;
     headers := createAuthHeaders token;
     credentials := Some "include" |}.

Definition handleAddingExport (results : option Results) (env : Env)
    (st : State) : State * list Request :=
  let st := clearMessages st in
  match results with
  | None => (setExportError "No calculation data available" st, [])
  | Some _ =>
    if negb (JS.truthy_opt (getCalculationId results)) then
      (setExportError "Calculation ID not found. Please calculate again." st, [])
    else
      let calculationId := default "" (getCalculationId results) in
      match session env with
      | SessionRejects =>
          (setExportError ("Failed to add to cart: " +:+ rejection env) st, [])
      | SessionOk access_token =>
        let token := getAuthToken access_token in
        (match addToCart env with
         | NetworkError =>
             setExportError ("Failed to add to cart: " +:+ rejection env) st
         | Resp response =>
           if negb (ok response) then handleApiError response st
           else
             let st := showSuccessMessage
                         "Calculation added to export cart successfully!" st in
             match onAddToCart env with
             | Some msg => setExportError ("Failed to add to cart: " +:+ msg) st
             | None => st
             end
         end,
         [addToCartRequest calculationId token])
      end
  end.

End WithPlatform.

End ResultsTable.

(** ** components/tariff-definitions-table.tsx *)

Module DefinitionsTable.
Import Http.

Record TariffDefinition := {
  id : string;
  product : string;
  exportingFrom : string;
  importingTo : string;
  type : string;
  rate : float;
  effectiveDate : string;
  expirationDate : string;
}.

(** The form of the dialog, every field a string. *)
Record NewTariff := {
  new_product : string;
  new_exportingFrom : string;
  new_importingTo : string;
  new_type : string;
  new_rate : string;
  new_effectiveDate : string;
  new_expirationDate : string;
}.

Definition API_BASE_URL : string := "http://localhost:8080/api".
Definition MINIMUM_RATE : float := 0%float.
Definition USER_ID_PREFIX : string := "user".

Record AlertDialog := {
  open : bool;
  title : string;
  message : string;
}.

Definition showAlert (title message : string) (_ : AlertDialog) : AlertDialog :=
  {| open := true; title := title; message := message |}.

Section WithPlatform.

Variable parseFloat : string -> float.

(** Each validator returns its verdict and the alert dialog it leaves. *)
Definition validateAllFieldsFilled (newTariff : NewTariff) (alertDialog : AlertDialog)
    : bool * AlertDialog :=
  if negb (JS.truthy (new_product newTariff)) ||
     negb (JS.truthy (new_exportingFrom newTariff)) ||
     negb (JS.truthy (new_importingTo newTariff)) ||
     negb (JS.truthy (new_type newTariff)) ||
     negb (JS.truthy (new_rate newTariff)) ||
     negb (JS.truthy (new_effectiveDate newTariff)) ||
     negb (JS.truthy (new_expirationDate newTariff))
  then
    (false, showAlert "Incomplete Information"
              "Please fill in all required fields before submitting." alertDialog)
  else (true, alertDialog).

Definition validateRate (newTariff : NewTariff) (alertDialog : AlertDialog)
    : bool * AlertDialog :=
  let rateValue := parseFloat (new_rate newTariff) in
  if JS.isNaN rateValue || (rateValue <? MINIMUM_RATE)%float then
    (false, showAlert "Invalid Rate"
              "Please enter a valid positive number for the tariff rate." alertDialog)
  else (true, alertDialog).

Definition validateCountryPair (newTariff : NewTariff) (alertDialog : AlertDialog)
    : bool * AlertDialog :=
  if String.eqb (new_exportingFrom newTariff) (new_importingTo newTariff) then
    (false, showAlert "Invalid Country Pair"
              "Exporting and importing countries must be different." alertDialog)
  else (true, alertDialog).

(** [a() && b() && c()]: a validator runs only when those before it passed. *)
Definition validateTariffInput (newTariff : NewTariff) (alertDialog : AlertDialog)
    : bool * AlertDialog :=
  let (filled, alertDialog) := validateAllFieldsFilled newTariff alertDialog in
  if filled then
    let (rateOk, alertDialog) := validateRate newTariff alertDialog in
    if rateOk then validateCountryPair newTariff alertDialog
    else (false, alertDialog)
  else (false, alertDialog).

End WithPlatform.

(** *** [mergeTariffs]

    Arrays are mutable objects: the heap maps the address of an array to
    its contents, and the two state arrays and the merged copy live at
    three addresses. *)

Definition Loc := positive.
Abbreviation Heap := (gmap positive (list TariffDefinition)).

(** The predicate handed to [findIndex]. *)
Definition sameTriple (modifiedTariff t : TariffDefinition) : bool :=
  String.eqb (product t) (product modifiedTariff) &&
  String.eqb (exportingFrom t) (exportingFrom modifiedTariff) &&
  String.eqb (importingTo t) (importingTo modifiedTariff).

(** The body of the [forEach] callback, on the contents of the merged
    array: overwrite at the index found, or push. *)
Definition mergeOne (mergedGlobalTariffs : list TariffDefinition)
    (modifiedTariff : TariffDefinition) : list TariffDefinition :=
  match JS.findIndex (sameTriple modifiedTariff) mergedGlobalTariffs with
  | Some existingIndex => <[existingIndex := modifiedTariff]> mergedGlobalTariffs
  | None => mergedGlobalTariffs ++ [modifiedTariff]
  end.

(** The callback on the heap: it reads and writes the array at
    [mergedGlobalTariffs] only. *)
Definition callback (mergedGlobalTariffs : Loc) (modifiedTariff : TariffDefinition)
    (h : Heap) : Heap :=
  match h !! mergedGlobalTariffs with
  | Some contents => <[mergedGlobalTariffs := mergeOne contents modifiedTariff]> h
  | None => h
  end.

(** [arr.forEach(f)]: the length is read once, then every index below it
    is visited in order and its element is read from the array as it is
    at that moment. *)
Definition forEach (arr : Loc) (f : TariffDefinition -> Heap -> Heap) (h : Heap) : Heap :=
  foldl (fun h index =>
           match h !! arr ≫= (fun contents => contents !! index) with
           | Some element => f element h
           | None => h
           end)
        h (seq 0 (length (default [] (h !! arr)))).

(** [mergeTariffs()]: the spread allocates a fresh array holding a copy of
    [globalTariffs]; the result is its address and the heap afterwards. *)
Definition mergeTariffs (globalTariffs modifiedGlobalTariffs : Loc) (h : Heap)
    : Loc * Heap :=
  let mergedGlobalTariffs := fresh (dom h) in
  let h := <[mergedGlobalTariffs := default [] (h !! globalTariffs)]> h in
  (mergedGlobalTariffs,
   forEach modifiedGlobalTariffs (callback mergedGlobalTariffs) h).

(** The triple a tariff is matched on. *)
Definition triple (t : TariffDefinition) : string * string * string :=
  (product t, exportingFrom t, importingTo t).

(** A tariff on the route from Thailand to Singapore, and a heap that
    holds the two state arrays at the addresses 1 and 2. *)
Definition routeTariff (id product : string) (rate : float) : TariffDefinition :=
  {| id := id; product := product; exportingFrom := "Thailand";
     importingTo := "Singapore"; type := "AHS"; rate := rate;
     effectiveDate := "2025-01-01"; expirationDate := "2025-12-31" |}.

Definition stateHeap (globalTariffs modifiedGlobalTariffs : list TariffDefinition)
    : Heap :=
  <[1%positive := globalTariffs]> (<[2%positive := modifiedGlobalTariffs]> ∅).

(** *** Requests of the component *)

Definition fetchDataWithAuth (access_token : option string) (endpoint : string) : Request :=
  {| url := API_BASE_URL +:+ endpoint;
     method := GET;
     headers := createAuthHeaders (getAuthToken access_token);
     credentials := Some "include" |}.

(** The request of [handleUpdateTariff] for the tariff [editingId]. *)
Definition updateRequest (access_token : option string) (simulatorMode : bool)
    (editingId : string) : Request :=
  let isUserTariff := simulatorMode || JS.startsWith editingId USER_ID_PREFIX in
  {| url := if isUserTariff
            then API_BASE_URL +:+ "/tariff-definitions/user/" +:+ editingId
            else API_BASE_URL +:+ "/tariff-definitions/modified/" +:+ editingId;
     method := PUT;
     headers := createAuthHeaders (getAuthToken access_token);
     credentials := Some "include" |}.

(** The request of [addTariffToBackend]. *)
Definition addRequest (access_token : option string) (simulatorMode isAdmin : bool)
    : Request :=
  {| url := if negb simulatorMode && isAdmin
            then API_BASE_URL +:+ "/tariff-definitions/modified"
            else API_BASE_URL +:+ "/tariff-definitions/user";
     method := POST;
     headers := [("Content-Type", "application/json");
                 ("Authorization", bearer (Some (getAuthToken access_token)))];
     credentials := Some "include" |}.

(** The request of [deleteTariffFromBackend]. *)
Definition deleteRequest (access_token : option string) (id : string)
    (isModifiedGlobal : bool) : Request :=
  {| url := if isModifiedGlobal
            then API_BASE_URL +:+ "/tariff-definitions/modified/" +:+ id
            else API_BASE_URL +:+ "/tariff-definitions/user/" +:+ id;
     method := DELETE;
     headers := createAuthHeaders (getAuthToken access_token);
     credentials := Some "include" |}.

(** [handleExportCSV] assigns [window.location.href]: the browser
    navigates to the address, and no header is set by the client. *)
Definition handleExportCSV : string :=
  API_BASE_URL +:+ "/tariff-definitions/export".

End DefinitionsTable.

(** ** Every place where the client addresses the backend

    One constructor for each [fetch] call of the sources, with the
    arguments its address depends on, and one for each assignment of
    [window.location.href] to a backend address. *)

Module Client.
Import Http.

Inductive FetchSite :=
(* app/page.tsx *)
| Home_fetchCartCount
(* tariff-trends-visualization.tsx *)
| Trends_fetchTariffTrendsData (filters : Trends.FilterSelection)
(* simulator-calculator.tsx *)
| Simulator_saveHistory
| Simulator_getHistory
(* tariff-calculator-form.tsx *)
| Calculator_fetchDataWithAuth (endpoint : string)
| Calculator_loadCurrencies
| Calculator_performCalculation (params : string)
| Calculator_fetchLatestCalculationId
| Calculator_saveCalculationToHistory
(* tariff-filters.tsx *)
| Filters_fetchCountries
| Filters_fetchProducts
(* admin-dashboard.tsx *)
| Admin_loadStats
(* export-cart-with-history.tsx *)
| Cart_loadCartItems
| Cart_loadHistory
| Cart_remove (id : string)
| Cart_clear
| Cart_add (id : string)
| Cart_export
(* tariff-comparison-panel.tsx *)
| Comparison_products
| Comparison_countries
| Comparison_loadCurrencies
| Comparison_compare
(* tariff-definitions-table.tsx *)
| Definitions_fetchDataWithAuth (endpoint : string)
| Definitions_update (simulatorMode : bool) (editingId : string)
| Definitions_add (simulatorMode isAdmin : bool)
| Definitions_reloadUserTariffs
| Definitions_delete (id : string) (isModifiedGlobal : bool)
| Definitions_reloadModifiedTariffs
(* results-table.tsx *)
| Results_addToCart (calculationId : string).

Inductive NavigationSite :=
| Definitions_handleExportCSV
| Admin_exportButton.

Section WithPlatform.

Variable API_BASE_URL : string.
Variable urlSearchParams : list (string * string) -> string.
Variable encodeURIComponent : string -> string.

(** Headers written inline from [session?.access_token]. *)
Definition inlineHeaders (access_token : option string) : list (string * string) :=
  [("Authorization", bearer access_token); ("Content-Type", "application/json")].

(** Headers built by [createAuthHeaders(await getAuthToken())]. *)
Definition authHeaders (access_token : option string) : list (string * string) :=
  createAuthHeaders (getAuthToken access_token).

Definition apiRequest (m : Method) (endpoint : string) (hs : list (string * string))
    : Request :=
  {| url := ApiConfig.getApiUrl API_BASE_URL endpoint;
     method := m; headers := hs; credentials := Some "include" |}.

(** The request sent at each site, for a session with [access_token]. *)
Definition request_of (access_token : option string) (site : FetchSite) : Request :=
  match site with
  | Home_fetchCartCount => Home.cartRequest API_BASE_URL access_token
  | Trends_fetchTariffTrendsData filters =>
      Trends.trendsRequest API_BASE_URL urlSearchParams
        (getAuthToken access_token) filters
  | Simulator_saveHistory => Simulator.saveRequest API_BASE_URL access_token
  | Simulator_getHistory => Simulator.historyRequest API_BASE_URL access_token
  | Calculator_fetchDataWithAuth endpoint =>
      apiRequest GET
        (if JS.startsWith endpoint "/" then JS.slice1 endpoint else endpoint)
        (authHeaders access_token)
  | Calculator_loadCurrencies =>
      CalculatorForm.currenciesRequest API_BASE_URL (getAuthToken access_token)
  | Calculator_performCalculation params =>
      {| url := ApiConfig.getApiUrl API_BASE_URL "tariff" +:+ "?" +:+ params;
         method := GET;
         headers := authHeaders access_token;
         credentials := Some "include" |}
  | Calculator_fetchLatestCalculationId =>
      apiRequest GET "tariff/history" (authHeaders access_token)
  | Calculator_saveCalculationToHistory =>
      apiRequest POST "tariff/history/save" (authHeaders access_token)
  | Filters_fetchCountries =>
      {| url := "http://localhost:8080/api" +:+ "/countries";
         method := GET;
         headers := authHeaders access_token;
         credentials := Some "include" |}
  | Filters_fetchProducts =>
      {| url := "http://localhost:8080/api" +:+ "/products";
         method := GET;
         headers := authHeaders access_token;
         credentials := Some "include" |}
  | Admin_loadStats =>
      apiRequest GET "admin/dashboard/stats" (inlineHeaders access_token)
  | Cart_loadCartItems => apiRequest GET "export-cart" (inlineHeaders access_token)
  | Cart_loadHistory => apiRequest GET "tariff/history" (inlineHeaders access_token)
  | Cart_remove id =>
      apiRequest DELETE ("export-cart/remove/" +:+ id) (inlineHeaders access_token)
  | Cart_clear => apiRequest DELETE "export-cart/clear" (inlineHeaders access_token)
  | Cart_add id =>
      apiRequest POST ("export-cart/add/" +:+ id) (inlineHeaders access_token)
  | Cart_export =>
      apiRequest GET "export-cart/export" [("Authorization", bearer access_token)]
  | Comparison_products => apiRequest GET "products" (authHeaders access_token)
  | Comparison_countries => apiRequest GET "countries" (authHeaders access_token)
  | Comparison_loadCurrencies =>
      ComparisonPanel.currenciesRequest API_BASE_URL (getAuthToken access_token)
  | Comparison_compare => apiRequest POST "tariffs/compare" (authHeaders access_token)
  | Definitions_fetchDataWithAuth endpoint =>
      DefinitionsTable.fetchDataWithAuth access_token endpoint
  | Definitions_update simulatorMode editingId =>
      DefinitionsTable.updateRequest access_token simulatorMode editingId
  | Definitions_add simulatorMode isAdmin =>
      DefinitionsTable.addRequest access_token simulatorMode isAdmin
  | Definitions_reloadUserTariffs =>
      DefinitionsTable.fetchDataWithAuth access_token "/tariff-definitions/user"
  | Definitions_delete id isModifiedGlobal =>
      DefinitionsTable.deleteRequest access_token id isModifiedGlobal
  | Definitions_reloadModifiedTariffs =>
      DefinitionsTable.fetchDataWithAuth access_token "/tariff-definitions/modified"
  | Results_addToCart calculationId =>
      ResultsTable.addToCartRequest API_BASE_URL encodeURIComponent calculationId
        (getAuthToken access_token)
  end.

(** The address the browser is sent to at each navigation site. *)
Definition navigation_of (site : NavigationSite) : string :=
  match site with
  | Definitions_handleExportCSV => DefinitionsTable.handleExportCSV
  | Admin_exportButton => ApiConfig.getApiUrl API_BASE_URL "tariff-definitions/export"
  end.

(** A call to the backend: a [fetch] with its request, or a navigation,
    which carries no header of the client's. *)
Inductive Call :=
| Fetch (r : Request)
| Navigate (address : string).

Definition call_headers (c : Call) : list (string * string) :=
  match c with
  | Fetch r => headers r
  | Navigate _ => []
  end.

Definition call_credentials (c : Call) : option string :=
  match c with
  | Fetch r => credentials r
  | Navigate _ => None
  end.

(** The calls the client can make during a session with [access_token]. *)
Inductive sends (access_token : option string) : Call -> Prop :=
| sends_fetch site : sends access_token (Fetch (request_of access_token site))
| sends_navigate site : sends access_token (Navigate (navigation_of site)).

End WithPlatform.

End Client.

(** ** The built-in [Set], as the list of its members in insertion order *)

Module JSSet.

Section Operations.

Context {A : Type} `{EqDecision A}.

(** [s.has(x)] *)
Definition has (s : list A) (x : A) : bool := bool_decide (x ∈ s).

(** [s.add(x)]: a new member goes last, a present one stays where it is. *)
Definition add (s : list A) (x : A) : list A :=
  if has s x then s else (s ++ [x])%list.

(** [s.delete(x)] *)
Definition delete (s : list A) (x : A) : list A :=
  List.filter (fun y => negb (bool_decide (y = x))) s.

(** [new Set(array)] *)
Definition fromArray (array : list A) : list A := foldl add [] array.

(** [s.size] *)
Definition size (s : list A) : nat := length s.

End Operations.

End JSSet.

(** ** components/tariff-definitions-table.tsx: the filters of the table *)

Module DefinitionsFilters.

Definition FILTER_ALL_VALUE : string := "all".

Record Filters := {
  product : string;
  exportingFrom : string;
  importingTo : string;
}.

Definition createInitialFilters : Filters :=
  {| product := ""; exportingFrom := ""; importingTo := "" |}.

Definition matchesProductFilter (filters : Filters)
    (tariff : DefinitionsTable.TariffDefinition) : bool :=
  negb (JS.truthy (product filters))
  || String.eqb (DefinitionsTable.product tariff) (product filters).

Definition matchesExportingFilter (filters : Filters)
    (tariff : DefinitionsTable.TariffDefinition) : bool :=
  negb (JS.truthy (exportingFrom filters))
  || String.eqb (DefinitionsTable.exportingFrom tariff) (exportingFrom filters).

Definition matchesImportingFilter (filters : Filters)
    (tariff : DefinitionsTable.TariffDefinition) : bool :=
  negb (JS.truthy (importingTo filters))
  || String.eqb (DefinitionsTable.importingTo tariff) (importingTo filters).

Definition getFilteredTariffs (filters : Filters)
    (tariffs : list DefinitionsTable.TariffDefinition)
    : list DefinitionsTable.TariffDefinition :=
  List.filter (fun tariff =>
                 matchesProductFilter filters tariff
                 && matchesExportingFilter filters tariff
                 && matchesImportingFilter filters tariff)
    tariffs.

(** [setFilters(prev => ({ ...prev, [field]: value === "all" ? "" : value }))].
    The three selects pass the names of the three fields; any other name
    would add a property that no filter reads. *)
Definition handleFilterChange (field value : string) (prev : Filters) : Filters :=
  let v := if String.eqb value FILTER_ALL_VALUE then "" else value in
  if String.eqb field "product" then
    {| product := v; exportingFrom := exportingFrom prev;
       importingTo := importingTo prev |}
  else if String.eqb field "exportingFrom" then
    {| product := product prev; exportingFrom := v;
       importingTo := importingTo prev |}
  else if String.eqb field "importingTo" then
    {| product := product prev; exportingFrom := exportingFrom prev;
       importingTo := v |}
  else prev.

Definition clearFilters (_ : Filters) : Filters := createInitialFilters.

End DefinitionsFilters.

(** ** components/tariff-definitions-table.tsx: adding a tariff *)

Module DefinitionsDialog.
Import Http DefinitionsTable.

Definition ADMIN_MODIFIED_PREFIX : string := "admin-modified".

Record TariffDefinitionsResponse := {
  success : bool;
  data : option (list TariffDefinition);
  error : option string;
}.

Definition createInitialNewTariff : NewTariff :=
  {| new_product := ""; new_exportingFrom := ""; new_importingTo := "";
     new_type := ""; new_rate := ""; new_effectiveDate := "";
     new_expirationDate := "" |}.

(** The state the handlers of the dialog read and write. *)
Record State := {
  modifiedGlobalTariffs : list TariffDefinition;
  userTariffs : list TariffDefinition;
  isDialogOpen : bool;
  alertDialog : AlertDialog;
  newTariff : NewTariff;
}.

Definition setAlert (a : AlertDialog) (st : State) : State :=
  {| modifiedGlobalTariffs := modifiedGlobalTariffs st;
     userTariffs := userTariffs st;
     isDialogOpen := isDialogOpen st;
     alertDialog := a;
     newTariff := newTariff st |}.

Definition setUserTariffs (l : list TariffDefinition) (st : State) : State :=
  {| modifiedGlobalTariffs := modifiedGlobalTariffs st;
     userTariffs := l;
     isDialogOpen := isDialogOpen st;
     alertDialog := alertDialog st;
     newTariff := newTariff st |}.

Definition setModifiedGlobalTariffs (l : list TariffDefinition) (st : State) : State :=
  {| modifiedGlobalTariffs := l;
     userTariffs := userTariffs st;
     isDialogOpen := isDialogOpen st;
     alertDialog := alertDialog st;
     newTariff := newTariff st |}.

(** What the outside world answers while a tariff is added: the clock,
    the session and the backend for the POST, and the session and the
    backend for the reload of the user tariffs that follows it in
    simulator mode. *)
Record Env := {
  now : N;
  addSession : SessionResult;
  addAnswer : FetchResult TariffDefinitionsResponse;
  reloadSession : SessionResult;
  reloadAnswer : FetchResult TariffDefinitionsResponse;
}.

Section WithProps.

Variable parseFloat : string -> float.
(** The properties [userRole] and [simulatorMode] of the component. *)
Variable userRole : string.
Variable simulatorMode : bool.

Definition isAdminRole : bool := String.eqb userRole "admin".

(** [`${prefix}-${Date.now()}`] *)
Definition generateTariffId (now : N) : string :=
  (if simulatorMode || negb isAdminRole then USER_ID_PREFIX
   else ADMIN_MODIFIED_PREFIX) +:+ "-" +:+ pretty now.

Definition createTariffPayload (now : N) (newTariff : NewTariff) : TariffDefinition :=
  {| id := generateTariffId now;
     product := new_product newTariff;
     exportingFrom := new_exportingFrom newTariff;
     importingTo := new_importingTo newTariff;
     type := new_type newTariff;
     rate := parseFloat (new_rate newTariff);
     effectiveDate := new_effectiveDate newTariff;
     expirationDate := new_expirationDate newTariff |}.

Definition getAddTariffEndpoint : string :=
  if negb simulatorMode && isAdminRole then
    API_BASE_URL +:+ "/tariff-definitions/modified"
  else API_BASE_URL +:+ "/tariff-definitions/user".

(** [addTariffToBackend]: [None] in the first component when it throws. *)
Definition addTariffToBackend (env : Env)
    : option TariffDefinitionsResponse * list Request :=
  match addSession env with
  | SessionRejects => (None, [])
  | SessionOk access_token =>
    (match addAnswer env with
     | NetworkError => None
     | Resp res => if negb (ok res) then None else json res
     end,
     [addRequest access_token simulatorMode isAdminRole])
  end.

(** [reloadUserTariffs]: [None] in the first component when it throws. *)
Definition reloadUserTariffs (env : Env) (st : State) : option State * list Request :=
  match reloadSession env with
  | SessionRejects => (None, [])
  | SessionOk access_token =>
    (match reloadAnswer env with
     | NetworkError => None
     | Resp userRes =>
       if ok userRes then
         match json userRes with
         | None => None
         | Some userData =>
           match data userData with
           | Some l => if success userData then Some (setUserTariffs l st) else Some st
           | None => Some st
           end
         end
       else Some st
     end,
     [fetchDataWithAuth access_token "/tariff-definitions/user"])
  end.

Definition checkIfTariffReplaced (st : State) (payload : TariffDefinition) : bool :=
  existsb (sameTriple payload) (modifiedGlobalTariffs st).

Definition showSimulatorSuccessMessage (st : State) : State :=
  setAlert (showAlert "Success" "Simulated tariff has been successfully added."
              (alertDialog st)) st.

(** [replaced] is computed from the list the handler was rendered with. *)
Definition showAdminSuccessMessage (replaced : bool) (payload : TariffDefinition)
    (st : State) : State :=
  if replaced then
    setAlert (showAlert "Tariff Updated"
                ("The global tariff for " +:+ product payload +:+ " from "
                 +:+ exportingFrom payload +:+ " to " +:+ importingTo payload
                 +:+ " has been updated.")
                (alertDialog st)) st
  else
    setAlert (showAlert "Success"
                "New global tariff has been successfully added to the system."
                (alertDialog st)) st.

Definition handleSimulatorModeSuccess (env : Env) (st : State)
    : option State * list Request :=
  match reloadUserTariffs env st with
  | (Some st, requests) => (Some (showSimulatorSuccessMessage st), requests)
  | (None, requests) => (None, requests)
  end.

Definition handleAdminModeSuccess (added : list TariffDefinition)
    (payload : TariffDefinition) (st : State) : State :=
  showAdminSuccessMessage (checkIfTariffReplaced st payload) payload
    (setModifiedGlobalTariffs (modifiedGlobalTariffs st ++ added)%list st).

Definition resetNewTariffForm (st : State) : State :=
  {| modifiedGlobalTariffs := modifiedGlobalTariffs st;
     userTariffs := userTariffs st;
     isDialogOpen := false;
     alertDialog := alertDialog st;
     newTariff := createInitialNewTariff |}.

(** The [catch] of [handleAddTariff]. State updates made before the
    exception stay made. *)
Definition addFailed (st : State) : State :=
  setAlert (showAlert "Error" "Failed to add tariff. Please try again."
              (alertDialog st)) st.

Definition handleAddTariff (env : Env) (st : State) : State * list Request :=
  let (valid, alert) := validateTariffInput parseFloat (newTariff st) (alertDialog st) in
  if negb valid then (setAlert alert st, [])
  else
    let st := setAlert alert st in
    let payload := createTariffPayload (now env) (newTariff st) in
    match addTariffToBackend env with
    | (None, requests) => (addFailed st, requests)
    | (Some response, requests) =>
      match data response with
      | None => (addFailed st, requests)
      | Some added =>
        if negb (success response) then (addFailed st, requests)
        else if simulatorMode then
          match handleSimulatorModeSuccess env st with
          | (Some st, more) => (resetNewTariffForm st, requests ++ more)%list
          | (None, more) => (addFailed st, requests ++ more)%list
          end
        else if isAdminRole then
          (resetNewTariffForm (handleAdminModeSuccess added payload st), requests)
        else (resetNewTariffForm st, requests)
      end
    end.

End WithProps.

End DefinitionsDialog.

(** ** components/tariff-calculator-form.tsx: options, validation, submission *)

Module CalculatorSubmit.
Import Http.

Definition MINIMUM_QUANTITY : float := 0%float.
Definition INITIAL_QUANTITY : string := "1".

(** [a || b] where both may be [undefined]. *)
Definition orOpt (a b : option string) : option string :=
  if JS.truthy_opt a then a else b.

(** [array.filter(Boolean)] on strings that may be [undefined]. *)
Definition filterBoolean (array : list (option string)) : list string :=
  omap (fun o => match o with
                 | Some s => if JS.truthy s then Some s else None
                 | None => None
                 end) array.

(** An entry of the user tariffs as the form reads it: the entry may be
    [null], and each of the three fields may be missing. *)
Record UserTariff := {
  t_product : option string;
  t_exportingFrom : option string;
  t_importingTo : option string;
}.

(** [t?.field] *)
Definition optField (field : UserTariff -> option string) (t : option UserTariff)
    : option string :=
  t ≫= field.

Definition extractUniqueProducts (tariffs : list (option UserTariff)) : list string :=
  JSSet.fromArray (filterBoolean (map (optField t_product) tariffs)).

Definition extractUniqueCountries (tariffs : list (option UserTariff)) : list string :=
  let exportingCountries := filterBoolean (map (optField t_exportingFrom) tariffs) in
  let importingCountries := filterBoolean (map (optField t_importingTo) tariffs) in
  let allCountries := (exportingCountries ++ importingCountries)%list in
  JSSet.fromArray allCountries.

(** [createInitialFormData()]; [today] is
    [new Date().toISOString().split("T")[0]]. *)
Definition createInitialFormData (today : string) : CalculatorForm.FormData :=
  {| CalculatorForm.product := "";
     CalculatorForm.exportingFrom := "";
     CalculatorForm.importingTo := "";
     CalculatorForm.quantity := INITIAL_QUANTITY;
     CalculatorForm.customCost := "";
     CalculatorForm.calculationDate := today;
     CalculatorForm.currency := Some "USD" |}.

(** The updater of [resetForm]. *)
Definition resetForm (today : string) (prev : CalculatorForm.FormData)
    : CalculatorForm.FormData :=
  let next := createInitialFormData today in
  CalculatorForm.setCurrency
    (orOpt (CalculatorForm.currency prev) (CalculatorForm.currency next)) next.

(** The part of the state the submission reads and writes. *)
Record State := {
  formData : CalculatorForm.FormData;
  error : string;
  isLoading : bool;
}.

Definition setError (msg : string) (st : State) : State :=
  {| formData := formData st; error := msg; isLoading := isLoading st |}.

Definition setIsLoading (b : bool) (st : State) : State :=
  {| formData := formData st; error := error st; isLoading := b |}.

(** The [data] of a calculation the backend answers: the three fields
    the form reads or writes, and everything else as it came. *)
Record CalculationData := {
  currency : option string;
  calculationId : option string;
  calculationDate : option string;
  details : Json;
}.

Record CalculationResult := {
  success : bool;
  data : option CalculationData;
  result_error : option string;
}.

Record SavedCalculation := {
  saved_id : option string;
  saved_calculationId : option string;
  saved_createdAt : option string;
  saved_calculationDate : option string;
}.

Inductive HistoryBody :=
| HistoryNotArray
| HistoryArray (items : list SavedCalculation).

(** What the outside world answers during one submission. The body of
    the save response may be [null]. *)
Record Env := {
  session : SessionResult;
  calculation : FetchResult CalculationResult;
  save : FetchResult (option SavedCalculation);
  history : FetchResult HistoryBody;
}.

Section WithPlatform.

Variable parseFloat : string -> float.
Variable API_BASE_URL : string.
Variable urlSearchParams : list (string * string) -> string.
(** The property [tariffSource] of the component. *)
Variable tariffSource : string.

Definition isGlobalTariffSource : bool := String.eqb tariffSource "global".

Definition validateRequiredFields (st : State) : bool * State :=
  let f := formData st in
  if negb (JS.truthy (CalculatorForm.product f))
     || negb (JS.truthy (CalculatorForm.exportingFrom f))
     || negb (JS.truthy (CalculatorForm.importingTo f))
     || negb (JS.truthy (CalculatorForm.quantity f))
     || negb (JS.truthy (CalculatorForm.customCost f))
  then (false, setError "Please fill in all required fields" st)
  else (true, st).

Definition validateQuantity (st : State) : bool * State :=
  if (parseFloat (CalculatorForm.quantity (formData st)) <=? MINIMUM_QUANTITY)%float
  then (false, setError "Quantity must be greater than 0" st)
  else (true, st).

Definition validateCustomCost (st : State) : bool * State :=
  let parsed := parseFloat (CalculatorForm.customCost (formData st)) in
  if JS.isNaN parsed || (parsed <=? MINIMUM_QUANTITY)%float
  then (false, setError "Unit cost must be greater than 0" st)
  else (true, st).

(** [validateRequiredFields() && validateQuantity() && validateCustomCost()] *)
Definition validateFormData (st : State) : bool * State :=
  let (filled, st) := validateRequiredFields st in
  if filled then
    let (quantityOk, st) := validateQuantity st in
    if quantityOk then validateCustomCost st else (false, st)
  else (false, st).

(** The pairs of [buildQueryParams], in the order they are added. *)
Definition buildQueryParams (f : CalculatorForm.FormData) : list (string * string) :=
  ([("product", CalculatorForm.product f);
    ("exportingFrom", CalculatorForm.exportingFrom f);
    ("importingTo", CalculatorForm.importingTo f);
    ("quantity", CalculatorForm.quantity f);
    ("customCost", CalculatorForm.customCost f);
    ("currency", JS.opt_or_else (CalculatorForm.currency f) "USD")]
   ++ (if negb isGlobalTariffSource then [("mode", "user")] else []))%list.

Definition calculationRequest (token : string) (f : CalculatorForm.FormData) : Request :=
  {| url := ApiConfig.getApiUrl API_BASE_URL "tariff" +:+ "?"
            +:+ urlSearchParams (buildQueryParams f);
     method := GET;
     headers := createAuthHeaders token;
     credentials := Some "include" |}.

Definition saveRequest (token : string) : Request :=
  {| url := ApiConfig.getApiUrl API_BASE_URL "tariff/history/save";
     method := POST;
     headers := createAuthHeaders token;
     credentials := Some "include" |}.

Definition historyRequest (token : string) : Request :=
  {| url := ApiConfig.getApiUrl API_BASE_URL "tariff/history";
     method := GET;
     headers := createAuthHeaders token;
     credentials := Some "include" |}.

(** [handleCalculationError]: the body is read for its [error]; when it
    does not decode the text [`HTTP ${status}`] stands for it. *)
Definition handleCalculationError (response : Response CalculationResult)
    (st : State) : State :=
  let errorText :=
    match json response with
    | Some errorData => result_error errorData
    | None => Some ("HTTP " +:+ pretty (status response))
    end in
  setError (JS.opt_or_else errorText "Calculation failed") st.

(** [saveCalculationToHistory]: the saved calculation, or [None] for
    [null]; it never throws. *)
Definition saveCalculationToHistory (token : string) (env : Env)
    : option SavedCalculation * list Request :=
  (match save env with
   | NetworkError => None
   | Resp response =>
     if ok response then
       match json response with
       | Some body => body
       | None => None
       end
     else None
   end,
   [saveRequest token]).

(** [fetchLatestCalculationId]: the [id] and the date of the first entry
    of the history, or [None] for [null]; it never throws. *)
Definition fetchLatestCalculationId (token : string) (env : Env)
    : option (option string * option string) * list Request :=
  (match history env with
   | NetworkError => None
   | Resp historyResponse =>
     if ok historyResponse then
       match json historyResponse with
       | Some (HistoryArray (latestCalculation :: _)) =>
           Some (saved_id latestCalculation, saved_createdAt latestCalculation)
       | _ => None
       end
     else None
   end,
   [historyRequest token]).

Definition withCurrency (c : option string) (d : CalculationData) : CalculationData :=
  {| currency := c; calculationId := calculationId d;
     calculationDate := calculationDate d; details := details d |}.

Definition withMetadata (id date : option string) (d : CalculationData)
    : CalculationData :=
  {| currency := currency d; calculationId := id;
     calculationDate := date; details := details d |}.

(** [handleCalculationSuccess]: the state, the data handed to
    [onCalculationComplete] when it is called, and the requests sent. *)
Definition handleCalculationSuccess (result : CalculationResult) (token : string)
    (env : Env) (st : State) : State * option CalculationData * list Request :=
  match data result with
  | None => (setError (JS.opt_or_else (result_error result) "Calculation failed") st,
             None, [])
  | Some resultData =>
    if negb (success result) then
      (setError (JS.opt_or_else (result_error result) "Calculation failed") st,
       None, [])
    else
      let resultData :=
        withCurrency
          (orOpt (currency resultData)
             (orOpt (CalculatorForm.currency (formData st)) (Some "USD")))
          resultData in
      match saveCalculationToHistory token env with
      | (Some savedCalculation, requests) =>
          (st,
           Some (withMetadata
                   (orOpt (saved_id savedCalculation)
                      (orOpt (saved_calculationId savedCalculation)
                         (calculationId resultData)))
                   (orOpt (saved_createdAt savedCalculation)
                      (orOpt (saved_calculationDate savedCalculation)
                         (calculationDate resultData)))
                   resultData),
           requests)
      | (None, requests) =>
        match fetchLatestCalculationId token env with
        | (Some (id, date), more) =>
            (st, Some (withMetadata id date resultData), (requests ++ more)%list)
        | (None, more) => (st, Some resultData, (requests ++ more)%list)
        end
      end
  end.

Definition handleSubmit (env : Env) (st : State)
    : State * option CalculationData * list Request :=
  let st := setIsLoading true (setError "" st) in
  let (valid, st) := validateFormData st in
  if negb valid then (setIsLoading false st, None, [])
  else
    match session env with
    | SessionRejects =>
        (setIsLoading false
           (setError "An unexpected error occurred during calculation" st),
         None, [])
    | SessionOk access_token =>
      let token := getAuthToken access_token in
      let request := calculationRequest token (formData st) in
      match calculation env with
      | NetworkError =>
          (setIsLoading false
             (setError "An unexpected error occurred during calculation" st),
           None, [request])
      | Resp response =>
        if negb (ok response) then
          (setIsLoading false (handleCalculationError response st), None, [request])
        else
          match json response with
          | None =>
              (setIsLoading false
                 (setError "An unexpected error occurred during calculation" st),
               None, [request])
          | Some result =>
              match handleCalculationSuccess result token env st with
              | (st, completed, more) =>
                  (setIsLoading false st, completed, request :: more)
              end
          end
      end
    end.

End WithPlatform.

End CalculatorSubmit.

(** ** components/tariff-comparison-panel.tsx: validation and submission *)

Module ComparisonSubmit.
Import Http.

Record CountryComparison := {
  country : string;
  tariffRate : float;
  tariffType : string;
  productCost : float;
  tariffAmount : float;
  totalCost : float;
  hasFTA : bool;
  rank : float;
}.

(** A row of [formattedChartData]. *)
Record ChartRow := {
  row_country : string;
  row_productCost : float;
  row_tariffAmount : float;
  row_totalCost : float;
  row_tariffRate : float;
  row_tariffType : string;
  row_hasFTA : bool;
}.

(** The [data] of a comparison: its currency, its [comparisons] when
    they are an array, and everything else as it came. *)
Record ComparisonData := {
  currency : option string;
  comparisons : option (list CountryComparison);
  details : Json;
}.

Record TariffComparisonResult := {
  success : bool;
  data : option ComparisonData;
  result_error : option string;
}.

Record State := {
  formData : ComparisonPanel.ComparisonFormData;
  submitting : bool;
  error : option string;
  result : option TariffComparisonResult;
}.

Definition setError (e : option string) (st : State) : State :=
  {| formData := formData st; submitting := submitting st; error := e;
     result := result st |}.

(** What the outside world answers during one submission; [rejection] is
    the [message] of the error thrown when the session provider or the
    request rejects or the body does not decode. *)
Record Env := {
  session : SessionResult;
  compare : FetchResult TariffComparisonResult;
  rejection : string;
}.

Section WithPlatform.

Variable parseFloat : string -> float.
Variable API_BASE_URL : string.

Definition validateForm (st : State) : bool * State :=
  let f := formData st in
  if negb (JS.truthy (ComparisonPanel.product f))
     || negb (JS.truthy (ComparisonPanel.exportingFrom f))
     || (length (ComparisonPanel.importingToCountries f) =? 0)%nat
  then
    (false,
     setError (Some "Please select a product, an exporting country, and at least one importing country.") st)
  else
    let quantityValue := parseFloat (ComparisonPanel.quantity f) in
    if JS.isNaN quantityValue || (quantityValue <=? 0)%float then
      (false, setError (Some "Quantity must be greater than 0.") st)
    else if JS.truthy (ComparisonPanel.customCost f) then
      let costValue := parseFloat (ComparisonPanel.customCost f) in
      if JS.isNaN costValue || (costValue <=? 0)%float then
        (false, setError (Some "Custom unit cost must be greater than 0.") st)
      else (true, st)
    else (true, st).

Definition compareRequest (token : string) : Request :=
  {| url := ApiConfig.getApiUrl API_BASE_URL "tariffs/compare";
     method := POST;
     headers := createAuthHeaders token;
     credentials := Some "include" |}.

(** The [catch] and the [finally] of [handleSubmit], after the three
    state updates that open the [try]. *)
Definition failWith (msg : string) (st : State) : State :=
  {| formData := formData st; submitting := false;
     error := Some (JS.or_else msg "Unable to complete comparison. Please try again.");
     result := None |}.

(** [body.data.currency = body.data.currency || formData.currency] *)
Definition withFormCurrency (formCurrency : string) (body : TariffComparisonResult)
    : TariffComparisonResult :=
  {| success := success body;
     data :=
       match data body with
       | Some d =>
           Some {| currency :=
                     if JS.truthy_opt (currency d) then currency d
                     else Some formCurrency;
                   comparisons := comparisons d;
                   details := details d |}
       | None => None
       end;
     result_error := result_error body |}.

Definition handleSubmit (env : Env) (st : State) : State * list Request :=
  let (valid, st) := validateForm st in
  if negb valid then (st, [])
  else
    match session env with
    | SessionRejects => (failWith (rejection env) st, [])
    | SessionOk access_token =>
      let token := getAuthToken access_token in
      (match compare env with
       | NetworkError => failWith (rejection env) st
       | Resp response =>
         match json response with
         | None => failWith (rejection env) st
         | Some body =>
           if negb (ok response) || negb (success body) then
             failWith (JS.opt_or_else (result_error body)
                         "Comparison failed. Please try again.") st
           else
             {| formData := formData st; submitting := false; error := None;
                result := Some (withFormCurrency
                                  (ComparisonPanel.currency (formData st)) body) |}
         end
       end,
       [compareRequest token])
    end.

End WithPlatform.

Definition formattedChartData (result : option TariffComparisonResult)
    : list ChartRow :=
  match result with
  | Some r =>
    match data r with
    | Some d =>
      match comparisons d with
      | Some items =>
          map (fun item =>
                 {| row_country := country item;
                    row_productCost := productCost item;
                    row_tariffAmount := tariffAmount item;
                    row_totalCost := totalCost item;
                    row_tariffRate := tariffRate item;
                    row_tariffType := tariffType item;
                    row_hasFTA := hasFTA item |}) items
      | None => []
      end
    | None => []
    end
  | None => []
  end.

End ComparisonSubmit.

(** ** app/page.tsx and the results table: the calculation shown *)

Module Page.

(** The object [handleCalculationComplete] stores in [calculationResults]. *)
Record CalculationWithId := {
  data : CalculatorSubmit.CalculationData;
  calculationId : string;
  calculationDate : string;
}.

(** [stamp] is [`${Date.now()}_${Math.random().toString(36).substr(2, 9)}`]
    and [isoNow] is [new Date().toISOString()]. *)
Definition handleCalculationComplete (stamp isoNow : string)
    (results : CalculatorSubmit.CalculationData) : CalculationWithId :=
  {| data := results;
     calculationId :=
       JS.opt_or_else (CalculatorSubmit.calculationId results) ("calc_" +:+ stamp);
     calculationDate :=
       JS.opt_or_else (CalculatorSubmit.calculationDate results) isoNow |}.

(** The [results] property the dashboard hands to the results table: the
    stored object has a [data] field, an object and so truthy. *)
Definition dashboardResults (c : CalculationWithId) : ResultsTable.Results :=
  {| ResultsTable.data_calculationId :=
       Some (CalculatorSubmit.calculationId (data c));
     ResultsTable.own_calculationId := Some (calculationId c) |}.

(** The [results] property the simulator hands to the results table: its
    result object has no [data] field. *)
Definition simulatorResults (r : Simulator.CalculationResult) : ResultsTable.Results :=
  {| ResultsTable.data_calculationId := None;
     ResultsTable.own_calculationId := Simulator.res_calculationId r |}.

End Page.

(** ** components/export-cart-with-history.tsx: selection and history *)

Module ExportCart.
Import Http.

Record CartItem := {
  id : string;
  productName : string;
  exportingFrom : string;
  importingTo : string;
  quantity : float;
  unit : string;
  productCost : float;
  totalCost : float;
  tariffType : string;
  source : option string;
  calculationDate : string;
  currency : option string;
  breakdown : option (list Simulator.BreakdownRow);
}.

Record State := {
  cartItems : list CartItem;
  historyItems : list CartItem;
  selectedCartItems : list string;
  selectedHistoryItems : list string;
  isLoadingCart : bool;
  isLoadingHistory : bool;
  error : string;
  successMessage : string;
}.

Definition setSelectedCartItems (s : list string) (st : State) : State :=
  {| cartItems := cartItems st; historyItems := historyItems st;
     selectedCartItems := s; selectedHistoryItems := selectedHistoryItems st;
     isLoadingCart := isLoadingCart st; isLoadingHistory := isLoadingHistory st;
     error := error st; successMessage := successMessage st |}.

Definition setSelectedHistoryItems (s : list string) (st : State) : State :=
  {| cartItems := cartItems st; historyItems := historyItems st;
     selectedCartItems := selectedCartItems st; selectedHistoryItems := s;
     isLoadingCart := isLoadingCart st; isLoadingHistory := isLoadingHistory st;
     error := error st; successMessage := successMessage st |}.

(** The body shared by [handleSelectCartItem] and
    [handleSelectHistoryItem], on a copy of the set. *)
Definition toggle (selected : list string) (id : string) : list string :=
  if JSSet.has selected id then JSSet.delete selected id else JSSet.add selected id.

Definition handleSelectCartItem (id : string) (st : State) : State :=
  setSelectedCartItems (toggle (selectedCartItems st) id) st.

Definition handleSelectHistoryItem (id : string) (st : State) : State :=
  setSelectedHistoryItems (toggle (selectedHistoryItems st) id) st.

Definition handleSelectAllCart (st : State) : State :=
  if (JSSet.size (selectedCartItems st) =? length (cartItems st))%nat then
    setSelectedCartItems [] st
  else setSelectedCartItems (JSSet.fromArray (map id (cartItems st))) st.

Definition handleSelectAllHistory (st : State) : State :=
  if (JSSet.size (selectedHistoryItems st) =? length (historyItems st))%nat then
    setSelectedHistoryItems [] st
  else setSelectedHistoryItems (JSSet.fromArray (map id (historyItems st))) st.

Section WithBase.

Variable API_BASE_URL : string.

Definition historyRequest (token : option string) : Request :=
  {| url := ApiConfig.getApiUrl API_BASE_URL "tariff/history";
     method := GET;
     headers := [("Authorization", bearer token); ("Content-Type", "application/json")];
     credentials := Some "include" |}.

Definition finishHistory (items : option (list CartItem)) (st : State) : State :=
  {| cartItems := cartItems st;
     historyItems := default (historyItems st) items;
     selectedCartItems := selectedCartItems st;
     selectedHistoryItems := selectedHistoryItems st;
     isLoadingCart := isLoadingCart st; isLoadingHistory := false;
     error := error st; successMessage := successMessage st |}.

(** [loadHistory]. The body of the response is an array of items or
    [null] ([None]); the [catch] logs and shows nothing. *)
Definition loadHistory (session : SessionResult)
    (answer : FetchResult (option (list CartItem))) (st : State)
    : State * list Request :=
  match session with
  | SessionRejects => (finishHistory None st, [])
  | SessionOk token =>
    (match answer with
     | NetworkError => finishHistory None st
     | Resp response =>
       if (status response =? 204)%nat then finishHistory (Some []) st
       else if negb (ok response) then finishHistory None st
       else
         match json response with
         | None => finishHistory None st
         | Some result =>
           let cartIds := JSSet.fromArray (map id (cartItems st)) in
           let filteredHistory :=
             List.filter (fun item => negb (JSSet.has cartIds (id item)))
               (default [] result) in
           finishHistory (Some filteredHistory) st
         end
     end,
     [historyRequest token])
  end.

End WithBase.

End ExportCart.

(** ** components/tariff-filters.tsx *)

Module TariffFilters.
Import Http.

Definition API_BASE_URL : string := "http://localhost:8080/api".

Record State := {
  localFilters : Trends.FilterSelection;
  exportCountries : list string;
  importCountries : list string;
  products : list string;
  isLoading : bool;
}.

Definition setLocalFilters (f : Trends.FilterSelection) (st : State) : State :=
  {| localFilters := f; exportCountries := exportCountries st;
     importCountries := importCountries st; products := products st;
     isLoading := isLoading st |}.

Definition optionsRequest (path : string) (token : string) : Request :=
  {| url := API_BASE_URL +:+ path;
     method := GET;
     headers := createAuthHeaders token;
     credentials := Some "include" |}.

(** The body shared by [fetchCountries] and [fetchProducts]: the array
    the backend sent, or the empty array. The payload is [None] when it is
    not an array. *)
Definition fetchOptions (path : string) (session : SessionResult)
    (answer : FetchResult (option (list string))) : list string * list Request :=
  match session with
  | SessionRejects => ([], [])
  | SessionOk access_token =>
    (match answer with
     | NetworkError => []
     | Resp response =>
       if negb (ok response) then []
       else
         match json response with
         | Some (Some data) => data
         | _ => []
         end
     end,
     [optionsRequest path (getAuthToken access_token)])
  end.

Definition fetchCountries := fetchOptions "/countries".
Definition fetchProducts := fetchOptions "/products".

(** [loadFilterOptions]: the two requests of [Promise.all], neither of
    which can reject. *)
Definition loadFilterOptions
    (countriesSession productsSession : SessionResult)
    (countriesAnswer productsAnswer : FetchResult (option (list string)))
    (st : State) : State * list Request :=
  let (countriesData, r1) := fetchCountries countriesSession countriesAnswer in
  let (productsData, r2) := fetchProducts productsSession productsAnswer in
  ({| localFilters := localFilters st; exportCountries := countriesData;
      importCountries := countriesData; products := productsData;
      isLoading := false |},
   (r1 ++ r2)%list).

Definition resetFilters : Trends.FilterSelection :=
  {| Trends.exportCountries := [];
     Trends.importCountries := [];
     Trends.products := [];
     Trends.dateRange := {| Trends.start := "2020-01-01";
                            Trends.end_ := "2024-12-31" |} |}.

Section WithParent.

(** The property [onFilterChange], a handler of the parent with the
    parent's state [P] and what it sends. *)
Context {P : Type}.
Variable onFilterChange : Trends.FilterSelection -> P -> P * list Request.

Definition handleApplyFilters (st : State) (parent : P) : State * (P * list Request) :=
  (st, onFilterChange (localFilters st) parent).

Definition handleReset (st : State) (parent : P) : State * (P * list Request) :=
  (setLocalFilters resetFilters st, onFilterChange resetFilters parent).

End WithParent.

End TariffFilters.

(** * Properties *)

(** ** Strings *)

Lemma truthy_true (s : string) : JS.truthy s = true <-> s <> "".
Proof.
  unfold JS.truthy. rewrite negb_true_iff.
  destruct (String.eqb_spec s ""); split; congruence.
Qed.

Lemma truthy_false (s : string) : JS.truthy s = false <-> s = "".
Proof.
  unfold JS.truthy. rewrite negb_false_iff. apply String.eqb_eq.
Qed.

Lemma or_else_truthy (a b : string) : a <> "" -> JS.or_else a b = a.
Proof. intros H. unfold JS.or_else. apply truthy_true in H. now rewrite H. Qed.

Lemma app_cons_string (c : Ascii.ascii) (s t : string) :
  String c s +:+ t = String c (s +:+ t).
Proof. reflexivity. Qed.

Lemma app_nil_r_string (s : string) : s +:+ "" = s.
Proof.
  induction s as [|c s IH]; [reflexivity | now rewrite app_cons_string, IH].
Qed.

Lemma app_assoc_string (a b c : string) : (a +:+ b) +:+ c = a +:+ (b +:+ c).
Proof.
  induction a as [|x a IH]; [reflexivity | now rewrite !app_cons_string, IH].
Qed.

Lemma prefix_spec (p s : string) :
  String.prefix p s = true <-> exists q, s = p +:+ q.
Proof.
  revert s. induction p as [|c p IH]; intros s.
  - destruct s; cbn; split; intros _; [now exists "" | reflexivity
                                      | now eexists | reflexivity].
  - destruct s as [|d s]; cbn.
    + split; [discriminate | intros [q Hq]; discriminate].
    + destruct (Ascii.ascii_dec c d) as [->|Hne].
      * rewrite IH. split; intros [q Hq]; exists q;
          rewrite app_cons_string in *; congruence.
      * split; [discriminate | intros [q Hq]].
        rewrite app_cons_string in Hq. congruence.
Qed.

Lemma startsWith_slash (e : string) :
  JS.startsWith e "/" = true <-> exists rest, e = "/" +:+ rest.
Proof. unfold JS.startsWith. apply prefix_spec. Qed.

Lemma endsWith_nil (suffix : string) :
  JS.endsWith "" suffix = String.eqb "" suffix || false.
Proof. reflexivity. Qed.

Lemma endsWith_cons (c : Ascii.ascii) (s suffix : string) :
  JS.endsWith (String c s) suffix
  = String.eqb (String c s) suffix || JS.endsWith s suffix.
Proof. reflexivity. Qed.

Lemma endsWith_spec (s suffix : string) :
  JS.endsWith s suffix = true <-> exists p, s = p +:+ suffix.
Proof.
  induction s as [|c s IH].
  - rewrite endsWith_nil, orb_false_r, String.eqb_eq. split.
    + intros <-. now exists "".
    + intros [p Hp]. destruct p; [exact Hp | discriminate].
  - rewrite endsWith_cons, orb_true_iff, String.eqb_eq, IH. split.
    + intros [<- | [p ->]]; [now exists "" | now exists (String c p)].
    + intros [p Hp]. destruct p as [|d p].
      * now left.
      * right. exists p. rewrite app_cons_string in Hp. congruence.
Qed.

Lemma includes_nil (sub : string) :
  JS.includes "" sub = String.prefix sub "" || false.
Proof. reflexivity. Qed.

Lemma includes_cons (c : Ascii.ascii) (s sub : string) :
  JS.includes (String c s) sub
  = String.prefix sub (String c s) || JS.includes s sub.
Proof. reflexivity. Qed.

Lemma includes_spec (s sub : string) :
  JS.includes s sub = true <-> exists p q, s = p +:+ sub +:+ q.
Proof.
  induction s as [|c s IH].
  - rewrite includes_nil, orb_false_r, prefix_spec. split.
    + intros [q Hq]. now exists "", q.
    + intros [p [q Hq]]. destruct p; [eauto | discriminate].
  - rewrite includes_cons, orb_true_iff, prefix_spec, IH. split.
    + intros [[q Hq] | [p [q ->]]]; [now exists "", q | now exists (String c p), q].
    + intros [p [q Hq]]. destruct p as [|d p].
      * left. eauto.
      * right. exists p, q. rewrite app_cons_string in Hq. congruence.
Qed.

(** ** Numbers: the comparisons with zero that the validators make *)

Lemma positive_not_le_zero (x : float) :
  (0 <? x)%float = true -> (x <=? 0)%float = false.
Proof.
  rewrite FloatAxioms.ltb_spec, FloatAxioms.leb_spec.
  change (Prim2SF 0) with (S754_zero false).
  destruct (Prim2SF x) as [s|s| |s m e]; try destruct s; cbn; congruence.
Qed.

Lemma nonnegative_not_lt_zero (x : float) :
  (0 <=? x)%float = true -> (x <? 0)%float = false.
Proof.
  rewrite FloatAxioms.ltb_spec, FloatAxioms.leb_spec.
  change (Prim2SF 0) with (S754_zero false).
  destruct (Prim2SF x) as [s|s| |s m e]; try destruct s; cbn; congruence.
Qed.

(** A value is a number that is at least zero exactly when it is neither
    NaN nor below zero. *)
Lemma nan_or_negative (x : float) :
  JS.isNaN x || (x <? 0)%float = negb (0 <=? x)%float.
Proof.
  unfold JS.isNaN, is_nan. rewrite FloatAxioms.eqb_spec, FloatAxioms.ltb_spec, FloatAxioms.leb_spec.
  change (Prim2SF 0) with (S754_zero false).
  destruct (Prim2SF x) as [s|s| |s m e] eqn:E; try destruct s; cbn; try reflexivity.
  all: rewrite Z.compare_refl, Pos.compare_cont_refl; reflexivity.
Qed.

(** ** lib/apiConfig.ts *)

Example getApiUrl_plain :
  ApiConfig.getApiUrl (ApiConfig.API_BASE_URL None) "export-cart"
  = "http://localhost:8080/api/export-cart".
Proof. reflexivity. Qed.

Example getApiUrl_bare_host :
  ApiConfig.getApiUrl (ApiConfig.API_BASE_URL (Some "https://tariff.example"))
    "/tariff/history"
  = "https://tariff.example/api/tariff/history".
Proof. reflexivity. Qed.

(** Only one leading slash is removed. *)
Example getApiUrl_two_slashes :
  ApiConfig.getApiUrl "http://localhost:8080/api" "//countries"
  = "http://localhost:8080/api//countries".
Proof. reflexivity. Qed.



(** ** components/simulator-calculator.tsx *)

Section SimulatorProperties.
Import Simulator.

Variable parseFloat : string -> float.
Variable toFixed2 : float -> string.
Variable numberToString : float -> string.
Variable API_BASE_URL : string.

Local Abbreviation handleSubmit :=
  (Simulator.handleSubmit parseFloat toFixed2 numberToString API_BASE_URL).

Lemma missingRequired_false (f : FormData) :
  missingRequired f = false <->
  product f <> "" /\ unit f <> "" /\ exportingFrom f <> "" /\ importingTo f <> ""
  /\ tariffRate f <> "" /\ quantity f <> "" /\ customCost f <> "".
Proof.
  unfold missingRequired.
  rewrite !orb_false_iff, !negb_false_iff, !truthy_true. tauto.
Qed.

Lemma missingRequired_true (f : FormData) :
  missingRequired f = true <->
  product f = "" \/ unit f = "" \/ exportingFrom f = "" \/ importingTo f = ""
  \/ tariffRate f = "" \/ quantity f = "" \/ customCost f = "".
Proof.
  unfold missingRequired.
  rewrite !orb_true_iff, !negb_true_iff, !truthy_false. tauto.
Qed.

(** The local id is never falsy, so a result always ends with a truthy id. *)
Lemma finalId_truthy (env : Env) :
  JS.truthy_opt (finalId API_BASE_URL env) = true.
Proof.
  unfold finalId.
  destruct (fst (saveToHistory API_BASE_URL env)) as [id|]; [|reflexivity].
  destruct (JS.truthy_opt id) eqn:E; [exact E | reflexivity].
Qed.

(** What [handleSubmit] does once the four validations have passed. *)
Lemma handleSubmit_accepts (st : State) (env : Env) :
  missingRequired (formData st) = false ->
  (parseFloat (quantity (formData st)) <=? 0)%float = false ->
  (parseFloat (customCost (formData st)) <=? 0)%float = false ->
  (parseFloat (tariffRate (formData st)) <? 0)%float = false ->
  handleSubmit st env =
  ({| formData := formData st; error := ""; isLoading := false;
      calculationResult :=
        Some (withId (computeResult parseFloat toFixed2 numberToString (formData st))
                     (finalId API_BASE_URL env)) |},
   snd (saveToHistory API_BASE_URL env)).
Proof.
  intros H1 H2 H3 H4. unfold Simulator.handleSubmit.
  now rewrite H1, H2, H3, H4.
Qed.


(** The validations in the order the handler makes them. *)
Lemma handleSubmit_rejects (st : State) (env : Env) :
  let f := formData st in
  missingRequired f = true
  \/ (parseFloat (quantity f) <=? 0)%float = true
  \/ (parseFloat (customCost f) <=? 0)%float = true
  \/ (parseFloat (tariffRate f) <? 0)%float = true ->
  exists msg, msg <> "" /\ handleSubmit st env = reject st msg.
Proof.
  intros f H. unfold Simulator.handleSubmit. fold f.
  destruct (missingRequired f); [eexists; split; [|reflexivity]; discriminate|].
  destruct (parseFloat (quantity f) <=? 0)%float;
    [eexists; split; [|reflexivity]; discriminate|].
  destruct (parseFloat (customCost f) <=? 0)%float;
    [eexists; split; [|reflexivity]; discriminate|].
  destruct (parseFloat (tariffRate f) <? 0)%float;
    [eexists; split; [|reflexivity]; discriminate|].
  destruct H as [H | [H | [H | H]]]; discriminate H.
Qed.

(** C3, as the component behaves. A submission is rejected, with an error
    set, the previous result left as it was and no request sent, exactly
    when a required field is empty, or the quantity parses to a number
    [<= 0], or the unit cost parses to a number [<= 0], or the tariff rate
    parses to a number [< 0]. Every other submission is accepted, whether
    or not the two countries are equal: the error is cleared and a result
    carrying the two countries is produced. *)
Theorem simulator_validation (st : State) (env : Env) :
  let f := formData st in
  let st' := fst (handleSubmit st env) in
  let rejected :=
    (product f = "" \/ unit f = "" \/ exportingFrom f = "" \/ importingTo f = ""
     \/ tariffRate f = "" \/ quantity f = "" \/ customCost f = "")
    \/ (parseFloat (quantity f) <=? 0)%float = true
    \/ (parseFloat (customCost f) <=? 0)%float = true
    \/ (parseFloat (tariffRate f) <? 0)%float = true in
  (rejected <-> error st' <> "")
  /\ (rejected ->
      calculationResult st' = calculationResult st
      /\ snd (handleSubmit st env) = [])
  /\ (~ rejected ->
      exists res,
        calculationResult st' = Some res
        /\ res_exportingFrom res = exportingFrom f
        /\ res_importingTo res = importingTo f).
Proof.
  intros f st' rejected.
  assert (Hdec : rejected \/ ~ rejected).
  { unfold rejected. rewrite <- missingRequired_true.
    destruct (missingRequired f); [now left; left|].
    destruct (parseFloat (quantity f) <=? 0)%float; [now left; right; left|].
    destruct (parseFloat (customCost f) <=? 0)%float;
      [now left; right; right; left|].
    destruct (parseFloat (tariffRate f) <? 0)%float;
      [now left; right; right; right|].
    right. intros [H | [H | [H | H]]]; discriminate H. }
  assert (Hrej : rejected ->
            exists msg, msg <> "" /\ handleSubmit st env = reject st msg).
  { intros H. apply handleSubmit_rejects. fold f.
    unfold rejected in H. rewrite <- missingRequired_true in H. exact H. }
  assert (Hacc : ~ rejected ->
            handleSubmit st env =
            ({| formData := f; error := ""; isLoading := false;
                calculationResult :=
                  Some (withId (computeResult parseFloat toFixed2 numberToString f)
                               (finalId API_BASE_URL env)) |},
             snd (saveToHistory API_BASE_URL env))).
  { intros H. unfold rejected in H. rewrite <- missingRequired_true in H.
    apply handleSubmit_accepts; fold f.
    - destruct (missingRequired f); [destruct H; now left | reflexivity].
    - destruct (parseFloat (quantity f) <=? 0)%float;
        [destruct H; now right; left | reflexivity].
    - destruct (parseFloat (customCost f) <=? 0)%float;
        [destruct H; now right; right; left | reflexivity].
    - destruct (parseFloat (tariffRate f) <? 0)%float;
        [destruct H; now right; right; right | reflexivity]. }
  split; [|split].
  - split.
    + intros H. destruct (Hrej H) as [msg [Hmsg E]]. subst st'. now rewrite E.
    + intros H. destruct Hdec as [Hr | Hn]; [exact Hr|].
      subst st'. rewrite (Hacc Hn) in H. now destruct H.
  - intros H. destruct (Hrej H) as [msg [Hmsg E]]. subst st'. now rewrite E.
  - intros H. subst st'. rewrite (Hacc H). eexists. split; [reflexivity|].
    split; reflexivity.
Qed.

End SimulatorProperties.


(** C3, as stated, fails: with Thailand as both countries and every other
    input valid, no error is set and a result is produced. *)
Lemma simulator_equal_countries_accepted :
  let f := Simulator.riceForm "Thailand" "Thailand" "percentage" in
  let out := Simulator.handleSubmit Simulator.parseFloat_digits
               (fun _ => "5.00") (fun _ => "10") "http://localhost:8080/api"
               (Simulator.mounted f) Simulator.offline in
  Simulator.exportingFrom f = Simulator.importingTo f
  /\ Simulator.calculationResult (Simulator.mounted f) = None
  /\ Simulator.error (fst out) = ""
  /\ (exists res, Simulator.calculationResult (fst out) = Some res
                  /\ Simulator.res_totalCost res = 22%float).
Proof.
  vm_compute. repeat split. eexists. split; reflexivity.
Qed.

Lemma simulator_validation_witness :
  let f := Simulator.riceForm "Thailand" "Thailand" "fixed" in
  exists res,
    Simulator.calculationResult
      (fst (Simulator.handleSubmit Simulator.parseFloat_digits
              (fun _ => "5.00") (fun _ => "10") "http://localhost:8080/api"
              (Simulator.mounted f) Simulator.offline)) = Some res
    /\ Simulator.res_exportingFrom res = "Thailand"
    /\ Simulator.res_importingTo res = "Thailand".
Proof.
  intros f.
  apply (proj2 (proj2 (simulator_validation Simulator.parseFloat_digits
              (fun _ => "5.00") (fun _ => "10") "http://localhost:8080/api"
              (Simulator.mounted f) Simulator.offline))).
  intros [H | [H | [H | H]]].
  - cbn in H. repeat destruct H as [H | H]; discriminate H.
  - vm_compute in H. discriminate H.
  - vm_compute in H. discriminate H.
  - vm_compute in H. discriminate H.
Defined.

(** ** app/page.tsx: the cart counter *)

Section HomeProperties.
Import Http Home.

Variable API_BASE_URL : string.

Lemma includes_nonempty (s sub : string) :
  sub <> "" -> JS.includes s sub = true -> JS.truthy s = true.
Proof.
  intros Hsub H. apply truthy_true. intros ->.
  rewrite includes_nil, orb_false_r in H.
  destruct sub; [now destruct Hsub | discriminate H].
Qed.

Example parseCartResponse_three_items :
  parseCartResponse
    {| status := 200; content_type := Some "application/json;charset=UTF-8";
       text := ""; json := Some (JArr [JNull; JNull; JNull]) |} = 3.
Proof. reflexivity. Qed.

Example parseCartResponse_empty_cart :
  parseCartResponse
    {| status := 204; content_type := Some "application/json";
       text := ""; json := Some (JArr [JNull]) |} = 0.
Proof. reflexivity. Qed.

(** The counter [parseCartResponse] computes is the one [fetchCartCount]
    stores. *)
Lemma fetchCartCount_parseCartResponse (token : option string)
    (response : Response Json) (st : State) :
  cartCount (fst (fetchCartCount API_BASE_URL (SessionOk token) (Resp response) st))
  = parseCartResponse response.
Proof.
  unfold fetchCartCount, parseCartResponse, EMPTY_CART_STATUS. cbn.
  destruct (status response =? 204)%nat; [reflexivity|].
  destruct (ok response); [|reflexivity]. cbn.
  destruct (content_type response) as [contentType|]; [|reflexivity].
  destruct (JS.truthy contentType); [|reflexivity].
  destruct (JS.includes contentType "application/json"); [|reflexivity]. cbn.
  destruct (json response); reflexivity.
Qed.

(** C7. [fetchCartCount] stores the length of the array the backend
    answered when the response has a status other than 204, is OK, has a
    content type that contains "application/json" and a body that decodes
    to an array; in every other case (status 204, a status that is not OK,
    a missing or other content type, a body that does not decode or is not
    an array, a rejected request or session) it stores 0. *)
Theorem fetchCartCount_count (session : SessionResult) (answer : FetchResult Json)
    (st : State) :
  let st' := fst (fetchCartCount API_BASE_URL session answer st) in
  let counts (n : nat) :=
    exists token response contentType items,
      session = SessionOk token /\ answer = Resp response
      /\ status response <> 204 /\ ok response = true
      /\ content_type response = Some contentType
      /\ (exists p q, contentType = p +:+ "application/json" +:+ q)
      /\ json response = Some (JArr items)
      /\ n = length items in
  (forall n, counts n -> cartCount st' = n)
  /\ ((forall n, ~ counts n) -> cartCount st' = 0).
Proof.
  intros st' counts. split.
  - intros n (token & response & contentType & items
              & -> & -> & Hs & Hok & Hct & Hinc & Hjson & ->).
    subst st'. rewrite fetchCartCount_parseCartResponse.
    unfold parseCartResponse, EMPTY_CART_STATUS.
    apply Nat.eqb_neq in Hs. rewrite Hs, Hok, Hct. cbn.
    apply includes_spec in Hinc.
    assert (Hne : "application/json" <> "") by discriminate.
    rewrite (includes_nonempty _ _ Hne Hinc), Hinc, Hjson.
    reflexivity.
  - intros Hnone. subst st'.
    destruct session as [|token]; [reflexivity|].
    destruct answer as [|response]; [reflexivity|].
    rewrite fetchCartCount_parseCartResponse.
    unfold parseCartResponse, EMPTY_CART_STATUS.
    destruct (status response =? 204)%nat eqn:Hs; [reflexivity|].
    destruct (ok response) eqn:Hok; [|reflexivity]. cbn.
    destruct (content_type response) as [contentType|] eqn:Hct; [|reflexivity].
    destruct (JS.truthy contentType); [|reflexivity].
    destruct (JS.includes contentType "application/json") eqn:Hinc; [|reflexivity].
    cbn.
    destruct (json response) as [[| | | |items|]|] eqn:Hjson; try reflexivity.
    exfalso. apply (Hnone (length items)).
    exists token, response, contentType, items.
    apply Nat.eqb_neq in Hs. apply includes_spec in Hinc. auto 10.
Qed.

End HomeProperties.

Lemma fetchCartCount_count_witness :
  Home.cartCount
    (fst (Home.fetchCartCount "http://localhost:8080/api"
            (Http.SessionOk (Some "tok"))
            (Http.Resp
               {| Http.status := 200;
                  Http.content_type := Some "application/json";
                  Http.text := "";
                  Http.json := Some (Http.JArr [Http.JNull; Http.JNull]) |})
            {| Home.currentView := Home.cart; Home.cartCount := 7 |})) = 2.
Proof.
  apply (proj1 (fetchCartCount_count _ _ _ _)).
  eexists (Some "tok"), _, "application/json", [Http.JNull; Http.JNull].
  repeat split; try reflexivity.
  - discriminate.
  - exists "", "". reflexivity.
Defined.

(** ** components/tariff-trends-visualization.tsx *)

Section TrendsProperties.
Import Http Trends.

Variable API_BASE_URL : string.
Variable urlSearchParams : list (string * string) -> string.

Local Abbreviation handleFilterChange :=
  (Trends.handleFilterChange API_BASE_URL urlSearchParams).

Lemma length_eqb_zero {A} (l : list A) : (length l =? 0)%nat = true <-> l = [].
Proof. destruct l; cbn; split; congruence. Qed.

(** [fetchTariffTrendsData] sends at most the one trends request. *)
Lemma fetchTariffTrendsData_requests (session : SessionResult)
    (answer : FetchResult TrendsBody) (filters : FilterSelection) :
  snd (fetchTariffTrendsData API_BASE_URL urlSearchParams session answer filters)
  = match session with
    | SessionRejects => []
    | SessionOk access_token =>
        [trendsRequest API_BASE_URL urlSearchParams (getAuthToken access_token) filters]
    end.
Proof. unfold fetchTariffTrendsData. destruct session; reflexivity. Qed.

(** The two guards of [handleFilterChange], as one condition. *)
Lemma handleFilterChange_invalid (session : SessionResult)
    (answer : FetchResult TrendsBody) (newFilters : FilterSelection) (st : State) :
  importCountries newFilters = [] \/ exportCountries newFilters = []
  \/ products newFilters = []
  \/ MAX_LINES < length (importCountries newFilters)
                 * length (exportCountries newFilters)
                 * length (products newFilters) ->
  exists msg,
    handleFilterChange session answer newFilters st
    = ({| filters := newFilters; chartData := []; loading := loading st;
          error := Some msg |}, []).
Proof.
  intros H. unfold Trends.handleFilterChange.
  destruct ((length (importCountries newFilters) =? 0)%nat
            || (length (exportCountries newFilters) =? 0)%nat
            || (length (products newFilters) =? 0)%nat) eqn:E; [now eexists|].
  rewrite !orb_false_iff in E. destruct E as [[E1 E2] E3].
  destruct (MAX_LINES <? _)%nat eqn:E4; [now eexists|].
  exfalso. apply Nat.ltb_ge in E4.
  destruct H as [H | [H | [H | H]]].
  - apply length_eqb_zero in H. congruence.
  - apply length_eqb_zero in H. congruence.
  - apply length_eqb_zero in H. congruence.
  - lia.
Qed.

Lemma handleFilterChange_valid (session : SessionResult)
    (answer : FetchResult TrendsBody) (newFilters : FilterSelection) (st : State) :
  importCountries newFilters <> [] -> exportCountries newFilters <> [] ->
  products newFilters <> [] ->
  length (importCountries newFilters) * length (exportCountries newFilters)
  * length (products newFilters) <= MAX_LINES ->
  snd (handleFilterChange session answer newFilters st)
  = snd (fetchTariffTrendsData API_BASE_URL urlSearchParams session answer newFilters).
Proof.
  intros H1 H2 H3 H4. unfold Trends.handleFilterChange.
  rewrite <- length_eqb_zero in H1, H2, H3.
  apply not_true_is_false in H1, H2, H3. rewrite H1, H2, H3. cbn [orb].
  apply Nat.ltb_ge in H4. rewrite H4.
  destruct (fetchTariffTrendsData _ _ _ _ _) as [[data|] requests]; reflexivity.
Qed.


End TrendsProperties.


(** ** The currency list: calculator form and comparison panel *)

Section CurrencyProperties.
Import Http Currencies.

Variable API_BASE_URL : string.
Variable today : string.

Lemma existsb_code (prev : string) (l : list Currency) :
  existsb (fun c => String.eqb (code c) prev) l = true <-> prev ∈ map code l.
Proof.
  rewrite existsb_exists, list_elem_of_In, in_map_iff.
  split; intros [c [H1 H2]]; exists c.
  - apply String.eqb_eq in H2. now split.
  - split; [exact H2 | now apply String.eqb_eq].
Qed.

Lemma existsb_code_opt (prev : option string) (l : list Currency) :
  existsb (fun c => bool_decide (Some (code c) = prev)) l = true
  <-> exists p, prev = Some p /\ p ∈ map code l.
Proof.
  rewrite existsb_exists. split.
  - intros [c [H1 H2]]. apply bool_decide_eq_true in H2. exists (code c).
    split; [congruence|]. apply list_elem_of_In, in_map, H1.
  - intros [p [-> H]]. apply list_elem_of_In, in_map_iff in H as [c [<- H]].
    exists c. split; [exact H | now apply bool_decide_eq_true].
Qed.

(** The four codes of the static list, in its order. *)
Lemma FALLBACK_CURRENCIES_codes :
  map code (FALLBACK_CURRENCIES today) = ["USD"; "SGD"; "EUR"; "CNY"].
Proof. reflexivity. Qed.

(** When the calculator form falls back and when it does not. *)
Lemma calculator_loadCurrencies_cases (session : SessionResult)
    (answer : FetchResult Payload) (st : CalculatorForm.State) :
  fst (CalculatorForm.loadCurrencies API_BASE_URL today session answer st)
  = match session, answer with
    | SessionOk _, Resp response =>
      match ok response, json response with
      | true, Some (Some (CurrencyArray (c :: items))) =>
          CalculatorForm.useFetched (c :: items) st
      | _, _ => CalculatorForm.useFallback today st
      end
    | _, _ => CalculatorForm.useFallback today st
    end.
Proof.
  unfold CalculatorForm.loadCurrencies.
  destruct session; [now destruct answer|]. destruct answer as [|response]; cbn;
    [reflexivity|].
  destruct (ok response); cbn; [|reflexivity].
  destruct (json response) as [[[|[|c items]]|]|]; reflexivity.
Qed.

Lemma comparison_loadCurrencies_cases (session : SessionResult)
    (answer : FetchResult Payload) (st : ComparisonPanel.State) :
  fst (ComparisonPanel.loadCurrencies API_BASE_URL today session answer st)
  = match session, answer with
    | SessionOk _, Resp response =>
      match ok response, json response with
      | true, Some (Some (CurrencyArray (c :: items))) =>
          ComparisonPanel.useFetched (c :: items) st
      | _, _ => ComparisonPanel.useFallback today st
      end
    | _, _ => ComparisonPanel.useFallback today st
    end.
Proof.
  unfold ComparisonPanel.loadCurrencies.
  destruct session; [now destruct answer|]. destruct answer as [|response]; cbn;
    [reflexivity|].
  destruct (ok response); cbn; [|reflexivity].
  destruct (json response) as [[[|[|c items]]|]|]; reflexivity.
Qed.


End CurrencyProperties.


(** ** components/results-table.tsx *)

Section ResultsTableProperties.
Import Http ResultsTable.

Variable API_BASE_URL : string.
Variable encodeURIComponent : string -> string.
Variable JSON_parse : string -> option ErrorData.

Local Abbreviation parseErrorResponse := (ResultsTable.parseErrorResponse JSON_parse).
Local Abbreviation handleApiError := (ResultsTable.handleApiError JSON_parse).
Local Abbreviation handleAddingExport :=
  (ResultsTable.handleAddingExport API_BASE_URL encodeURIComponent JSON_parse).

(** The error text read from a response is the [message] of its error
    object, else its [error], else the raw text, else the status line. *)
Lemma parseErrorResponse_message (response : Response unit) (data : ErrorData) (m : string) :
  JSON_parse (text response) = Some data -> message data = Some m -> m <> "" ->
  parseErrorResponse response = m.
Proof.
  intros Hp Hm Hne. unfold ResultsTable.parseErrorResponse. rewrite Hp, Hm.
  cbn. apply truthy_true in Hne. now rewrite Hne.
Qed.

Lemma parseErrorResponse_raw_text (response : Response unit) :
  JSON_parse (text response) = None -> text response <> "" ->
  parseErrorResponse response = text response.
Proof.
  intros Hp Hne. unfold ResultsTable.parseErrorResponse. rewrite Hp.
  now apply or_else_truthy.
Qed.

Lemma parseErrorResponse_status (response : Response unit) :
  JSON_parse (text response) = None -> text response = "" ->
  parseErrorResponse response = "Server returned " +:+ pretty (status response).
Proof.
  intros Hp He. unfold ResultsTable.parseErrorResponse. now rewrite Hp, He.
Qed.

(** When the request comes back with a status that is not OK,
    [handleAddingExport] clears the messages and hands the response to
    [handleApiError]. *)
Lemma handleAddingExport_failure (results : option Results) (env : Env)
    (st : State) (access_token : option string) (response : Response unit) :
  JS.truthy_opt (getCalculationId results) = true ->
  session env = SessionOk access_token ->
  addToCart env = Resp response ->
  ok response = false ->
  fst (handleAddingExport results env st)
  = handleApiError response (clearMessages st).
Proof.
  intros Hid Hs Ha Hok. unfold ResultsTable.handleAddingExport.
  destruct results as [r|]; [|discriminate Hid].
  now rewrite Hid, Hs, Ha, Hok.
Qed.


End ResultsTableProperties.


(** ** components/tariff-definitions-table.tsx: validation *)

Section ValidationProperties.
Import DefinitionsTable.

Variable parseFloat : string -> float.

Local Abbreviation validateTariffInput :=
  (DefinitionsTable.validateTariffInput parseFloat).

Lemma allFieldsFilled_false (newTariff : NewTariff) (alertDialog : AlertDialog) :
  fst (validateAllFieldsFilled newTariff alertDialog) = false <->
  new_product newTariff = "" \/ new_exportingFrom newTariff = ""
  \/ new_importingTo newTariff = "" \/ new_type newTariff = ""
  \/ new_rate newTariff = "" \/ new_effectiveDate newTariff = ""
  \/ new_expirationDate newTariff = "".
Proof.
  unfold validateAllFieldsFilled.
  match goal with |- fst (if ?b then _ else _) = false <-> ?D =>
    assert (Hb : b = true <-> D)
      by (rewrite !orb_true_iff, !negb_true_iff, !truthy_false; tauto);
    destruct b; cbn
  end.
  - split; [intros _; now apply Hb | reflexivity].
  - split; [discriminate | intros H; apply Hb in H; discriminate H].
Qed.

Lemma validateRate_true (newTariff : NewTariff) (alertDialog : AlertDialog) :
  fst (validateRate parseFloat newTariff alertDialog) = true <->
  JS.isNaN (parseFloat (new_rate newTariff)) = false
  /\ (0 <=? parseFloat (new_rate newTariff))%float = true.
Proof.
  unfold validateRate, MINIMUM_RATE.
  pose proof (nan_or_negative (parseFloat (new_rate newTariff))) as H.
  destruct (JS.isNaN _) eqn:En; destruct (_ <? 0)%float eqn:El;
    destruct (0 <=? _)%float eqn:Ele; cbn in *; try discriminate H;
    (split; [try discriminate; now intros _ | try reflexivity; intros [? ?]; discriminate]).
Qed.

Lemma validateCountryPair_true (newTariff : NewTariff) (alertDialog : AlertDialog) :
  fst (validateCountryPair newTariff alertDialog) = true <->
  new_exportingFrom newTariff <> new_importingTo newTariff.
Proof.
  unfold validateCountryPair.
  destruct (String.eqb_spec (new_exportingFrom newTariff) (new_importingTo newTariff));
    cbn; split; congruence.
Qed.

Lemma verdict_false (b1 b2 b3 : bool) (A B C : Prop) :
  (b1 = false <-> A) -> (b2 = false <-> B) -> (b3 = false <-> C) ->
  (b1 && b2 && b3 = false <-> A \/ B \/ C).
Proof. destruct b1, b2, b3; cbn; intros; tauto. Qed.

(** The verdict of each validator does not depend on the dialog. *)
Lemma validateTariffInput_verdict (newTariff : NewTariff) (alertDialog : AlertDialog) :
  fst (validateTariffInput newTariff alertDialog)
  = fst (validateAllFieldsFilled newTariff alertDialog)
    && fst (validateRate parseFloat newTariff alertDialog)
    && fst (validateCountryPair newTariff alertDialog).
Proof.
  unfold DefinitionsTable.validateTariffInput, validateAllFieldsFilled, validateRate,
    validateCountryPair.
  destruct (_ || _); cbn; [reflexivity|].
  destruct (_ || _); cbn; [reflexivity|].
  now destruct (String.eqb _ _).
Qed.

(** Each validator leaves the dialog alone when it passes and opens it
    when it fails. *)
Lemma validateTariffInput_dialog (newTariff : NewTariff) (alertDialog : AlertDialog) :
  (fst (validateTariffInput newTariff alertDialog) = true ->
   snd (validateTariffInput newTariff alertDialog) = alertDialog)
  /\ (fst (validateTariffInput newTariff alertDialog) = false ->
      open (snd (validateTariffInput newTariff alertDialog)) = true).
Proof.
  unfold DefinitionsTable.validateTariffInput, validateAllFieldsFilled, validateRate,
    validateCountryPair.
  destruct (_ || _); cbn; [split; [discriminate | reflexivity]|].
  destruct (_ || _); cbn; [split; [discriminate | reflexivity]|].
  destruct (String.eqb _ _); cbn; split; congruence.
Qed.

(** C4. [validateTariffInput] returns false exactly when a field of the
    form is empty, or the rate does not parse to a number [>= 0], or the
    two countries are equal; it then shows an alert. When every field is
    filled, the rate is a number [>= 0] and the countries differ it
    returns true and leaves the alert dialog as it was. *)
Theorem validateTariffInput_iff (newTariff : NewTariff) (alertDialog : AlertDialog) :
  let rateValue := parseFloat (new_rate newTariff) in
  let out := validateTariffInput newTariff alertDialog in
  let someEmpty :=
    new_product newTariff = "" \/ new_exportingFrom newTariff = ""
    \/ new_importingTo newTariff = "" \/ new_type newTariff = ""
    \/ new_rate newTariff = "" \/ new_effectiveDate newTariff = ""
    \/ new_expirationDate newTariff = "" in
  let rateIsNumberGe0 :=
    JS.isNaN rateValue = false /\ (0 <=? rateValue)%float = true in
  (fst out = false <->
   someEmpty \/ ~ rateIsNumberGe0
   \/ new_exportingFrom newTariff = new_importingTo newTariff)
  /\ (fst out = false -> open (snd out) = true)
  /\ (~ someEmpty -> rateIsNumberGe0 ->
      new_exportingFrom newTariff <> new_importingTo newTariff ->
      out = (true, alertDialog)).
Proof.
  intros rateValue out someEmpty rateIsNumberGe0.
  pose proof (allFieldsFilled_false newTariff alertDialog) as Hf.
  pose proof (validateRate_true newTariff alertDialog) as Hr.
  pose proof (validateCountryPair_true newTariff alertDialog) as Hc.
  pose proof (validateTariffInput_verdict newTariff alertDialog) as Hv.
  pose proof (validateTariffInput_dialog newTariff alertDialog) as [Hpass Hfail].
  fold rateValue in Hr. fold rateIsNumberGe0 in Hr. fold someEmpty in Hf.
  fold out in Hv, Hpass, Hfail.
  split; [|split].
  - rewrite Hv. apply verdict_false.
    + exact Hf.
    + rewrite <- Hr. symmetry. apply not_true_iff_false.
    + rewrite <- not_true_iff_false, Hc.
      destruct (String.eqb_spec (new_exportingFrom newTariff)
                  (new_importingTo newTariff))
        as [e|n]; split; intros H; try assumption; try contradiction.
      now destruct H.
  - exact Hfail.
  - intros Hne Hrate Hpair.
    assert (Hfst : fst out = true).
    { rewrite Hv. apply Hr in Hrate. apply Hc in Hpair. rewrite Hrate, Hpair.
      destruct (fst (validateAllFieldsFilled newTariff alertDialog));
        [reflexivity|]. destruct Hne. now apply Hf. }
    specialize (Hpass Hfst). destruct out as [v a]. cbn in *. congruence.
Qed.

End ValidationProperties.

Lemma validateTariffInput_iff_witness :
  DefinitionsTable.validateTariffInput Simulator.parseFloat_digits
    {| DefinitionsTable.new_product := "Rice";
       DefinitionsTable.new_exportingFrom := "Thailand";
       DefinitionsTable.new_importingTo := "Singapore";
       DefinitionsTable.new_type := "AHS";
       DefinitionsTable.new_rate := "12";
       DefinitionsTable.new_effectiveDate := "2025-01-01";
       DefinitionsTable.new_expirationDate := "2025-12-31" |}
    {| DefinitionsTable.open := false; DefinitionsTable.title := "";
       DefinitionsTable.message := "" |}
  = (true, {| DefinitionsTable.open := false; DefinitionsTable.title := "";
              DefinitionsTable.message := "" |}).
Proof.
  apply (proj2 (proj2 (validateTariffInput_iff _ _ _))).
  - cbn. intros H. repeat destruct H as [H | H]; discriminate H.
  - split; vm_compute; reflexivity.
  - discriminate.
Defined.

(** ** components/tariff-definitions-table.tsx: [mergeTariffs] *)

Section MergeProperties.
Import DefinitionsTable.

Implicit Types (t modifiedTariff : TariffDefinition).
Implicit Types (base modified merged : list TariffDefinition).

Lemma sameTriple_true modifiedTariff t :
  sameTriple modifiedTariff t = true <-> triple t = triple modifiedTariff.
Proof.
  unfold sameTriple, triple. rewrite !andb_true_iff, !String.eqb_eq.
  split; [intros [[-> ->] ->]; reflexivity | intros [= -> -> ->]; auto].
Qed.

Lemma sameTriple_triple modifiedTariff t t' :
  triple t = triple t' -> sameTriple modifiedTariff t = sameTriple modifiedTariff t'.
Proof. unfold sameTriple, triple. now intros [= -> -> ->]. Qed.

(** *** [findIndex] *)

Lemma findIndex_Some {A} (p : A -> bool) (l : list A) (i : nat) :
  JS.findIndex p l = Some i ->
  (exists x, l !! i = Some x /\ p x = true)
  /\ (forall j y, j < i -> l !! j = Some y -> p y = false).
Proof.
  revert i. induction l as [|x l IH]; intros i; cbn; [discriminate|].
  destruct (p x) eqn:Hx.
  - intros [= <-]. split; [eauto | intros j y Hj; lia].
  - destruct (JS.findIndex p l) as [k|]; cbn; [|discriminate].
    intros [= <-]. destruct (IH k eq_refl) as [Hk Hbefore]. split; [exact Hk|].
    intros [|j] y Hj; cbn; [congruence|]. apply Hbefore. lia.
Qed.

Lemma findIndex_None {A} (p : A -> bool) (l : list A) :
  JS.findIndex p l = None <-> forall x, x ∈ l -> p x = false.
Proof.
  induction l as [|x l IH]; cbn.
  - split; [intros _ x Hx; now apply elem_of_nil in Hx | reflexivity].
  - destruct (p x) eqn:Hx.
    + split; [discriminate|]. intros H. specialize (H x ltac:(left)). congruence.
    + destruct (JS.findIndex p l) as [k|]; cbn.
      * split; [discriminate|]. intros H.
        assert (Some k = None) as E; [|discriminate E].
        apply IH. intros y Hy. apply H. now right.
      * split; [|reflexivity]. intros _ y Hy.
        apply elem_of_cons in Hy as [->|Hy]; [exact Hx | now apply IH].
Qed.

(** The index found depends on the verdicts of the predicate only. *)
Lemma findIndex_ext {A} (p : A -> bool) (l l' : list A) :
  map p l = map p l' -> JS.findIndex p l = JS.findIndex p l'.
Proof.
  revert l'. induction l as [|x l IH]; intros [|x' l']; cbn; try discriminate;
    [reflexivity|].
  intros [= Hx Hl]. rewrite Hx, (IH l' Hl). reflexivity.
Qed.

Lemma findIndex_app_Some {A} (p : A -> bool) (l l' : list A) (i : nat) :
  JS.findIndex p l = Some i -> JS.findIndex p (l ++ l') = Some i.
Proof.
  revert i. induction l as [|x l IH]; intros i; cbn; [discriminate|].
  destruct (p x); [trivial|].
  destruct (JS.findIndex p l) as [k|]; cbn; [|discriminate].
  intros [= <-]. now rewrite (IH k eq_refl).
Qed.

Lemma findIndex_app_None {A} (p : A -> bool) (l : list A) (x : A) :
  p x = false -> JS.findIndex p (l ++ [x]) = JS.findIndex p l.
Proof.
  intros Hx. induction l as [|y l IH]; cbn; [now rewrite Hx|].
  destruct (p y); [reflexivity | now rewrite IH].
Qed.

(** *** One step of the loop *)

Lemma mergeOne_hit merged modifiedTariff (i : nat) :
  JS.findIndex (sameTriple modifiedTariff) merged = Some i ->
  mergeOne merged modifiedTariff = <[i := modifiedTariff]> merged
  /\ i < length merged
  /\ map triple (mergeOne merged modifiedTariff) = map triple merged.
Proof.
  intros H. unfold mergeOne. rewrite H.
  destruct (findIndex_Some _ _ _ H) as [[x [Hx Hp]] _].
  split; [reflexivity|]. split; [now apply lookup_lt_Some in Hx|].
  apply sameTriple_true in Hp.
  change (map triple) with (fmap (M := list) triple).
  rewrite list_fmap_insert, <- Hp. apply list_insert_id.
  now rewrite list_lookup_fmap, Hx.
Qed.

Lemma mergeOne_miss merged modifiedTariff :
  JS.findIndex (sameTriple modifiedTariff) merged = None ->
  mergeOne merged modifiedTariff = (merged ++ [modifiedTariff])%list.
Proof. intros H. unfold mergeOne. now rewrite H. Qed.

(** An entry whose triple differs from the modified tariff's is left in
    place by a step. *)
Lemma mergeOne_other merged modifiedTariff (i : nat) t :
  merged !! i = Some t -> triple modifiedTariff <> triple t ->
  mergeOne merged modifiedTariff !! i = Some t.
Proof.
  intros Hi Hne.
  destruct (JS.findIndex (sameTriple modifiedTariff) merged) as [j|] eqn:E.
  - destruct (mergeOne_hit _ _ _ E) as [-> _].
    destruct (findIndex_Some _ _ _ E) as [[x [Hx Hp]] _].
    apply sameTriple_true in Hp.
    rewrite list_lookup_insert_ne; [exact Hi|].
    intros ->. congruence.
  - rewrite (mergeOne_miss _ _ E). now apply lookup_app_l_Some.
Qed.

(** A step does not move the first match of any tariff that has one. *)
Lemma mergeOne_findIndex merged modifiedTariff t (i : nat) :
  JS.findIndex (sameTriple t) merged = Some i ->
  JS.findIndex (sameTriple t) (mergeOne merged modifiedTariff) = Some i.
Proof.
  intros Hi.
  destruct (JS.findIndex (sameTriple modifiedTariff) merged) as [j|] eqn:E.
  - rewrite <- Hi. apply findIndex_ext.
    destruct (mergeOne_hit _ _ _ E) as (_ & _ & Htriples).
    apply (f_equal (map (fun k => String.eqb k.1.1 (product t)
                                  && String.eqb k.1.2 (exportingFrom t)
                                  && String.eqb k.2 (importingTo t)))) in Htriples.
    rewrite !map_map in Htriples. exact Htriples.
  - rewrite (mergeOne_miss _ _ E). now apply findIndex_app_Some.
Qed.

(** *** The whole loop, on the contents of the merged array *)

Lemma merge_unmatched modified merged (i : nat) t :
  merged !! i = Some t ->
  (forall modifiedTariff, modifiedTariff ∈ modified ->
                          triple modifiedTariff <> triple t) ->
  foldl mergeOne merged modified !! i = Some t.
Proof.
  revert merged. induction modified as [|x modified IH]; intros merged Hi Hne;
    [exact Hi|].
  cbn. apply IH.
  - apply mergeOne_other; [exact Hi|]. apply Hne. now left.
  - intros mt Hmt. apply Hne. now right.
Qed.

Lemma merge_findIndex modified merged t (i : nat) :
  JS.findIndex (sameTriple t) merged = Some i ->
  JS.findIndex (sameTriple t) (foldl mergeOne merged modified) = Some i.
Proof.
  revert merged. induction modified as [|x modified IH]; intros merged Hi;
    [exact Hi|].
  cbn. apply IH. now apply mergeOne_findIndex.
Qed.

(** The last modified tariff with a given triple wins the index of the
    first matching base entry. *)
Lemma merge_last_wins before modifiedTariff after base (i : nat) :
  (forall later, later ∈ after -> triple later <> triple modifiedTariff) ->
  JS.findIndex (sameTriple modifiedTariff) base = Some i ->
  foldl mergeOne base (before ++ modifiedTariff :: after)%list !! i
  = Some modifiedTariff.
Proof.
  intros Hlater Hi. rewrite foldl_app. cbn.
  apply merge_unmatched; [|exact Hlater].
  pose proof (merge_findIndex before base modifiedTariff i Hi) as Hi'.
  destruct (mergeOne_hit _ _ _ Hi') as (-> & Hlt & _).
  now apply list_lookup_insert_eq.
Qed.

Lemma merge_length_ge modified merged :
  length merged <= length (foldl mergeOne merged modified).
Proof.
  revert merged. induction modified as [|x modified IH]; intros merged;
    [reflexivity|].
  cbn. etransitivity; [|apply IH].
  unfold mergeOne. destruct (JS.findIndex _ _).
  - now rewrite length_insert.
  - rewrite length_app. lia.
Qed.

(** With pairwise distinct triples, the modified tariffs that match no
    base entry are appended in their order. *)
Lemma merge_appended modified base :
  NoDup (map triple modified) ->
  drop (length base) (foldl mergeOne base modified)
  = List.filter
      (fun modifiedTariff =>
         bool_decide (JS.findIndex (sameTriple modifiedTariff) base = None))
      modified.
Proof.
  revert base. induction modified as [|x modified IH]; intros base Hnd.
  - cbn. apply drop_all.
  - apply NoDup_cons in Hnd as [Hx Hnd]. cbn [foldl List.filter].
    destruct (JS.findIndex (sameTriple x) base) as [j|] eqn:E.
    + rewrite bool_decide_eq_false_2 by discriminate.
      destruct (mergeOne_hit _ _ _ E) as (Hm & _ & Htriples).
      assert (length (mergeOne base x) = length base) as Hlen
        by (rewrite Hm; apply length_insert).
      rewrite <- Hlen, (IH _ Hnd). apply filter_ext. intros mt.
      rewrite (findIndex_ext _ (mergeOne base x) base); [reflexivity|].
      apply (f_equal (map (fun k => String.eqb k.1.1 (product mt)
                                    && String.eqb k.1.2 (exportingFrom mt)
                                    && String.eqb k.2 (importingTo mt)))) in Htriples.
      rewrite !map_map in Htriples. exact Htriples.
    + rewrite bool_decide_eq_true_2 by reflexivity.
      rewrite (mergeOne_miss _ _ E).
      assert (Hother : forall mt, mt ∈ modified -> triple mt <> triple x).
      { intros mt Hmt Heq. apply Hx. rewrite <- Heq.
        apply list_elem_of_In, in_map, list_elem_of_In, Hmt. }
      rewrite (drop_S _ x).
      * f_equal.
        replace (S (length base)) with (length (base ++ [x]))
          by (rewrite length_app; cbn; lia).
        rewrite (IH _ Hnd). apply filter_ext_in. intros mt Hmt.
        rewrite findIndex_app_None; [reflexivity|].
        destruct (sameTriple mt x) eqn:Hs; [|reflexivity].
        apply sameTriple_true in Hs. apply list_elem_of_In in Hmt.
        now destruct (Hother mt Hmt).
      * apply merge_unmatched; [|exact Hother].
        rewrite lookup_app_r by lia. now rewrite Nat.sub_diag.
Qed.

(** *** The loop on the heap *)

Lemma forEach_callback (h : Heap) (arr mergedLoc : Loc) modified merged :
  arr <> mergedLoc ->
  h !! arr = Some modified -> h !! mergedLoc = Some merged ->
  forEach arr (callback mergedLoc) h
  = <[mergedLoc := foldl mergeOne merged modified]> h.
Proof.
  intros Hne Harr Hm. unfold forEach. rewrite Harr. cbn [default].
  assert (Hgen : forall n k (h : Heap) merged,
             k + n = length modified ->
             h !! arr = Some modified -> h !! mergedLoc = Some merged ->
             foldl (fun h index =>
                      match h !! arr ≫= (fun contents => contents !! index) with
                      | Some element => callback mergedLoc element h
                      | None => h
                      end) h (seq k n)
             = <[mergedLoc := foldl mergeOne merged (drop k modified)]> h).
  { clear h merged Harr Hm.
    induction n as [|n IH]; intros k h merged Hk Harr Hm.
    - cbn. rewrite drop_ge by lia. cbn. symmetry. now apply insert_id.
    - cbn [seq foldl]. rewrite Harr. cbn [mbind option_bind].
      destruct (modified !! k) as [x|] eqn:Hx;
        [|apply lookup_ge_None in Hx; lia].
      unfold callback at 2. rewrite Hm.
      rewrite (IH (S k) _ (mergeOne merged x)).
      + rewrite insert_insert_eq, (drop_S _ _ _ Hx). reflexivity.
      + lia.
      + now rewrite lookup_insert_ne.
      + now rewrite lookup_insert_eq. }
  exact (Hgen (length modified) 0 h merged eq_refl Harr Hm).
Qed.

(** [mergeTariffs] on the heap: the merged array is a new one, it holds
    the fold of [mergeOne] over the modified tariffs, and every array that
    existed before is as it was. *)
Lemma mergeTariffs_heap (h : Heap) (globalTariffs modifiedGlobalTariffs : Loc)
    base modified :
  h !! globalTariffs = Some base ->
  h !! modifiedGlobalTariffs = Some modified ->
  let out := mergeTariffs globalTariffs modifiedGlobalTariffs h in
  h !! out.1 = None
  /\ out.2 = <[out.1 := foldl mergeOne base modified]> h.
Proof.
  intros Hg Hm out. subst out. unfold mergeTariffs. cbn [fst snd].
  match goal with
  | |- h !! ?l = None /\ _ =>
      assert (Hfresh : h !! l = None)
        by (apply not_elem_of_dom, is_fresh);
      generalize dependent l; intros mergedLoc Hfresh
  end.
  split; [exact Hfresh|].
  rewrite Hg. cbn [default].
  rewrite (forEach_callback _ _ _ modified base).
  - apply insert_insert_eq.
  - intros E. rewrite <- E in Hfresh. congruence.
  - rewrite lookup_insert_ne; [exact Hm|]. intros E. rewrite E in Hfresh. congruence.
  - apply lookup_insert_eq.
Qed.

End MergeProperties.

(** C8, as the component behaves. [mergeTariffs] returns a new array that
    starts as a copy of the base list and to which the modified tariffs
    are applied in order. A modified tariff whose triple matches a base
    tariff is written at the index of the first matching base entry, and
    the last modified tariff with that triple is the one found there; when
    no two modified tariffs share a triple, every matching modified tariff
    is in place and the modified tariffs that match no base entry follow
    the base list in their order. A base tariff that no modified tariff
    matches keeps its position and its value, and the two input arrays,
    like every array that existed before, are as they were. *)
Theorem mergeTariffs_override (h : DefinitionsTable.Heap)
    (globalTariffs modifiedGlobalTariffs : DefinitionsTable.Loc)
    (base modified : list DefinitionsTable.TariffDefinition) :
  h !! globalTariffs = Some base ->
  h !! modifiedGlobalTariffs = Some modified ->
  let out := DefinitionsTable.mergeTariffs globalTariffs modifiedGlobalTariffs h in
  let firstMatch t := JS.findIndex (DefinitionsTable.sameTriple t) base in
  exists result,
    out.2 !! out.1 = Some result
    /\ (forall before modifiedTariff after i,
          modified = (before ++ modifiedTariff :: after)%list ->
          (forall later, later ∈ after ->
             DefinitionsTable.triple later <> DefinitionsTable.triple modifiedTariff) ->
          firstMatch modifiedTariff = Some i ->
          result !! i = Some modifiedTariff)
    /\ (NoDup (map DefinitionsTable.triple modified) ->
        (forall modifiedTariff i,
           modifiedTariff ∈ modified -> firstMatch modifiedTariff = Some i ->
           result !! i = Some modifiedTariff)
        /\ drop (length base) result
           = List.filter (fun modifiedTariff =>
                            bool_decide (firstMatch modifiedTariff = None))
               modified)
    /\ (forall i t,
          base !! i = Some t ->
          (forall modifiedTariff, modifiedTariff ∈ modified ->
             DefinitionsTable.triple modifiedTariff <> DefinitionsTable.triple t) ->
          result !! i = Some t)
    /\ out.2 !! globalTariffs = Some base
    /\ out.2 !! modifiedGlobalTariffs = Some modified
    /\ h !! out.1 = None
    /\ (forall l, l <> out.1 -> out.2 !! l = h !! l).
Proof.
  intros Hg Hm out firstMatch.
  destruct (mergeTariffs_heap h globalTariffs modifiedGlobalTariffs base modified Hg Hm)
    as [Hfresh Hout].
  fold out in Hfresh, Hout.
  exists (foldl DefinitionsTable.mergeOne base modified).
  assert (Hother : forall l, l <> out.1 -> out.2 !! l = h !! l).
  { intros l Hl. rewrite Hout. now apply lookup_insert_ne. }
  split; [rewrite Hout; apply lookup_insert_eq|].
  split; [|split; [|split; [|split; [|split; [|split]]]]].
  - intros before mt after i -> Hlater Hi. now apply merge_last_wins.
  - intros Hnd. split; [|now apply merge_appended].
    intros mt i Hmt Hi.
    apply list_elem_of_split in Hmt as (before & after & ->).
    apply merge_last_wins; [|exact Hi].
    intros later Hlater Heq.
    rewrite map_app in Hnd. apply NoDup_app in Hnd as (_ & _ & Hnd).
    cbn in Hnd. apply NoDup_cons in Hnd as [Hnotin _].
    apply Hnotin. rewrite <- Heq.
    apply list_elem_of_In, in_map, list_elem_of_In, Hlater.
  - intros i t Hi Hne. now apply merge_unmatched.
  - rewrite Hother; [exact Hg|]. intros E. rewrite E in Hg. congruence.
  - rewrite Hother; [exact Hm|]. intros E. rewrite E in Hm. congruence.
  - exact Hfresh.
  - exact Hother.
Qed.

Lemma mergeTariffs_override_witness :
  let rice := DefinitionsTable.routeTariff "global-1" "Rice" 5 in
  let wheat := DefinitionsTable.routeTariff "global-2" "Wheat" 3 in
  let rice' := DefinitionsTable.routeTariff "admin-modified-1" "Rice" 9 in
  let corn := DefinitionsTable.routeTariff "admin-modified-2" "Corn" 4 in
  let out := DefinitionsTable.mergeTariffs 1%positive 2%positive
               (DefinitionsTable.stateHeap [rice; wheat] [rice'; corn]) in
  exists result,
    out.2 !! out.1 = Some result
    /\ result !! 0 = Some rice'
    /\ result !! 1 = Some wheat
    /\ drop 2 result = [corn]
    /\ out.2 !! 1%positive = Some [rice; wheat].
Proof.
  intros rice wheat rice' corn out.
  destruct (mergeTariffs_override
              (DefinitionsTable.stateHeap [rice; wheat] [rice'; corn])
              1%positive 2%positive [rice; wheat] [rice'; corn]
              eq_refl eq_refl)
    as (result & Hres & _ & Hdistinct & Hkeep & Hbase & _).
  destruct Hdistinct as [Hplace Happended].
  { apply (bool_decide_unpack _). vm_compute. exact I. }
  exists result. split; [exact Hres|]. split; [|split; [|split]].
  - apply Hplace; [now left | reflexivity].
  - apply Hkeep; [reflexivity|].
    intros mt Hmt. apply elem_of_cons in Hmt as [->|Hmt]; [discriminate|].
    apply elem_of_cons in Hmt as [->|Hmt]; [discriminate|].
    now apply elem_of_nil in Hmt.
  - exact Happended.
  - exact Hbase.
Defined.

(** C8, as stated, fails when two modified tariffs share a triple: with
    an empty base list, neither has a matching base entry, yet only the
    second one is in the merged list. *)
Lemma mergeTariffs_shared_triple :
  let first := DefinitionsTable.routeTariff "admin-modified-1" "Rice" 5 in
  let second := DefinitionsTable.routeTariff "admin-modified-2" "Rice" 7 in
  let out := DefinitionsTable.mergeTariffs 1%positive 2%positive
               (DefinitionsTable.stateHeap [] [first; second]) in
  JS.findIndex (DefinitionsTable.sameTriple first) [] = None
  /\ JS.findIndex (DefinitionsTable.sameTriple second) [] = None
  /\ out.2 !! out.1 = Some [second]
  /\ first ∉ [second].
Proof.
  cbv zeta. split; [reflexivity|]. split; [reflexivity|].
  split; [vm_compute; reflexivity|].
  intros H. apply elem_of_cons in H as [H|H]; [discriminate H|].
  now apply elem_of_nil in H.
Qed.

(** ** The calls to the backend *)

Section ClientProperties.
Import Http Client.

Variable API_BASE_URL : string.
Variable urlSearchParams : list (string * string) -> string.
Variable encodeURIComponent : string -> string.

Local Abbreviation request_of :=
  (Client.request_of API_BASE_URL urlSearchParams encodeURIComponent).
Local Abbreviation sends :=
  (Client.sends API_BASE_URL urlSearchParams encodeURIComponent).

(** [getAuthToken] turns a missing token into the empty string, which
    [createAuthHeaders] treats as a missing token. *)
Lemma bearer_getAuthToken (access_token : option string) :
  bearer (Some (getAuthToken access_token)) = bearer access_token.
Proof.
  destruct access_token as [t|]; [|reflexivity].
  unfold getAuthToken, JS.opt_or_else, JS.or_else, bearer.
  destruct (JS.truthy t) eqn:E; [now rewrite E | reflexivity].
Qed.

Lemma bearer_token (t : string) : t <> "" -> bearer (Some t) = "Bearer " +:+ t.
Proof. intros H. unfold bearer. apply truthy_true in H. now rewrite H. Qed.

Lemma bearer_no_token (access_token : option string) :
  access_token = None \/ access_token = Some "" -> bearer access_token = "".
Proof. intros [-> | ->]; reflexivity. Qed.

(** Every [fetch] of the sources sets [credentials: 'include'] and an
    Authorization header computed from the token by [bearer]. *)
Lemma request_of_headers (access_token : option string) (site : FetchSite) :
  credentials (request_of access_token site) = Some "include"
  /\ header "Authorization" (headers (request_of access_token site))
     = Some (bearer access_token).
Proof.
  destruct site; (split; [reflexivity|]); cbn -[bearer];
    rewrite ?bearer_getAuthToken; reflexivity.
Qed.

(** C2, as the client behaves. Every request sent with [fetch] carries
    [credentials: 'include'] and an Authorization header whose value is
    "Bearer " followed by the access token of the session when there is a
    non-empty one, and the empty string when there is none. The two CSV
    exports of the tariff definitions are navigations of the browser: the
    client sets no header on them. *)
Theorem client_calls_authorization (access_token : option string) (c : Call) :
  sends access_token c ->
  ((exists site, c = Fetch (request_of access_token site))
   /\ call_credentials c = Some "include"
   /\ (forall token, access_token = Some token -> token <> "" ->
       header "Authorization" (call_headers c) = Some ("Bearer " +:+ token))
   /\ (access_token = None \/ access_token = Some "" ->
       header "Authorization" (call_headers c) = Some ""))
  \/ ((exists site, c = Navigate (Client.navigation_of API_BASE_URL site))
      /\ call_credentials c = None
      /\ header "Authorization" (call_headers c) = None).
Proof.
  intros [site|site].
  - left. destruct (request_of_headers access_token site) as [Hc Ha].
    split; [eauto|]. split; [exact Hc|]. cbn [call_headers]. rewrite Ha. split.
    + intros token -> Hne. now rewrite bearer_token.
    + intros H. now rewrite bearer_no_token.
  - right. split; [eauto|]. split; reflexivity.
Qed.

End ClientProperties.

Lemma client_calls_authorization_witness :
  Http.header "Authorization"
    (Client.call_headers
       (Client.Fetch
          (Client.request_of "http://localhost:8080/api" (fun _ => "") (fun s => s)
             (Some "eyJhbGciOi") Client.Cart_clear)))
  = Some "Bearer eyJhbGciOi".
Proof.
  destruct (client_calls_authorization "http://localhost:8080/api" (fun _ => "")
              (fun s => s) (Some "eyJhbGciOi") _
              (Client.sends_fetch _ _ _ _ Client.Cart_clear))
    as [(_ & _ & Hbearer & _) | ([site Hsite] & _)].
  - apply Hbearer; [reflexivity | discriminate].
  - discriminate Hsite.
Defined.

(** C2, as stated, fails: without an access token the request of
    [fetchCartCount] carries an empty Authorization header, which is not
    of the form "Bearer <token>", and the CSV export of the tariff
    definitions is a navigation with no Authorization header and no
    credentials option. *)
Lemma calls_without_bearer :
  let request :=
    Client.request_of "http://localhost:8080/api" (fun _ => "") (fun s => s)
      None Client.Home_fetchCartCount in
  let export :=
    Client.Navigate
      (Client.navigation_of "http://localhost:8080/api"
         Client.Definitions_handleExportCSV) in
  Client.sends "http://localhost:8080/api" (fun _ => "") (fun s => s) None
    (Client.Fetch request)
  /\ Http.header "Authorization" (Http.headers request) = Some ""
  /\ (forall token, "" <> "Bearer " +:+ token)
  /\ Client.sends "http://localhost:8080/api" (fun _ => "") (fun s => s) None export
  /\ export = Client.Navigate "http://localhost:8080/api/tariff-definitions/export"
  /\ Http.header "Authorization" (Client.call_headers export) = None
  /\ Client.call_credentials export = None.
Proof.
  cbv zeta. split; [apply Client.sends_fetch|]. split; [reflexivity|].
  split; [intros token; discriminate|].
  split; [apply Client.sends_navigate|]. repeat split.
Qed.

(** * Further properties of the components *)

(** ** Sets in insertion order *)

Section SetProperties.

Context {A : Type} `{EqDecision A}.

Implicit Types (s l : list A) (x y : A).

Lemma set_has_true s x : JSSet.has s x = true <-> x ∈ s.
Proof. unfold JSSet.has. apply bool_decide_eq_true. Qed.

Lemma set_add_elem s x y : y ∈ JSSet.add s x <-> y ∈ s \/ y = x.
Proof.
  unfold JSSet.add. destruct (JSSet.has s x) eqn:E.
  - apply set_has_true in E. split; [now left | intros [Hy | ->]; assumption].
  - rewrite elem_of_app, list_elem_of_singleton. reflexivity.
Qed.

Lemma set_add_NoDup s x : NoDup s -> NoDup (JSSet.add s x).
Proof.
  intros Hs. unfold JSSet.add. destruct (JSSet.has s x) eqn:E; [exact Hs|].
  apply NoDup_app. split; [exact Hs|]. split; [|apply NoDup_singleton].
  intros y Hy Hx. apply list_elem_of_singleton in Hx as ->.
  apply set_has_true in Hy. congruence.
Qed.

(** Adding the members of [l] to [s] one after the other keeps [s] as a
    prefix and appends, without repetition, members of [l] that are not
    in [s]. *)
Lemma set_adds_shape l s :
  exists tail,
    foldl JSSet.add s l = (s ++ tail)%list
    /\ NoDup tail
    /\ (forall y, y ∈ tail -> (y ∉ s) /\ (y ∈ l))
    /\ length tail <= length l.
Proof.
  revert s. induction l as [|x l IH]; intros s.
  - exists []. rewrite app_nil_r. split; [reflexivity|].
    split; [apply NoDup_nil_2|]. split; [|cbn; lia].
    intros y Hy. now apply elem_of_nil in Hy.
  - cbn [foldl]. destruct (IH (JSSet.add s x)) as (tail & Heq & Hnd & Hin & Hlen).
    unfold JSSet.add in *. destruct (JSSet.has s x) eqn:E.
    + exists tail. split; [exact Heq|]. split; [exact Hnd|]. split; [|cbn; lia].
      intros y Hy. destruct (Hin y Hy) as [H1 H2]. split; [exact H1 | now right].
    + exists (x :: tail). rewrite Heq, <- app_assoc. split; [reflexivity|].
      assert (Hx : x ∉ s) by (intros Hx; apply set_has_true in Hx; congruence).
      split; [|split; [|cbn; lia]].
      * apply NoDup_cons. split; [|exact Hnd].
        intros Hxt. destruct (Hin x Hxt) as [Hn _]. apply Hn.
        apply elem_of_app. right. now left.
      * intros y Hy. apply elem_of_cons in Hy as [-> | Hy]; [split; [exact Hx | now left]|].
        destruct (Hin y Hy) as [H1 H2]. split; [|now right].
        intros Hys. apply H1. apply elem_of_app. now left.
Qed.

Lemma set_adds_elem l s y : y ∈ foldl JSSet.add s l <-> y ∈ s \/ y ∈ l.
Proof.
  revert s. induction l as [|x l IH]; intros s; cbn [foldl].
  - split; [now left | intros [Hy | Hy]; [exact Hy | now apply elem_of_nil in Hy]].
  - rewrite IH, set_add_elem, elem_of_cons. tauto.
Qed.

Lemma set_fromArray_NoDup l : NoDup (JSSet.fromArray l).
Proof.
  unfold JSSet.fromArray.
  destruct (set_adds_shape l []) as (tail & -> & Hnd & _). exact Hnd.
Qed.

Lemma set_fromArray_elem l y : y ∈ JSSet.fromArray l <-> y ∈ l.
Proof.
  unfold JSSet.fromArray. rewrite set_adds_elem.
  split; [intros [Hy | Hy]; [now apply elem_of_nil in Hy | exact Hy] | now right].
Qed.

Lemma set_delete_elem s x y : y ∈ JSSet.delete s x <-> y ∈ s /\ y <> x.
Proof.
  unfold JSSet.delete. rewrite list_elem_of_In, filter_In, <- list_elem_of_In.
  rewrite negb_true_iff, bool_decide_eq_false. reflexivity.
Qed.

Lemma set_delete_NoDup s x : NoDup s -> NoDup (JSSet.delete s x).
Proof.
  intros Hs. unfold JSSet.delete. apply NoDup_ListNoDup, List.NoDup_filter.
  now apply NoDup_ListNoDup.
Qed.

End SetProperties.

(** ** components/tariff-definitions-table.tsx: what [mergeTariffs] keeps *)

Section MergeInvariants.
Import DefinitionsTable.

Implicit Types (t x : TariffDefinition).
Implicit Types (base modified merged : list TariffDefinition).

Lemma existsb_sameTriple payload l :
  existsb (sameTriple payload) l = true <-> triple payload ∈ map triple l.
Proof.
  rewrite existsb_exists, list_elem_of_In, in_map_iff.
  split; intros [y [H1 H2]]; exists y.
  - apply sameTriple_true in H2. now split.
  - split; [exact H2 | now apply sameTriple_true].
Qed.

Lemma findIndex_is_Some payload l :
  is_Some (JS.findIndex (sameTriple payload) l) <-> triple payload ∈ map triple l.
Proof.
  rewrite <- existsb_sameTriple. split.
  - intros [i Hi]. destruct (findIndex_Some _ _ _ Hi) as [[y [Hy Hp]] _].
    apply existsb_exists. exists y. split; [|exact Hp].
    apply list_elem_of_In, list_elem_of_lookup. eauto.
  - intros H. destruct (JS.findIndex (sameTriple payload) l) as [i|] eqn:E; [eauto|].
    apply existsb_exists in H as [y [Hy Hp]].
    rewrite (proj1 (findIndex_None _ _) E y) in Hp; [discriminate|].
    now apply list_elem_of_In.
Qed.

(** On triples, a step of the loop is the insertion into a set. *)
Lemma mergeOne_triples merged x :
  map triple (mergeOne merged x) = JSSet.add (map triple merged) (triple x).
Proof.
  unfold JSSet.add.
  destruct (JS.findIndex (sameTriple x) merged) as [i|] eqn:E.
  - destruct (mergeOne_hit _ _ _ E) as (_ & _ & ->).
    assert (JSSet.has (map triple merged) (triple x) = true) as ->; [|reflexivity].
    apply set_has_true, findIndex_is_Some. rewrite E. eauto.
  - rewrite (mergeOne_miss _ _ E), map_app.
    assert (JSSet.has (map triple merged) (triple x) = false) as ->; [|reflexivity].
    apply not_true_iff_false. intros H.
    apply set_has_true, findIndex_is_Some in H. rewrite E in H.
    now destruct H.
Qed.

Lemma merge_triples modified merged :
  map triple (foldl mergeOne merged modified)
  = foldl JSSet.add (map triple merged) (map triple modified).
Proof.
  revert merged. induction modified as [|x modified IH]; intros merged;
    [reflexivity|].
  cbn [foldl map]. now rewrite IH, mergeOne_triples.
Qed.

Lemma mergeOne_elem merged x t :
  t ∈ mergeOne merged x -> t ∈ merged \/ t = x.
Proof.
  destruct (JS.findIndex (sameTriple x) merged) as [i|] eqn:E.
  - destruct (mergeOne_hit _ _ _ E) as (-> & Hlt & _).
    intros H. apply list_elem_of_lookup in H as [j Hj].
    destruct (decide (j = i)) as [->|Hne].
    + rewrite list_lookup_insert_eq in Hj by exact Hlt. right. congruence.
    + rewrite list_lookup_insert_ne in Hj by congruence.
      left. apply list_elem_of_lookup. eauto.
  - rewrite (mergeOne_miss _ _ E), elem_of_app, list_elem_of_singleton. tauto.
Qed.

Lemma merge_elem modified merged t :
  t ∈ foldl mergeOne merged modified -> t ∈ merged \/ t ∈ modified.
Proof.
  revert merged. induction modified as [|x modified IH]; intros merged;
    [now left|].
  cbn [foldl]. intros H. apply IH in H as [H | H]; [|right; now right].
  apply mergeOne_elem in H as [H | ->]; [now left | right; now left].
Qed.

(** The array [mergeTariffs] returns, read back from the heap. *)
Lemma mergeTariffs_result (h : Heap) (globalTariffs modifiedGlobalTariffs : Loc)
    base modified :
  h !! globalTariffs = Some base ->
  h !! modifiedGlobalTariffs = Some modified ->
  (mergeTariffs globalTariffs modifiedGlobalTariffs h).2
    !! (mergeTariffs globalTariffs modifiedGlobalTariffs h).1
  = Some (foldl mergeOne base modified).
Proof.
  intros Hg Hm.
  destruct (mergeTariffs_heap h _ _ _ _ Hg Hm) as [_ ->].
  apply lookup_insert_eq.
Qed.

(** X1. The triples of the merged list are the triples of the base list,
    position by position, followed without repetition by triples of
    modified tariffs that no base tariff has; so the merged list is at
    least as long as the base list and at most as long as the two lists
    together. *)
Theorem mergeTariffs_shape (h : Heap) (globalTariffs modifiedGlobalTariffs : Loc)
    base modified :
  h !! globalTariffs = Some base ->
  h !! modifiedGlobalTariffs = Some modified ->
  let out := mergeTariffs globalTariffs modifiedGlobalTariffs h in
  exists result appended,
    out.2 !! out.1 = Some result
    /\ map triple result = (map triple base ++ appended)%list
    /\ length result = length base + length appended
    /\ length appended <= length modified
    /\ NoDup appended
    /\ (forall k, k ∈ appended ->
          (k ∉ map triple base) /\ (k ∈ map triple modified)).
Proof.
  intros Hg Hm out.
  destruct (set_adds_shape (map triple modified) (map triple base))
    as (appended & Heq & Hnd & Hin & Hlen).
  exists (foldl mergeOne base modified), appended.
  split; [now apply mergeTariffs_result|].
  rewrite <- merge_triples in Heq.
  split; [exact Heq|]. split; [|split; [|split; [exact Hnd | exact Hin]]].
  - apply (f_equal length) in Heq.
    rewrite length_app, !length_map in Heq. exact Heq.
  - now rewrite length_map in Hlen.
Qed.

(** X2. Every row of the merged list is a base tariff or a modified
    tariff, a triple occurs in the merged list exactly when it occurs in
    one of the two lists, and without modified tariffs the merged list is
    the base list. *)
Theorem mergeTariffs_coverage (h : Heap) (globalTariffs modifiedGlobalTariffs : Loc)
    base modified :
  h !! globalTariffs = Some base ->
  h !! modifiedGlobalTariffs = Some modified ->
  let out := mergeTariffs globalTariffs modifiedGlobalTariffs h in
  exists result,
    out.2 !! out.1 = Some result
    /\ (forall t, t ∈ result -> t ∈ base \/ t ∈ modified)
    /\ (forall k, k ∈ map triple result <->
                  k ∈ map triple base \/ k ∈ map triple modified)
    /\ (modified = [] -> result = base).
Proof.
  intros Hg Hm out. exists (foldl mergeOne base modified).
  split; [now apply mergeTariffs_result|].
  split; [intros t; apply merge_elem|]. split.
  - intros k. rewrite merge_triples. apply set_adds_elem.
  - now intros ->.
Qed.

End MergeInvariants.

Lemma mergeTariffs_shape_witness :
  let rice := DefinitionsTable.routeTariff "global-1" "Rice" 5 in
  let rice' := DefinitionsTable.routeTariff "admin-modified-1" "Rice" 9 in
  let corn := DefinitionsTable.routeTariff "admin-modified-2" "Corn" 4 in
  let out := DefinitionsTable.mergeTariffs 1%positive 2%positive
               (DefinitionsTable.stateHeap [rice; rice] [rice'; corn; corn]) in
  exists result appended,
    out.2 !! out.1 = Some result
    /\ map DefinitionsTable.triple result
       = (map DefinitionsTable.triple [rice; rice] ++ appended)%list
    /\ length result = 2 + length appended
    /\ length appended <= 3.
Proof.
  intros rice rice' corn out.
  destruct (mergeTariffs_shape
              (DefinitionsTable.stateHeap [rice; rice] [rice'; corn; corn])
              1%positive 2%positive [rice; rice] [rice'; corn; corn]
              eq_refl eq_refl)
    as (result & appended & Hres & Htriples & Hlen & Hle & _).
  exists result, appended. repeat split; assumption.
Defined.

Lemma mergeTariffs_coverage_witness :
  let rice := DefinitionsTable.routeTariff "global-1" "Rice" 5 in
  let out := DefinitionsTable.mergeTariffs 1%positive 2%positive
               (DefinitionsTable.stateHeap [rice] []) in
  out.2 !! out.1 = Some [rice].
Proof.
  intros rice out.
  destruct (mergeTariffs_coverage (DefinitionsTable.stateHeap [rice] [])
              1%positive 2%positive [rice] [] eq_refl eq_refl)
    as (result & Hres & _ & _ & Hbase).
  subst out. rewrite Hres. f_equal. now apply Hbase.
Defined.

(** ** components/tariff-definitions-table.tsx: adding a tariff *)

Section AdminAddProperties.
Import Http DefinitionsTable DefinitionsDialog.

(** The rows of the global table for a base list and a list of modified
    tariffs: what [mergeTariffs] returns when the two state arrays are at
    the addresses 1 and 2. *)
Local Abbreviation mergedRows base modified :=
  (default []
     ((mergeTariffs 1%positive 2%positive (stateHeap base modified)).2
        !! (mergeTariffs 1%positive 2%positive (stateHeap base modified)).1)).

Lemma mergedRows_fold (base modified : list TariffDefinition) :
  mergedRows base modified = foldl mergeOne base modified.
Proof.
  rewrite (mergeTariffs_result (stateHeap base modified) _ _ base modified);
    reflexivity.
Qed.

Lemma set_add_length {A} `{EqDecision A} (s : list A) (x : A) :
  length (JSSet.add s x) = length s + (if JSSet.has s x then 0 else 1).
Proof.
  unfold JSSet.add. destruct (JSSet.has s x); [lia|].
  now rewrite length_app.
Qed.

(** X3. When the backend answers an accepted admin add with the one new
    tariff, the list of modified tariffs gets it at its end; the table of
    global tariffs gets one more row exactly when neither the base list
    nor the modified list had a tariff of that triple, and otherwise keeps
    its number of rows; and the alert is titled "Tariff Updated" exactly
    when the modified list had one, whatever the base list holds. *)
Theorem admin_add_rows (base : list TariffDefinition) (st : State)
    (payload added : TariffDefinition) :
  triple added = triple payload ->
  let st' := handleAdminModeSuccess [added] payload st in
  modifiedGlobalTariffs st' = (modifiedGlobalTariffs st ++ [added])%list
  /\ length (mergedRows base (modifiedGlobalTariffs st'))
     = length (mergedRows base (modifiedGlobalTariffs st))
       + (if checkIfTariffReplaced st payload || existsb (sameTriple payload) base
          then 0 else 1)
  /\ (title (alertDialog st') = "Tariff Updated"
      <-> checkIfTariffReplaced st payload = true).
Proof.
  intros Htriple st'.
  assert (Hmod : modifiedGlobalTariffs st'
                 = (modifiedGlobalTariffs st ++ [added])%list).
  { subst st'. unfold handleAdminModeSuccess, showAdminSuccessMessage.
    now destruct (checkIfTariffReplaced st payload). }
  split; [exact Hmod|]. split.
  - rewrite Hmod, !mergedRows_fold, foldl_app. cbn [foldl].
    rewrite <- (length_map triple (mergeOne _ _)), mergeOne_triples,
      set_add_length, length_map.
    f_equal. rewrite Htriple.
    match goal with |- (if ?a then _ else _) = (if ?b then _ else _) =>
      assert (a = b) as ->; [|reflexivity] end.
    apply eq_true_iff_eq.
    rewrite set_has_true, merge_triples, set_adds_elem, orb_true_iff.
    unfold checkIfTariffReplaced. rewrite !existsb_sameTriple. tauto.
  - subst st'. unfold handleAdminModeSuccess, showAdminSuccessMessage.
    destruct (checkIfTariffReplaced st payload); cbn; split; congruence.
Qed.

End AdminAddProperties.

Section DialogProperties.
Import Http DefinitionsTable DefinitionsDialog.

Variable parseFloat : string -> float.
Variable userRole : string.
Variable simulatorMode : bool.

Local Abbreviation handleAddTariff :=
  (DefinitionsDialog.handleAddTariff parseFloat userRole simulatorMode).

(** The outcome of [handleAddTariff] when the form does not validate. *)
Lemma handleAddTariff_invalid (env : Env) (st : State) :
  (validateTariffInput parseFloat (newTariff st) (alertDialog st)).1 = false ->
  handleAddTariff env st
  = (setAlert (validateTariffInput parseFloat (newTariff st) (alertDialog st)).2 st,
     []).
Proof.
  intros H. unfold DefinitionsDialog.handleAddTariff.
  destruct (validateTariffInput parseFloat (newTariff st) (alertDialog st))
    as [valid alert]. cbn in H. now subst valid.
Qed.


(** X5. The prefix of a generated id, the address a tariff is added at and
    the address it is updated at agree: the id starts with "user" exactly
    when the component is in simulator mode or the role is not admin, which
    is when the tariff is posted to the user endpoint; and outside
    simulator mode a tariff with a generated id is updated at the user
    endpoint when its id starts with "user" and at the endpoint of the
    modified tariffs otherwise. *)
Theorem generated_id_routing (now : N) (access_token : option string) :
  let id := generateTariffId userRole simulatorMode now in
  let userTariff := simulatorMode || negb (isAdminRole userRole) in
  JS.startsWith id USER_ID_PREFIX = userTariff
  /\ getAddTariffEndpoint userRole simulatorMode
     = (if userTariff then API_BASE_URL +:+ "/tariff-definitions/user"
        else API_BASE_URL +:+ "/tariff-definitions/modified")
  /\ url (addRequest access_token simulatorMode (isAdminRole userRole))
     = getAddTariffEndpoint userRole simulatorMode
  /\ url (updateRequest access_token false id)
     = (if userTariff then API_BASE_URL +:+ "/tariff-definitions/user/" +:+ id
        else API_BASE_URL +:+ "/tariff-definitions/modified/" +:+ id).
Proof.
  intros id userTariff.
  assert (Hprefix : JS.startsWith id USER_ID_PREFIX = userTariff).
  { subst id userTariff. unfold generateTariffId.
    destruct (simulatorMode || negb (isAdminRole userRole)).
    - apply prefix_spec. eexists. reflexivity.
    - reflexivity. }
  split; [exact Hprefix|]. split; [|split].
  - subst userTariff. unfold getAddTariffEndpoint.
    destruct simulatorMode, (isAdminRole userRole); reflexivity.
  - unfold addRequest, getAddTariffEndpoint. reflexivity.
  - unfold updateRequest. cbn [url orb]. rewrite Hprefix.
    destruct userTariff; reflexivity.
Qed.

End DialogProperties.

Lemma admin_add_rows_witness :
  let rice := DefinitionsTable.routeTariff "global-1" "Rice" 5 in
  let payload := DefinitionsTable.routeTariff "admin-modified-7" "Rice" 9 in
  let st :=
    {| DefinitionsDialog.modifiedGlobalTariffs := [];
       DefinitionsDialog.userTariffs := [];
       DefinitionsDialog.isDialogOpen := true;
       DefinitionsDialog.alertDialog :=
         {| DefinitionsTable.open := false; DefinitionsTable.title := "";
            DefinitionsTable.message := "" |};
       DefinitionsDialog.newTariff := DefinitionsDialog.createInitialNewTariff |} in
  let st' := DefinitionsDialog.handleAdminModeSuccess [payload] payload st in
  let out := DefinitionsTable.mergeTariffs 1%positive 2%positive
               (DefinitionsTable.stateHeap [rice]
                  (DefinitionsDialog.modifiedGlobalTariffs st')) in
  DefinitionsDialog.modifiedGlobalTariffs st' = [payload]
  /\ length (default [] (out.2 !! out.1)) = 1.
Proof.
  intros rice payload st st' out.
  destruct (admin_add_rows [rice] st payload payload eq_refl) as (Hmod & Hrows & _).
  split; [exact Hmod|]. etransitivity; [exact Hrows|]. vm_compute. reflexivity.
Defined.

(** ** components/tariff-definitions-table.tsx: the filters *)

Section FilterProperties.
Import DefinitionsFilters.

Implicit Types (filters : Filters) (tariff : DefinitionsTable.TariffDefinition).

Lemma matches_iff (wanted actual : string) :
  negb (JS.truthy wanted) || String.eqb actual wanted = true
  <-> wanted = "" \/ actual = wanted.
Proof. rewrite orb_true_iff, negb_true_iff, truthy_false, String.eqb_eq. tauto. Qed.

Lemma filter_sublist {A} (p : A -> bool) (l : list A) :
  List.filter p l `sublist_of` l.
Proof.
  induction l as [|x l IH]; cbn; [constructor|].
  destruct (p x); now constructor.
Qed.

Lemma filter_filter {A} (p : A -> bool) (l : list A) :
  List.filter p (List.filter p l) = List.filter p l.
Proof.
  induction l as [|x l IH]; cbn; [reflexivity|].
  destruct (p x) eqn:E; cbn; [now rewrite E, IH | exact IH].
Qed.

Lemma filter_all {A} (p : A -> bool) (l : list A) :
  (forall x, p x = true) -> List.filter p l = l.
Proof.
  intros Hp. induction l as [|x l IH]; cbn; [reflexivity|]. now rewrite Hp, IH.
Qed.

(** Membership in the list [getFilteredTariffs] gives. *)
Lemma getFilteredTariffs_elem filters
    (tariffs : list DefinitionsTable.TariffDefinition) tariff :
  tariff ∈ getFilteredTariffs filters tariffs <->
  tariff ∈ tariffs
  /\ (product filters = "" \/ DefinitionsTable.product tariff = product filters)
  /\ (exportingFrom filters = ""
      \/ DefinitionsTable.exportingFrom tariff = exportingFrom filters)
  /\ (importingTo filters = ""
      \/ DefinitionsTable.importingTo tariff = importingTo filters).
Proof.
  unfold getFilteredTariffs.
  rewrite list_elem_of_In, filter_In, <- list_elem_of_In.
  unfold matchesProductFilter, matchesExportingFilter, matchesImportingFilter.
  rewrite !andb_true_iff, !matches_iff. tauto.
Qed.

(** X6. The table shows exactly the tariffs that agree with every filter
    that is set, in the order of the list; filtering what is shown again
    changes nothing, and with no filter set, as after [clearFilters], the
    whole list is shown. *)
Theorem getFilteredTariffs_shown filters
    (tariffs : list DefinitionsTable.TariffDefinition) :
  let shown := getFilteredTariffs filters tariffs in
  (forall tariff,
      tariff ∈ shown <->
      tariff ∈ tariffs
      /\ (product filters = "" \/ DefinitionsTable.product tariff = product filters)
      /\ (exportingFrom filters = ""
          \/ DefinitionsTable.exportingFrom tariff = exportingFrom filters)
      /\ (importingTo filters = ""
          \/ DefinitionsTable.importingTo tariff = importingTo filters))
  /\ shown `sublist_of` tariffs
  /\ getFilteredTariffs filters shown = shown
  /\ getFilteredTariffs (clearFilters filters) tariffs = tariffs.
Proof.
  intros shown. subst shown.
  split; [intros tariff; apply getFilteredTariffs_elem|].
  unfold getFilteredTariffs.
  split; [apply filter_sublist | split; [apply filter_filter|]].
  apply filter_all. reflexivity.
Qed.


End FilterProperties.

(** ** components/tariff-calculator-form.tsx: options, validation, submission *)

Section CalculatorProperties.
Import Http CalculatorSubmit.

Lemma filterBoolean_elem (array : list (option string)) (x : string) :
  x ∈ filterBoolean array <-> x <> "" /\ Some x ∈ array.
Proof.
  unfold filterBoolean. rewrite list_elem_of_omap. split.
  - intros [[s|] [Hin Hs]]; [|discriminate].
    destruct (JS.truthy s) eqn:E; [|discriminate]. injection Hs as <-.
    split; [now apply truthy_true | exact Hin].
  - intros [Hne Hin]. exists (Some x). split; [exact Hin|].
    apply truthy_true in Hne. now rewrite Hne.
Qed.

Lemma optField_elem (field : UserTariff -> option string)
    (tariffs : list (option UserTariff)) (x : string) :
  Some x ∈ map (optField field) tariffs
  <-> exists t, Some t ∈ tariffs /\ field t = Some x.
Proof.
  rewrite list_elem_of_In, in_map_iff. split.
  - intros [[t|] [Hx Hin]]; [|discriminate].
    exists t. split; [now apply list_elem_of_In | exact Hx].
  - intros [t [Hin Hx]]. exists (Some t). split; [exact Hx | now apply list_elem_of_In].
Qed.

(** X8. The product options drawn from the user tariffs hold no product
    twice and no empty name, and they are exactly the non-empty products of
    the tariffs; the country options likewise are exactly the non-empty
    exporting and importing countries, each once. Entries that are null
    and fields that are missing are skipped. *)
Theorem extractUnique_options (tariffs : list (option UserTariff)) :
  NoDup (extractUniqueProducts tariffs)
  /\ (forall p, p ∈ extractUniqueProducts tariffs <->
                p <> "" /\ exists t, Some t ∈ tariffs /\ t_product t = Some p)
  /\ NoDup (extractUniqueCountries tariffs)
  /\ (forall c, c ∈ extractUniqueCountries tariffs <->
                c <> "" /\ exists t, Some t ∈ tariffs
                                     /\ (t_exportingFrom t = Some c
                                         \/ t_importingTo t = Some c)).
Proof.
  unfold extractUniqueProducts, extractUniqueCountries.
  split; [apply set_fromArray_NoDup|]. split; [|split; [apply set_fromArray_NoDup|]].
  - intros p. now rewrite set_fromArray_elem, filterBoolean_elem, optField_elem.
  - intros c. rewrite set_fromArray_elem, elem_of_app, !filterBoolean_elem,
      !optField_elem. split.
    + intros [[Hne [t [Hin Ht]]] | [Hne [t [Hin Ht]]]]; (split; [exact Hne|]);
        exists t; auto.
    + intros [Hne [t [Hin [Ht | Ht]]]]; [left | right]; (split; [exact Hne|]);
        exists t; auto.
Qed.

(** The first occurrence decides the position: a product keeps the place
    of the first tariff that names it. *)
Example extractUniqueProducts_order :
  extractUniqueProducts
    [Some {| t_product := Some "Rice"; t_exportingFrom := None; t_importingTo := None |};
     None;
     Some {| t_product := Some ""; t_exportingFrom := None; t_importingTo := None |};
     Some {| t_product := Some "Corn"; t_exportingFrom := None; t_importingTo := None |};
     Some {| t_product := Some "Rice"; t_exportingFrom := None; t_importingTo := None |}]
  = ["Rice"; "Corn"].
Proof. reflexivity. Qed.

End CalculatorProperties.

(** ** Numbers: NaN and the comparisons with zero *)

Lemma nan_or_nonpositive (x : float) :
  JS.isNaN x || (x <=? 0)%float = negb (0 <? x)%float.
Proof.
  unfold JS.isNaN, is_nan.
  rewrite FloatAxioms.eqb_spec, FloatAxioms.ltb_spec, FloatAxioms.leb_spec.
  change (Prim2SF 0) with (S754_zero false).
  destruct (Prim2SF x) as [s|s| |s m e] eqn:E; try destruct s; cbn; try reflexivity.
  all: rewrite Z.compare_refl, Pos.compare_cont_refl; reflexivity.
Qed.

Lemma isNaN_spec (x : float) : JS.isNaN x = true <-> Prim2SF x = S754_nan.
Proof.
  unfold JS.isNaN, is_nan. rewrite FloatAxioms.eqb_spec.
  destruct (Prim2SF x) as [s|s| |s m e]; try destruct s; cbn;
    rewrite ?Z.compare_refl, ?Pos.compare_cont_refl; cbn;
    split; congruence.
Qed.

(** Every comparison with NaN is false. *)
Lemma nan_comparisons (x y : float) :
  JS.isNaN x = true ->
  (x <=? y)%float = false /\ (x <? y)%float = false
  /\ (y <=? x)%float = false /\ (y <? x)%float = false.
Proof.
  intros H. apply isNaN_spec in H.
  rewrite !FloatAxioms.leb_spec, !FloatAxioms.ltb_spec, H.
  unfold SFleb, SFltb. cbn. destruct (Prim2SF y); repeat split; reflexivity.
Qed.

(** A product or a sum with a NaN operand is NaN. *)
Lemma nan_arithmetic (x y : float) :
  JS.isNaN x = true ->
  JS.isNaN (x * y)%float = true /\ JS.isNaN (y * x)%float = true
  /\ JS.isNaN (x + y)%float = true /\ JS.isNaN (y + x)%float = true
  /\ JS.isNaN (x / y)%float = true.
Proof.
  intros H. apply isNaN_spec in H.
  rewrite !isNaN_spec, !FloatAxioms.mul_spec, !FloatAxioms.add_spec,
    FloatAxioms.div_spec, H.
  destruct (Prim2SF y) as [s|s| |s m e]; repeat split; reflexivity.
Qed.

Lemma or5_assoc (A B C D E : Prop) :
  (((A \/ B) \/ C) \/ D) \/ E <-> A \/ B \/ C \/ D \/ E.
Proof. tauto. Qed.

Section CalculatorSubmitProperties.
Import Http CalculatorSubmit.

Variable parseFloat : string -> float.
Variable API_BASE_URL : string.
Variable urlSearchParams : list (string * string) -> string.
Variable tariffSource : string.

Local Abbreviation validateFormData := (CalculatorSubmit.validateFormData parseFloat).
Local Abbreviation handleSubmit :=
  (CalculatorSubmit.handleSubmit parseFloat API_BASE_URL urlSearchParams tariffSource).

Lemma opt_or_else_nonempty (a : option string) (b : string) :
  b <> "" -> JS.opt_or_else a b <> "".
Proof.
  intros Hb. destruct a as [s|]; [|exact Hb]. unfold JS.opt_or_else, JS.or_else.
  destruct (JS.truthy s) eqn:E; [now apply truthy_true | exact Hb].
Qed.

Lemma orOpt_truthy (a b : option string) :
  JS.truthy_opt b = true -> JS.truthy_opt (orOpt a b) = true.
Proof. intros Hb. unfold orOpt. now destruct (JS.truthy_opt a) eqn:E. Qed.

Lemma requiredFields_false (st : State) :
  (validateRequiredFields st).1 = false <->
  CalculatorForm.product (formData st) = ""
  \/ CalculatorForm.exportingFrom (formData st) = ""
  \/ CalculatorForm.importingTo (formData st) = ""
  \/ CalculatorForm.quantity (formData st) = ""
  \/ CalculatorForm.customCost (formData st) = "".
Proof using Type.
  unfold validateRequiredFields.
  match goal with |- (if ?b then _ else _).1 = false <-> ?D =>
    assert (Hb : b = true <-> D)
      by (rewrite !orb_true_iff, !negb_true_iff, !truthy_false; apply or5_assoc);
    destruct b; cbn
  end.
  - split; [intros _; now apply Hb | reflexivity].
  - split; [discriminate | intros H; apply Hb in H; discriminate H].
Qed.

(** The verdict of [validateFormData] and the state it leaves. *)
Lemma validateFormData_cases (st : State) :
  validateFormData st
  = if (validateRequiredFields st).1 then
      if (parseFloat (CalculatorForm.quantity (formData st)) <=? 0)%float then
        (false, setError "Quantity must be greater than 0" st)
      else if (0 <? parseFloat (CalculatorForm.customCost (formData st)))%float then
        (true, st)
      else (false, setError "Unit cost must be greater than 0" st)
    else (false, setError "Please fill in all required fields" st).
Proof.
  unfold CalculatorSubmit.validateFormData, validateRequiredFields, validateQuantity,
    validateCustomCost, MINIMUM_QUANTITY.
  destruct (_ || _); cbn; [reflexivity|].
  destruct (_ <=? 0)%float; cbn; [reflexivity|].
  rewrite nan_or_nonpositive. now destruct (0 <? _)%float.
Qed.

(** A passed validation leaves the state alone; a failed one sets a
    message and keeps the form. *)
Lemma validateFormData_verdict (st : State) :
  ((validateFormData st).1 = true -> (validateFormData st).2 = st)
  /\ ((validateFormData st).1 = false ->
      error (validateFormData st).2 <> "" /\ formData (validateFormData st).2 = formData st).
Proof.
  rewrite validateFormData_cases.
  destruct (validateRequiredFields st).1; [|split; [discriminate|]; now intros _].
  destruct (_ <=? 0)%float; [split; [discriminate|]; now intros _|].
  destruct (0 <? _)%float; [split; [reflexivity | discriminate]|].
  split; [discriminate|]; now intros _.
Qed.

(** X9. The calculator form validates exactly when its five required
    fields are filled, the quantity does not parse to a number [<= 0] and
    the unit cost parses to a number [> 0]; it then leaves the state as it
    is, and otherwise sets an error message. A quantity that parses to NaN
    is therefore accepted, while a unit cost that parses to NaN is not. *)
Theorem calculator_validateFormData (st : State) :
  let f := formData st in
  let q := parseFloat (CalculatorForm.quantity f) in
  let c := parseFloat (CalculatorForm.customCost f) in
  let filled :=
    CalculatorForm.product f <> "" /\ CalculatorForm.exportingFrom f <> ""
    /\ CalculatorForm.importingTo f <> "" /\ CalculatorForm.quantity f <> ""
    /\ CalculatorForm.customCost f <> "" in
  let out := validateFormData st in
  (out.1 = true <->
   filled /\ (q <=? 0)%float = false
   /\ JS.isNaN c = false /\ (0 <? c)%float = true)
  /\ (out.1 = true -> out.2 = st)
  /\ (out.1 = false -> error out.2 <> "" /\ formData out.2 = formData st)
  /\ (filled -> JS.isNaN q = true -> (0 <? c)%float = true -> out.1 = true)
  /\ (JS.isNaN c = true -> out.1 = false).
Proof using parseFloat.
  intros f q c filled out.
  pose proof (requiredFields_false st) as Hreq.
  pose proof (validateFormData_cases st) as Hcases. fold out f q c in Hcases.
  assert (Hfilled : (validateRequiredFields st).1 = true <-> filled).
  { fold f in Hreq. unfold filled.
    destruct (validateRequiredFields st).1.
    - split; [intros _|reflexivity].
      repeat split; intros E; rewrite E in Hreq;
        assert (true = false) as X by (apply Hreq; auto 6); discriminate X.
    - split; [discriminate|]. intros (H1 & H2 & H3 & H4 & H5).
      destruct (proj1 Hreq eq_refl) as [E | [E | [E | [E | E]]]]; congruence. }
  assert (Hnan : (0 <? c)%float = true -> JS.isNaN c = false).
  { intros Hc. pose proof (nan_or_nonpositive c) as H. rewrite Hc in H.
    now apply orb_false_iff in H as [H _]. }
  clear Hreq.
  destruct (validateRequiredFields st).1 eqn:E1;
    destruct (q <=? 0)%float eqn:E2; destruct (0 <? c)%float eqn:E3;
    rewrite Hcases; cbn.
  all: split; [split; [try discriminate; intros _ | try reflexivity]|].
  all: try (split; [now apply Hfilled|]; split; [reflexivity|]; split;
            [now apply Hnan | reflexivity]).
  all: try (intros (Hf & Hq & Hn & Hc); first [discriminate Hq | discriminate Hc
            | apply Hfilled in Hf; discriminate Hf]).
  all: split; [first [reflexivity | discriminate]|].
  all: split; [first [discriminate | intros _; split; [discriminate | reflexivity]]|].
  all: split.
  all: try (intros Hf Hq Hc; first [reflexivity | discriminate Hc
            | apply Hfilled in Hf; discriminate Hf
            | destruct (nan_comparisons q 0%float Hq) as [X _]; fold q in E2;
              congruence]).
  all: intros Hc; first [reflexivity
         | destruct (nan_comparisons c 0%float Hc) as (_ & _ & _ & X); congruence].
Qed.

(** The error a failed lookup leaves is never empty. *)
Lemma handleCalculationError_nonempty (response : Response CalculationResult)
    (st : State) :
  error (handleCalculationError response st) <> "".
Proof.
  unfold handleCalculationError. cbn. now apply opt_or_else_nonempty.
Qed.

(** What [handleCalculationSuccess] hands to the page. *)
Lemma handleCalculationSuccess_outcome (result : CalculationResult) (token : string)
    (env : Env) (st : State) :
  let out := handleCalculationSuccess API_BASE_URL result token env st in
  (exists resultData d,
      data result = Some resultData /\ success result = true
      /\ out.1.2 = Some d /\ out.1.1 = st
      /\ JS.truthy_opt (currency d) = true
      /\ details d = details resultData)
  \/ ((data result = None \/ success result = false)
      /\ out.1.2 = None /\ out.2 = []
      /\ error out.1.1 <> "" /\ formData out.1.1 = formData st).
Proof.
  intros out. subst out. unfold handleCalculationSuccess.
  destruct (data result) as [resultData|];
    [|right; repeat split; [now left | now apply opt_or_else_nonempty]].
  destruct (success result); cbn [negb];
    [|right; repeat split; [now right | now apply opt_or_else_nonempty]].
  left. exists resultData.
  assert (Hcur : JS.truthy_opt
                   (orOpt (currency resultData)
                      (orOpt (CalculatorForm.currency (formData st)) (Some "USD")))
                 = true) by (apply orOpt_truthy, orOpt_truthy; reflexivity).
  unfold saveCalculationToHistory, fetchLatestCalculationId.
  destruct (match save env with NetworkError => _ | Resp _ => _ end)
    as [savedCalculation|].
  - eexists. repeat split. exact Hcur.
  - destruct (match history env with NetworkError => _ | Resp _ => _ end)
      as [[id date]|]; eexists; repeat split; exact Hcur.
Qed.

(** The five conjuncts of the outcome, for a submission that hands the
    page nothing: [nonempty] proves that the error is set, [excluded] that
    the conditions of a success do not hold. *)
Ltac failed_submission nonempty excluded :=
  cbn [fst snd];
  split; [reflexivity|];
  split; [split; [intros _; cbn; nonempty | reflexivity]|];
  split; [discriminate|];
  split; [first [discriminate | intros _; reflexivity]|];
  split; [intros [d Hd]; discriminate Hd | excluded].


End CalculatorSubmitProperties.

(** ** components/results-table.tsx: the banners of the cart button *)

Section ResultsBannerProperties.
Import Http ResultsTable.

Variable API_BASE_URL : string.
Variable encodeURIComponent : string -> string.
Variable JSON_parse : string -> option ErrorData.

Local Abbreviation parseErrorResponse := (ResultsTable.parseErrorResponse JSON_parse).
Local Abbreviation handleAddingExport :=
  (ResultsTable.handleAddingExport API_BASE_URL encodeURIComponent JSON_parse).

Lemma append_nonempty (a b : string) : a <> "" -> a +:+ b <> "".
Proof. destruct a; [congruence | discriminate]. Qed.


(** The three ways [handleAddingExport] ends without a request. *)
Lemma handleAddingExport_cases (results : option Results) (env : Env) (st : State) :
  let out := handleAddingExport results env st in
  match results with
  | None => out = (setExportError "No calculation data available" (clearMessages st), [])
  | Some _ =>
    if JS.truthy_opt (getCalculationId results) then
      match session env with
      | SessionRejects =>
          out = (setExportError ("Failed to add to cart: " +:+ rejection env)
                   (clearMessages st), [])
      | SessionOk access_token =>
          out.2 = [addToCartRequest API_BASE_URL encodeURIComponent
                     (default "" (getCalculationId results))
                     (getAuthToken access_token)]
      end
    else out = (setExportError "Calculation ID not found. Please calculate again."
                  (clearMessages st), [])
  end.
Proof.
  unfold ResultsTable.handleAddingExport. destruct results as [r|]; [|reflexivity].
  destruct (JS.truthy_opt (getCalculationId (Some r))); cbn [negb]; [|reflexivity].
  destruct (session env); reflexivity.
Qed.


End ResultsBannerProperties.

(** ** The calculation the results table is given *)

Section ShownCalculationProperties.
Import Http.

Variable parseFloat : string -> float.
Variable toFixed2 : float -> string.
Variable numberToString : float -> string.
Variable API_BASE_URL : string.
Variable encodeURIComponent : string -> string.
Variable JSON_parse : string -> option ResultsTable.ErrorData.

Local Abbreviation handleAddingExport :=
  (ResultsTable.handleAddingExport API_BASE_URL encodeURIComponent JSON_parse).

(** X13. A result the simulator produces always carries a non-empty
    calculation id, the backend's or a local one, so the results table
    never answers a click on the cart button with "No calculation data
    available" or "Calculation ID not found": once the session provider
    answers, the request for that id is sent. *)
Theorem simulator_result_has_id (st : Simulator.State) (env : Simulator.Env)
    (res : Simulator.CalculationResult)
    (cartEnv : ResultsTable.Env) (banners : ResultsTable.State) :
  Simulator.calculationResult
    (Simulator.handleSubmit parseFloat toFixed2 numberToString API_BASE_URL st env).1
  = Some res ->
  Simulator.calculationResult st = None ->
  let results := Some (Page.simulatorResults res) in
  (exists id, ResultsTable.getCalculationId results = Some id /\ id <> "")
  /\ (forall access_token,
        ResultsTable.session cartEnv = SessionOk access_token ->
        exists id, id <> ""
          /\ (handleAddingExport results cartEnv banners).2
             = [ResultsTable.addToCartRequest API_BASE_URL encodeURIComponent id
                  (getAuthToken access_token)]).
Proof.
  intros Hres Hnone results.
  assert (Hid : JS.truthy_opt (Simulator.res_calculationId res) = true).
  { revert Hres. unfold Simulator.handleSubmit, Simulator.reject.
    destruct (Simulator.missingRequired _); [cbn; congruence|].
    destruct (_ <=? 0)%float; [cbn; congruence|].
    destruct (_ <=? 0)%float; [cbn; congruence|].
    destruct (_ <? 0)%float; [cbn; congruence|].
    cbn. intros [= <-]. cbn. apply finalId_truthy. }
  assert (Hget : exists id, ResultsTable.getCalculationId results = Some id /\ id <> "").
  { subst results. cbn. destruct (Simulator.res_calculationId res) as [id|];
      [|discriminate Hid]. exists id. split; [reflexivity | now apply truthy_true]. }
  split; [exact Hget|].
  intros access_token Hs. destruct Hget as [id [Hget Hne]]. exists id.
  split; [exact Hne|].
  pose proof (handleAddingExport_cases API_BASE_URL encodeURIComponent JSON_parse
                results cartEnv banners) as Hc.
  subst results. cbn in Hget. cbn [ResultsTable.getCalculationId
    Page.simulatorResults ResultsTable.data_calculationId
    ResultsTable.own_calculationId] in Hc.
  rewrite Hget in Hc. cbn [JS.truthy_opt] in Hc.
  apply truthy_true in Hne. rewrite Hne, Hs in Hc. exact Hc.
Qed.

(** X14. For a calculation of the dashboard the results table reads the
    id of the calculation data itself; the id that
    [handleCalculationComplete] generates for the stored object is never
    read. A calculation without an id of its own is therefore answered
    with "Calculation ID not found. Please calculate again." and no
    request, although the stored object has a non-empty id. *)
Theorem dashboard_result_id (stamp isoNow : string)
    (calculation : CalculatorSubmit.CalculationData)
    (cartEnv : ResultsTable.Env) (banners : ResultsTable.State) :
  let stored := Page.handleCalculationComplete stamp isoNow calculation in
  let results := Some (Page.dashboardResults stored) in
  ResultsTable.getCalculationId results = CalculatorSubmit.calculationId calculation
  /\ Page.calculationId stored <> ""
  /\ (JS.truthy_opt (CalculatorSubmit.calculationId calculation) = false ->
      handleAddingExport results cartEnv banners
      = (ResultsTable.setExportError
           "Calculation ID not found. Please calculate again."
           (ResultsTable.clearMessages banners), []))
  /\ (JS.truthy_opt (CalculatorSubmit.calculationId calculation) = true ->
      Some (Page.calculationId stored) = CalculatorSubmit.calculationId calculation).
Proof.
  intros stored results. split; [reflexivity|]. split; [|split].
  - subst stored. cbn. apply opt_or_else_nonempty. discriminate.
  - intros Hid. subst results stored. unfold ResultsTable.handleAddingExport.
    cbn [ResultsTable.getCalculationId Page.dashboardResults
         Page.handleCalculationComplete Page.data
         ResultsTable.data_calculationId].
    now rewrite Hid.
  - intros Hid. subst stored. unfold Page.handleCalculationComplete.
    cbn [Page.calculationId].
    destruct (CalculatorSubmit.calculationId calculation) as [id|]; [|discriminate].
    change (JS.truthy id = true) in Hid.
    unfold JS.opt_or_else, JS.or_else. now rewrite Hid.
Qed.

End ShownCalculationProperties.

Lemma simulator_result_has_id_witness :
  exists id,
    ResultsTable.getCalculationId
      (Some (Page.simulatorResults
               (Simulator.withId
                  (Simulator.computeResult Simulator.parseFloat_digits
                     (fun _ => "5.00") (fun _ => "10")
                     (Simulator.riceForm "Thailand" "Singapore" "fixed"))
                  (Simulator.finalId "http://localhost:8080/api" Simulator.offline))))
    = Some id /\ id <> "".
Proof.
  apply (simulator_result_has_id Simulator.parseFloat_digits
           (fun _ => "5.00") (fun _ => "10") "http://localhost:8080/api"
           (fun s => s) (fun _ => None)
           (Simulator.mounted (Simulator.riceForm "Thailand" "Singapore" "fixed"))
           Simulator.offline _
           {| ResultsTable.session := Http.SessionRejects;
              ResultsTable.addToCart := Http.NetworkError;
              ResultsTable.rejection := "";
              ResultsTable.onAddToCart := None |}
           {| ResultsTable.exportError := ""; ResultsTable.successMessage := "";
              ResultsTable.debugInfo := "" |}).
  - vm_compute. reflexivity.
  - reflexivity.
Defined.

(** ** components/simulator-calculator.tsx: NaN and the history *)

Section SimulatorEdgeProperties.
Import Http Simulator.

Variable parseFloat : string -> float.
Variable toFixed2 : float -> string.
Variable numberToString : float -> string.
Variable API_BASE_URL : string.

Local Abbreviation handleSubmit :=
  (Simulator.handleSubmit parseFloat toFixed2 numberToString API_BASE_URL).

(** X15. The simulator does not test for NaN: with the required fields
    filled, a quantity that parses to NaN passes the validation whenever
    the unit cost and the tariff rate pass it, no error is shown and the
    result that is rendered has NaN as its product cost and as its total
    cost. *)
Theorem simulator_nan_quantity (st : State) (env : Env) :
  let f := formData st in
  let st' := (handleSubmit st env).1 in
  missingRequired f = false ->
  JS.isNaN (parseFloat (quantity f)) = true ->
  (parseFloat (customCost f) <=? 0)%float = false ->
  (parseFloat (tariffRate f) <? 0)%float = false ->
  exists res,
    calculationResult st' = Some res
    /\ error st' = ""
    /\ JS.isNaN (res_productCost res) = true
    /\ JS.isNaN (res_totalCost res) = true.
Proof.
  intros f st' Hfilled Hnan Hc Hr. subst st' f.
  destruct (nan_comparisons _ 0%float Hnan) as [Hq _].
  rewrite (handleSubmit_accepts parseFloat toFixed2 numberToString API_BASE_URL
             st env Hfilled Hq Hc Hr).
  eexists. split; [reflexivity|]. split; [reflexivity|]. cbn.
  destruct (nan_arithmetic _ (parseFloat (customCost (formData st))) Hnan)
    as (_ & Hprod & _).
  split; [exact Hprod|].
  match goal with
  | |- JS.isNaN (_ + ?t)%float = true =>
      now destruct (nan_arithmetic _ t Hprod) as (_ & _ & Hsum & _)
  end.
Qed.

(** The save request and the history request differ. *)
Lemma saveRequest_not_history (t t' : option string) :
  saveRequest API_BASE_URL t <> historyRequest API_BASE_URL t'.
Proof. unfold saveRequest, historyRequest. intros [=]. Qed.

(** X16. During an accepted submission the simulator first posts the
    calculation to the history; it asks for the history only when that
    request came back with a status that is not OK, and it sends nothing
    when the session provider rejects. The id of the result is the id of
    the saved calculation when the save came back OK with a truthy one,
    and a local id, "local_" followed by the stamp, when the session
    provider or the save request rejects. *)
Theorem simulator_history_requests (env : Env) :
  let requests := (saveToHistory API_BASE_URL env).2 in
  let id := finalId API_BASE_URL env in
  (requests = [] <-> session env = SessionRejects)
  /\ (forall token, session env = SessionOk token ->
        exists more, requests = saveRequest API_BASE_URL token :: more
                     /\ (more = [] \/ more = [historyRequest API_BASE_URL token])
                     /\ (more <> [] <->
                         exists response, saveHistory env = Resp response
                                          /\ ok response = false))
  /\ (forall token response saved savedId,
        session env = SessionOk token -> saveHistory env = Resp response ->
        ok response = true -> json response = Some saved ->
        id_of saved = Some savedId -> savedId <> "" ->
        id = Some savedId)
  /\ (session env = SessionRejects \/ saveHistory env = NetworkError ->
      id = Some ("local_" +:+ stamp env)).
Proof using API_BASE_URL.
  intros requests id. subst requests id. unfold finalId, saveToHistory.
  split; [|split; [|split]].
  - destruct (session env) as [|token]; [now split|].
    destruct (saveHistory env) as [|r]; [split; discriminate|].
    destruct (ok r); [destruct (json r); split; discriminate|].
    destruct (getHistory env) as [|r2]; [split; discriminate|].
    destruct (ok r2); [|split; discriminate].
    destruct (json r2) as [[|[|x l]]|]; split; discriminate.
  - intros token ->.
    destruct (saveHistory env) as [|r].
    { exists []. split; [reflexivity|]. split; [now left|].
      split; [congruence | intros [resp [H _]]; discriminate H]. }
    destruct (ok r) eqn:Eok.
    { exists []. split; [now destruct (json r)|]. split; [now left|].
      split; [congruence | intros [resp [[= <-] H]]; congruence]. }
    exists [historyRequest API_BASE_URL token].
    split; [|split; [now right | split; [eauto | discriminate]]].
    destruct (getHistory env) as [|r2]; [reflexivity|].
    destruct (ok r2); [|reflexivity].
    destruct (json r2) as [[|[|x l]]|]; reflexivity.
  - intros token response saved savedId -> -> -> -> Hid Hne. cbn.
    rewrite Hid. cbn. apply truthy_true in Hne. now rewrite Hne.
  - intros [-> | Hs]; [reflexivity|].
    destruct (session env); [reflexivity|]. now rewrite Hs.
Qed.

End SimulatorEdgeProperties.

Lemma simulator_nan_quantity_witness :
  exists res,
    Simulator.calculationResult
      (Simulator.handleSubmit Simulator.parseFloat_digits (fun _ => "5.00")
         (fun _ => "10") "http://localhost:8080/api"
         (Simulator.mounted
            {| Simulator.product := "Rice"; Simulator.unit := "kg";
               Simulator.exportingFrom := "Thailand";
               Simulator.importingTo := "Singapore";
               Simulator.tariffType := "percentage"; Simulator.tariffRate := "10";
               Simulator.quantity := "four"; Simulator.customCost := "5";
               Simulator.calculationDate := "2025-01-01" |})
         Simulator.offline).1 = Some res
    /\ JS.isNaN (Simulator.res_totalCost res) = true.
Proof.
  destruct (simulator_nan_quantity Simulator.parseFloat_digits (fun _ => "5.00")
              (fun _ => "10") "http://localhost:8080/api"
              (Simulator.mounted
                 {| Simulator.product := "Rice"; Simulator.unit := "kg";
                    Simulator.exportingFrom := "Thailand";
                    Simulator.importingTo := "Singapore";
                    Simulator.tariffType := "percentage"; Simulator.tariffRate := "10";
                    Simulator.quantity := "four"; Simulator.customCost := "5";
                    Simulator.calculationDate := "2025-01-01" |})
              Simulator.offline)
    as (res & Hres & _ & _ & Htotal).
  - reflexivity.
  - vm_compute. reflexivity.
  - vm_compute. reflexivity.
  - vm_compute. reflexivity.
  - exists res. split; assumption.
Defined.

(** ** components/tariff-trends-visualization.tsx: the series and the outcome *)

Section TrendsOutcomeProperties.
Import Http Trends.

Variable API_BASE_URL : string.
Variable urlSearchParams : list (string * string) -> string.

Local Abbreviation handleFilterChange :=
  (Trends.handleFilterChange API_BASE_URL urlSearchParams).

Lemma palette_elem (index : nat) : nth (index mod length colors) colors "" ∈ colors.
Proof.
  apply list_elem_of_In, nth_In, Nat.mod_upper_bound. discriminate.
Qed.

Lemma palette_period (index : nat) :
  nth ((index + 10) mod length colors) colors ""
  = nth (index mod length colors) colors "".
Proof.
  f_equal. change (length colors) with 10.
  replace (index + 10) with (index + 1 * 10) by lia.
  apply Nat.Div0.mod_add.
Qed.

(** X17. [formatTariffSeriesData] keeps the number and the order of the
    series of the payload: the series at an index carries the countries,
    the product, the dates and the rates of the payload at that index; its
    colour is one of the ten colours of the palette, and the palette
    repeats with period ten, so the eleventh series is drawn in the colour
    of the first. *)
Theorem formatTariffSeriesData_series (payload : list RawSeries) :
  length (formatTariffSeriesData payload) = length payload
  /\ forall index raw, payload !! index = Some raw ->
       exists series,
         formatTariffSeriesData payload !! index = Some series
         /\ importCountry series = raw_importCountry raw
         /\ exportCountry series = raw_exportCountry raw
         /\ product series = raw_product raw
         /\ map date (data series) = map raw_date (dataPoints raw)
         /\ map tariffRate (data series) = map raw_rate (dataPoints raw)
         /\ color series ∈ colors
         /\ forall later, formatTariffSeriesData payload !! (index + 10) = Some later ->
                          color later = color series.
Proof.
  unfold formatTariffSeriesData. split; [apply length_imap|].
  intros index raw Hraw. rewrite list_lookup_imap, Hraw.
  cbn [fmap option_fmap option_map].
  eexists. split; [reflexivity|]. cbn [importCountry exportCountry product data color].
  repeat split.
  - rewrite map_map. reflexivity.
  - rewrite map_map. reflexivity.
  - apply palette_elem.
  - intros later. rewrite list_lookup_imap.
    destruct (payload !! (index + 10)) as [raw'|]; [|discriminate].
    cbn [fmap option_fmap option_map]. intros [= <-]. cbn [color].
    apply palette_period.
Qed.

(** X18. Whatever [handleFilterChange] is given, it stores the new
    selection, and afterwards the chart is empty or no error is shown.
    No error is shown exactly when the selection passed both guards, the
    session gave a token, the trends request came back OK and its body
    reported success with data; the chart then shows that data, formatted,
    and the loading flag is off. *)
Theorem trends_handleFilterChange_outcome (session : SessionResult)
    (answer : FetchResult TrendsBody) (newFilters : FilterSelection) (st : State) :
  let st' := (handleFilterChange session answer newFilters st).1 in
  filters st' = newFilters
  /\ (error st' = None \/ chartData st' = [])
  /\ (error st' = None <->
      exists token response result series,
        importCountries newFilters <> [] /\ exportCountries newFilters <> []
        /\ products newFilters <> []
        /\ length (importCountries newFilters) * length (exportCountries newFilters)
           * length (products newFilters) <= MAX_LINES
        /\ session = SessionOk token /\ answer = Resp response
        /\ ok response = true /\ json response = Some result
        /\ success result = true /\ body_data result = Some series
        /\ chartData st' = formatTariffSeriesData series
        /\ loading st' = false).
Proof.
  intros st'. subst st'. unfold Trends.handleFilterChange.
  destruct ((length (importCountries newFilters) =? 0)%nat
            || (length (exportCountries newFilters) =? 0)%nat
            || (length (products newFilters) =? 0)%nat) eqn:E.
  { cbn. split; [reflexivity|]. split; [now right|].
    split; [discriminate|].
    intros (token & response & result & series & H1 & H2 & H3 & _).
    rewrite <- length_eqb_zero in H1, H2, H3.
    rewrite !orb_true_iff in E. tauto. }
  rewrite !orb_false_iff in E. destruct E as [[E1 E2] E3].
  destruct (MAX_LINES <? _)%nat eqn:E4.
  { cbn. split; [reflexivity|]. split; [now right|].
    split; [discriminate|].
    intros (token & response & result & series & _ & _ & _ & H4 & _).
    apply Nat.ltb_lt in E4. lia. }
  apply Nat.ltb_ge in E4.
  assert (Hi : importCountries newFilters <> [])
    by (rewrite <- length_eqb_zero; congruence).
  assert (He : exportCountries newFilters <> [])
    by (rewrite <- length_eqb_zero; congruence).
  assert (Hp : products newFilters <> [])
    by (rewrite <- length_eqb_zero; congruence).
  unfold fetchTariffTrendsData.
  destruct session as [|token].
  { cbn. split; [reflexivity|]. split; [now right|]. split; [discriminate|].
    intros (? & ? & ? & ? & _ & _ & _ & _ & H & _). discriminate H. }
  destruct answer as [|response].
  { cbn. split; [reflexivity|]. split; [now right|]. split; [discriminate|].
    intros (? & ? & ? & ? & _ & _ & _ & _ & _ & H & _). discriminate H. }
  destruct (ok response) eqn:Eok; cbn [negb].
  2:{ cbn. split; [reflexivity|]. split; [now right|]. split; [discriminate|].
      intros (? & ? & ? & ? & _ & _ & _ & _ & _ & [= <-] & H & _). congruence. }
  destruct (json response) as [result|] eqn:Ejson.
  2:{ cbn. split; [reflexivity|]. split; [now right|]. split; [discriminate|].
      intros (? & ? & ? & ? & _ & _ & _ & _ & _ & [= <-] & _ & H & _). congruence. }
  destruct (body_data result) as [series|] eqn:Edata.
  2:{ cbn. split; [reflexivity|]. split; [now right|]. split; [discriminate|].
      intros (? & ? & ? & ? & _ & _ & _ & _ & _ & [= <-] & _ & H & _ & H' & _).
      congruence. }
  destruct (success result) eqn:Esuccess; cbn [negb].
  2:{ cbn. split; [reflexivity|]. split; [now right|]. split; [discriminate|].
      intros (? & ? & ? & ? & _ & _ & _ & _ & _ & [= <-] & _ & H & H' & _).
      congruence. }
  cbn. split; [reflexivity|]. split; [now left|]. split; [|reflexivity].
  intros _. exists token, response, result, series. repeat split; assumption.
Qed.

End TrendsOutcomeProperties.

(** ** components/tariff-comparison-panel.tsx: validation and submission *)

Section ComparisonProperties.
Import Http ComparisonSubmit.

Variable parseFloat : string -> float.
Variable API_BASE_URL : string.

Local Abbreviation validateForm := (ComparisonSubmit.validateForm parseFloat).
Local Abbreviation handleSubmit :=
  (ComparisonSubmit.handleSubmit parseFloat API_BASE_URL).

(** The three outcomes of [validateForm]. *)
Lemma validateForm_cases (st : State) :
  let f := formData st in
  (validateForm st = (true, st)
   /\ ComparisonPanel.product f <> "" /\ ComparisonPanel.exportingFrom f <> ""
   /\ ComparisonPanel.importingToCountries f <> []
   /\ (0 <? parseFloat (ComparisonPanel.quantity f))%float = true
   /\ (ComparisonPanel.customCost f = ""
       \/ (0 <? parseFloat (ComparisonPanel.customCost f))%float = true))
  \/ ((exists msg, msg <> "" /\ validateForm st = (false, setError (Some msg) st))
      /\ ~ (ComparisonPanel.product f <> "" /\ ComparisonPanel.exportingFrom f <> ""
            /\ ComparisonPanel.importingToCountries f <> []
            /\ (0 <? parseFloat (ComparisonPanel.quantity f))%float = true
            /\ (ComparisonPanel.customCost f = ""
                \/ (0 <? parseFloat (ComparisonPanel.customCost f))%float = true))).
Proof.
  intros f. subst f. unfold ComparisonSubmit.validateForm.
  rewrite !nan_or_nonpositive.
  destruct (JS.truthy (ComparisonPanel.product (formData st))) eqn:Ep; cbn [negb orb].
  2:{ right. split; [eexists; split; [|reflexivity]; discriminate|].
      apply truthy_false in Ep. tauto. }
  destruct (JS.truthy (ComparisonPanel.exportingFrom (formData st))) eqn:Ee;
    cbn [negb orb].
  2:{ right. split; [eexists; split; [|reflexivity]; discriminate|].
      apply truthy_false in Ee. tauto. }
  destruct (length (ComparisonPanel.importingToCountries (formData st)) =? 0)%nat
    eqn:El.
  { right. split; [eexists; split; [|reflexivity]; discriminate|].
    apply length_eqb_zero in El. tauto. }
  apply truthy_true in Ep, Ee.
  assert (Hl : ComparisonPanel.importingToCountries (formData st) <> [])
    by (rewrite <- length_eqb_zero; congruence).
  destruct (0 <? parseFloat (ComparisonPanel.quantity (formData st)))%float eqn:Eq;
    cbn [negb].
  2:{ right. split; [eexists; split; [|reflexivity]; discriminate|].
      intros (_ & _ & _ & H & _). discriminate H. }
  destruct (JS.truthy (ComparisonPanel.customCost (formData st))) eqn:Ec.
  2:{ left. apply truthy_false in Ec. repeat split; try assumption. now left. }
  destruct (0 <? parseFloat (ComparisonPanel.customCost (formData st)))%float eqn:Ev;
    cbn [negb].
  { left. repeat split; try assumption. now right. }
  right. split; [eexists; split; [|reflexivity]; discriminate|].
  apply truthy_true in Ec. intros (_ & _ & _ & _ & [H | H]); congruence.
Qed.

(** X19. The comparison panel accepts a form exactly when a product and
    an exporting country are chosen, at least one importing country is
    chosen, the quantity parses to a number greater than zero, and the
    custom cost is empty or parses to a number greater than zero; a
    quantity or a cost that parses to NaN is refused. An accepted form
    leaves the state alone; a refused one only sets a non-empty error. *)
Theorem comparison_validateForm (st : State) :
  let f := formData st in
  let verdict := validateForm st in
  (verdict.1 = true <->
   ComparisonPanel.product f <> "" /\ ComparisonPanel.exportingFrom f <> ""
   /\ ComparisonPanel.importingToCountries f <> []
   /\ (0 <? parseFloat (ComparisonPanel.quantity f))%float = true
   /\ (ComparisonPanel.customCost f = ""
       \/ (0 <? parseFloat (ComparisonPanel.customCost f))%float = true))
  /\ (JS.isNaN (parseFloat (ComparisonPanel.quantity f)) = true -> verdict.1 = false)
  /\ (verdict.1 = true -> verdict.2 = st)
  /\ (verdict.1 = false ->
      exists msg, msg <> "" /\ verdict.2 = setError (Some msg) st).
Proof.
  intros f verdict. subst f verdict.
  destruct (validateForm_cases st) as [[-> Hyes] | [(msg & Hmsg & ->) Hno]];
    cbn [fst snd].
  - split; [tauto|]. split; [|split; [reflexivity | discriminate]].
    intros Hnan. destruct (nan_comparisons _ 0%float Hnan) as (_ & _ & _ & H).
    destruct Hyes as (_ & _ & _ & Hq & _). congruence.
  - split; [split; [discriminate | tauto]|].
    split; [reflexivity|]. split; [discriminate|]. intros _. now exists msg.
Qed.

Lemma failWith_nonempty (msg : string) (st : State) :
  exists shown, error (failWith msg st) = Some shown /\ shown <> "".
Proof.
  eexists. split; [reflexivity|]. unfold JS.or_else.
  destruct (JS.truthy msg) eqn:E; [now apply truthy_true | discriminate].
Qed.

(** X20. A submission of the comparison panel never changes the form.
    When the form is refused nothing is sent, and the comparison shown
    before stays on screen beside the new error. When the form is
    accepted at most one request is sent, the submitting flag ends off,
    and either a successful comparison is stored with no error, its
    currency being the one of the body when that is truthy and the one of
    the form otherwise, or the earlier comparison is cleared and a
    non-empty error is shown. *)
Theorem comparison_handleSubmit_outcome (env : Env) (st : State) :
  let out := handleSubmit env st in
  let st' := out.1 in
  formData st' = formData st
  /\ ((validateForm st).1 = false ->
      out.2 = [] /\ result st' = result st /\ submitting st' = submitting st
      /\ exists msg, error st' = Some msg /\ msg <> "")
  /\ ((validateForm st).1 = true ->
      length out.2 <= 1 /\ submitting st' = false
      /\ ((error st' = None
           /\ exists body stored,
                compare env = Resp body /\ ok body = true
                /\ json body = Some stored /\ success stored = true
                /\ result st'
                   = Some (withFormCurrency
                             (ComparisonPanel.currency (formData st)) stored))
          \/ (result st' = None /\ exists msg, error st' = Some msg /\ msg <> ""))).
Proof.
  intros out st'. subst st' out. unfold ComparisonSubmit.handleSubmit.
  destruct (validateForm_cases st) as [[-> _] | [(msg & Hmsg & ->) _]];
    cbn [fst snd negb].
  - destruct (session env) as [|token]; cbn [fst snd].
    { split; [reflexivity|]. split; [discriminate|]. intros _.
      split; [cbn; lia|]. split; [reflexivity|]. right.
      split; [reflexivity | apply failWith_nonempty]. }
    cbn [length]. destruct (compare env) as [|response].
    { split; [reflexivity|]. split; [discriminate|]. intros _.
      split; [lia|]. split; [reflexivity|]. right.
      split; [reflexivity | apply failWith_nonempty]. }
    destruct (json response) as [body|] eqn:Ejson.
    2:{ split; [reflexivity|]. split; [discriminate|]. intros _.
        split; [lia|]. split; [reflexivity|]. right.
        split; [reflexivity | apply failWith_nonempty]. }
    destruct (ok response) eqn:Eok; cbn [negb orb].
    2:{ split; [reflexivity|]. split; [discriminate|]. intros _.
        split; [lia|]. split; [reflexivity|]. right.
        split; [reflexivity | apply failWith_nonempty]. }
    destruct (success body) eqn:Esuccess; cbn [negb].
    2:{ split; [reflexivity|]. split; [discriminate|]. intros _.
        split; [lia|]. split; [reflexivity|]. right.
        split; [reflexivity | apply failWith_nonempty]. }
    split; [reflexivity|]. split; [discriminate|]. intros _.
    split; [lia|]. split; [reflexivity|]. left. split; [reflexivity|].
    exists response, body. repeat split; assumption.
  - split; [reflexivity|]. split; [|discriminate]. intros _.
    repeat split. now exists msg.
Qed.

(** X21. The currency of a stored comparison is never missing or empty
    when the form has a currency: [withFormCurrency] keeps a truthy
    currency of the body and puts the currency of the form in the place of
    a missing or empty one, and it leaves the comparisons, and so the rows
    of the chart, as they came. *)
Theorem withFormCurrency_currency (formCurrency : string)
    (body : TariffComparisonResult) (d : ComparisonData) :
  data body = Some d ->
  exists d',
    data (withFormCurrency formCurrency body) = Some d'
    /\ (JS.truthy_opt (currency d) = true -> currency d' = currency d)
    /\ (JS.truthy_opt (currency d) = false -> currency d' = Some formCurrency)
    /\ (formCurrency <> "" -> JS.truthy_opt (currency d') = true)
    /\ formattedChartData (Some (withFormCurrency formCurrency body))
       = formattedChartData (Some body).
Proof.
  intros Hd. unfold withFormCurrency, formattedChartData. cbn [data].
  rewrite Hd. eexists. split; [reflexivity|]. cbn [currency comparisons].
  destruct (JS.truthy_opt (currency d)) eqn:E.
  - repeat split; try congruence.
  - repeat split; try congruence. intros H. cbn. now apply truthy_true.
Qed.

End ComparisonProperties.

Lemma withFormCurrency_currency_witness :
  let body :=
    {| ComparisonSubmit.success := true;
       ComparisonSubmit.data :=
         Some {| ComparisonSubmit.currency := Some "";
                 ComparisonSubmit.comparisons := Some [];
                 ComparisonSubmit.details := Http.JNull |};
       ComparisonSubmit.result_error := None |} in
  exists d',
    ComparisonSubmit.data (ComparisonSubmit.withFormCurrency "SGD" body) = Some d'
    /\ ComparisonSubmit.currency d' = Some "SGD".
Proof.
  intros body.
  destruct (withFormCurrency_currency "SGD" body
              {| ComparisonSubmit.currency := Some "";
                 ComparisonSubmit.comparisons := Some [];
                 ComparisonSubmit.details := Http.JNull |} eq_refl)
    as (d' & Hd & _ & Hform & _).
  exists d'. split; [exact Hd | apply Hform; reflexivity].
Defined.

(** ** The currencies offered and the one selected *)

Section CurrencyInvariant.
Import Http Currencies.

Variable API_BASE_URL : string.
Variable today : string.

Lemma firstCode_elem (c : Currency) (items : list Currency) :
  firstCode (c :: items) ∈ map code (c :: items).
Proof. cbn. apply list_elem_of_here. Qed.

Lemma USD_fallback : "USD" ∈ map code (FALLBACK_CURRENCIES today).
Proof. cbn. apply list_elem_of_here. Qed.

(** X22. However the fetch of the currencies ends, a rejected session
    and a rejected request included, both components afterwards offer a
    list of currencies that is not empty, and the currency they have
    selected is one of the codes offered or is the currency that was
    selected before; nothing is sent when the session provider rejects
    and one request otherwise. *)
Theorem loadCurrencies_selection (session : SessionResult)
    (answer : FetchResult Payload)
    (form : CalculatorForm.State) (panel : ComparisonPanel.State) :
  let formOut := CalculatorForm.loadCurrencies API_BASE_URL today session answer form in
  let panelOut := ComparisonPanel.loadCurrencies API_BASE_URL today session answer panel in
  let selected := CalculatorForm.currency (CalculatorForm.formData formOut.1) in
  let chosen := ComparisonPanel.currency (ComparisonPanel.formData panelOut.1) in
  CalculatorForm.availableCurrencies formOut.1 <> []
  /\ ComparisonPanel.currencies panelOut.1 <> []
  /\ ((exists c, selected = Some c
                 /\ c ∈ map code (CalculatorForm.availableCurrencies formOut.1))
      \/ (selected = CalculatorForm.currency (CalculatorForm.formData form)
          /\ JS.truthy_opt selected = true))
  /\ (chosen ∈ map code (ComparisonPanel.currencies panelOut.1)
      \/ (chosen = ComparisonPanel.currency (ComparisonPanel.formData panel)
          /\ chosen <> ""))
  /\ length formOut.2 = (if session is SessionOk _ then 1 else 0)
  /\ length panelOut.2 = (if session is SessionOk _ then 1 else 0).
Proof.
  intros formOut panelOut selected chosen. subst selected chosen formOut panelOut.
  rewrite calculator_loadCurrencies_cases, comparison_loadCurrencies_cases.
  assert (Hform : forall st,
    (exists c, CalculatorForm.currency
                 (CalculatorForm.formData (CalculatorForm.useFallback today st)) = Some c
               /\ c ∈ map code (FALLBACK_CURRENCIES today))
    \/ (CalculatorForm.currency
          (CalculatorForm.formData (CalculatorForm.useFallback today st))
        = CalculatorForm.currency (CalculatorForm.formData st)
        /\ JS.truthy_opt (CalculatorForm.currency
             (CalculatorForm.formData (CalculatorForm.useFallback today st))) = true)).
  { intros st. cbn. destruct (CalculatorForm.currency (CalculatorForm.formData st))
      as [p|]; [|left; eexists; split; [reflexivity | apply USD_fallback]].
    cbn. unfold JS.or_else. destruct (JS.truthy p) eqn:E.
    - right. split; [reflexivity | exact E].
    - left. eexists; split; [reflexivity | apply USD_fallback]. }
  assert (Hpanel : forall st,
    ComparisonPanel.currency
      (ComparisonPanel.formData (ComparisonPanel.useFallback today st))
    ∈ map code (FALLBACK_CURRENCIES today)
    \/ (ComparisonPanel.currency
          (ComparisonPanel.formData (ComparisonPanel.useFallback today st))
        = ComparisonPanel.currency (ComparisonPanel.formData st)
        /\ ComparisonPanel.currency
             (ComparisonPanel.formData (ComparisonPanel.useFallback today st)) <> "")).
  { intros st. cbn. unfold JS.or_else.
    destruct (JS.truthy (ComparisonPanel.currency (ComparisonPanel.formData st))) eqn:E.
    - right. split; [reflexivity | now apply truthy_true].
    - left. apply USD_fallback. }
  assert (Hfall :
    CalculatorForm.availableCurrencies (CalculatorForm.useFallback today form) <> []
    /\ ComparisonPanel.currencies (ComparisonPanel.useFallback today panel) <> []
    /\ ((exists c, CalculatorForm.currency (CalculatorForm.formData
                     (CalculatorForm.useFallback today form)) = Some c
           /\ c ∈ map code (CalculatorForm.availableCurrencies
                              (CalculatorForm.useFallback today form)))
        \/ (CalculatorForm.currency (CalculatorForm.formData
              (CalculatorForm.useFallback today form))
            = CalculatorForm.currency (CalculatorForm.formData form)
            /\ JS.truthy_opt (CalculatorForm.currency (CalculatorForm.formData
                 (CalculatorForm.useFallback today form))) = true))
    /\ (ComparisonPanel.currency (ComparisonPanel.formData
          (ComparisonPanel.useFallback today panel))
        ∈ map code (ComparisonPanel.currencies
                      (ComparisonPanel.useFallback today panel))
        \/ (ComparisonPanel.currency (ComparisonPanel.formData
              (ComparisonPanel.useFallback today panel))
            = ComparisonPanel.currency (ComparisonPanel.formData panel)
            /\ ComparisonPanel.currency (ComparisonPanel.formData
                 (ComparisonPanel.useFallback today panel)) <> ""))).
  { split; [discriminate|]. split; [discriminate|].
    split; [apply Hform | apply Hpanel]. }
  assert (Hlen : forall A (a b : A * list Request) (n : nat),
            length a.2 = n -> length b.2 = n -> length a.2 = n /\ length b.2 = n)
    by (intros; now split).
  destruct session as [|token].
  { destruct Hfall as (H1 & H2 & H3 & H4). now repeat split. }
  assert (Hone : length (CalculatorForm.loadCurrencies API_BASE_URL today
                           (SessionOk token) answer form).2 = 1
                 /\ length (ComparisonPanel.loadCurrencies API_BASE_URL today
                              (SessionOk token) answer panel).2 = 1)
    by (split; reflexivity).
  destruct answer as [|response];
    [destruct Hfall as (H1 & H2 & H3 & H4), Hone; now repeat split|].
  destruct (ok response);
    [|destruct Hfall as (H1 & H2 & H3 & H4), Hone; now repeat split].
  destruct (json response) as [[[|[|c items]]|]|];
    try (destruct Hfall as (H1 & H2 & H3 & H4), Hone; now repeat split).
  clear Hfall Hform Hpanel. destruct Hone as [Hone1 Hone2].
  split; [discriminate|]. split; [discriminate|].
  split; [|split; [|split; assumption]].
  - left. unfold CalculatorForm.useFetched.
    cbn [CalculatorForm.availableCurrencies CalculatorForm.formData
         CalculatorForm.currency CalculatorForm.setCurrency].
    destruct (JS.truthy_opt _ && existsb _ (c :: items)) eqn:E.
    + apply andb_true_iff in E as [_ E].
      apply existsb_code_opt in E as (p & Hp & Hin). now exists p.
    + eexists. split; [reflexivity | apply firstCode_elem].
  - left. unfold ComparisonPanel.useFetched.
    cbn [ComparisonPanel.currencies ComparisonPanel.formData
         ComparisonPanel.currency ComparisonPanel.setCurrency].
    destruct (existsb _ (c :: items)) eqn:E.
    + now apply existsb_code in E.
    + apply firstCode_elem.
Qed.

End CurrencyInvariant.

(** ** components/tariff-calculator-form.tsx: the id of a calculation *)

Section CalculationIdProperties.
Import Http CalculatorSubmit.

Variable API_BASE_URL : string.

Local Abbreviation handleCalculationSuccess :=
  (CalculatorSubmit.handleCalculationSuccess API_BASE_URL).
Local Abbreviation saveCalculationToHistory :=
  (CalculatorSubmit.saveCalculationToHistory API_BASE_URL).
Local Abbreviation fetchLatestCalculationId :=
  (CalculatorSubmit.fetchLatestCalculationId API_BASE_URL).

(** X23. For a successful calculation the form hands on a result whose
    id comes from the history. When the save gives a record, only the
    save request is sent and the id is that of the record: its [id] when
    truthy, and the id the calculation came with when neither [id] nor
    [calculationId] of the record is. When the save gives none, the
    history is asked as well, and the id and the date of its first entry
    replace those of the calculation, even when that entry has none; when
    the history gives nothing either, the calculation keeps its own. *)
Theorem calculator_saved_id (result : CalculationResult) (token : string)
    (env : Env) (st : State) (resultData : CalculationData) :
  data result = Some resultData -> success result = true ->
  let out := handleCalculationSuccess result token env st in
  let saved := (saveCalculationToHistory token env).1 in
  let latest := (fetchLatestCalculationId token env).1 in
  exists d,
    out.1.2 = Some d
    /\ (forall record, saved = Some record ->
        out.2 = [saveRequest API_BASE_URL token]
        /\ (forall id, saved_id record = Some id -> id <> "" ->
                       calculationId d = Some id)
        /\ (JS.truthy_opt (saved_id record) = false ->
            JS.truthy_opt (saved_calculationId record) = false ->
            calculationId d = calculationId resultData))
    /\ (saved = None ->
        out.2 = [saveRequest API_BASE_URL token; historyRequest API_BASE_URL token]
        /\ (forall id date, latest = Some (id, date) ->
                            calculationId d = id /\ calculationDate d = date)
        /\ (latest = None ->
            calculationId d = calculationId resultData
            /\ calculationDate d = calculationDate resultData)).
Proof.
  intros Hdata Hsuccess out saved latest. subst out saved latest.
  unfold CalculatorSubmit.handleCalculationSuccess. rewrite Hdata, Hsuccess.
  cbn [negb].
  destruct (saveCalculationToHistory token env) as [[record|] requests] eqn:Es.
  - assert (requests = [saveRequest API_BASE_URL token]) as ->
      by (unfold CalculatorSubmit.saveCalculationToHistory in Es; congruence).
    eexists. split; [reflexivity|]. cbn [fst snd]. split; [|discriminate].
    intros ? [= <-]. split; [reflexivity|].
    cbn [calculationId withMetadata withCurrency]. split.
    + intros id Hid Hne. unfold orOpt at 1. rewrite Hid. cbn.
      apply truthy_true in Hne. now rewrite Hne.
    + intros H1 H2. unfold orOpt. now rewrite H1, H2.
  - assert (requests = [saveRequest API_BASE_URL token]) as ->
      by (unfold CalculatorSubmit.saveCalculationToHistory in Es; congruence).
    destruct (fetchLatestCalculationId token env) as [[[id date]|] more] eqn:Eh.
    + assert (more = [historyRequest API_BASE_URL token]) as ->
        by (unfold CalculatorSubmit.fetchLatestCalculationId in Eh; congruence).
      eexists. split; [reflexivity|]. cbn [fst snd]. split; [discriminate|].
      intros _. split; [reflexivity|]. split; [|discriminate].
      intros ? ? [= <- <-]. split; reflexivity.
    + assert (more = [historyRequest API_BASE_URL token]) as ->
        by (unfold CalculatorSubmit.fetchLatestCalculationId in Eh; congruence).
      eexists. split; [reflexivity|]. cbn [fst snd]. split; [discriminate|].
      intros _. split; [reflexivity|]. split; [discriminate|].
      intros _. split; reflexivity.
Qed.

End CalculationIdProperties.

Lemma calculator_saved_id_witness :
  let result :=
    {| CalculatorSubmit.success := true;
       CalculatorSubmit.data :=
         Some {| CalculatorSubmit.currency := Some "USD";
                 CalculatorSubmit.calculationId := None;
                 CalculatorSubmit.calculationDate := None;
                 CalculatorSubmit.details := Http.JNull |};
       CalculatorSubmit.result_error := None |} in
  let record :=
    {| CalculatorSubmit.saved_id := Some "42";
       CalculatorSubmit.saved_calculationId := None;
       CalculatorSubmit.saved_createdAt := Some "2025-01-01T00:00:00Z";
       CalculatorSubmit.saved_calculationDate := None |} in
  let env :=
    {| CalculatorSubmit.session := Http.SessionOk (Some "token");
       CalculatorSubmit.calculation := Http.NetworkError;
       CalculatorSubmit.save :=
         Http.Resp {| Http.status := 200; Http.content_type := None;
                      Http.text := ""; Http.json := Some (Some record) |};
       CalculatorSubmit.history := Http.NetworkError |} in
  let st :=
    {| CalculatorSubmit.formData :=
         {| CalculatorForm.product := "Rice"; CalculatorForm.exportingFrom := "Thailand";
            CalculatorForm.importingTo := "Singapore"; CalculatorForm.quantity := "4";
            CalculatorForm.customCost := "5";
            CalculatorForm.calculationDate := "2025-01-01";
            CalculatorForm.currency := Some "USD" |};
       CalculatorSubmit.error := ""; CalculatorSubmit.isLoading := true |} in
  exists d,
    (CalculatorSubmit.handleCalculationSuccess "http://localhost:8080/api"
       result "token" env st).1.2 = Some d
    /\ CalculatorSubmit.calculationId d = Some "42".
Proof.
  intros result record env st.
  destruct (calculator_saved_id "http://localhost:8080/api" result "token" env st
              {| CalculatorSubmit.currency := Some "USD";
                 CalculatorSubmit.calculationId := None;
                 CalculatorSubmit.calculationDate := None;
                 CalculatorSubmit.details := Http.JNull |} eq_refl eq_refl)
    as (d & Hd & Hsaved & _).
  exists d. split; [exact Hd|].
  destruct (Hsaved record eq_refl) as (_ & Hid & _).
  apply Hid; [reflexivity | discriminate].
Defined.

(** ** components/export-cart-with-history.tsx: selections and history *)

Section ExportCartProperties.
Import Http ExportCart.

Variable API_BASE_URL : string.

Lemma set_adds_NoDup {A} `{EqDecision A} (l s : list A) :
  NoDup (s ++ l) -> foldl JSSet.add s l = (s ++ l)%list.
Proof.
  revert s. induction l as [|x l IH]; intros s Hnd; [now rewrite app_nil_r|].
  cbn [foldl]. unfold JSSet.add at 2.
  assert (Hx : x ∉ s).
  { apply NoDup_app in Hnd as (_ & Hd & _). intros Hin.
    apply (Hd x Hin). apply list_elem_of_here. }
  assert (JSSet.has s x = false) as ->
    by (apply not_true_iff_false; now rewrite set_has_true).
  rewrite IH; rewrite <- app_assoc; [reflexivity | exact Hnd].
Qed.

(** A set built from an array without repetition is that array. *)
Lemma set_fromArray_NoDup_id {A} `{EqDecision A} (l : list A) :
  NoDup l -> JSSet.fromArray l = l.
Proof. intros H. unfold JSSet.fromArray. now rewrite set_adds_NoDup. Qed.

Lemma set_delete_absent {A} `{EqDecision A} (s : list A) (x : A) :
  x ∉ s -> JSSet.delete s x = s.
Proof.
  unfold JSSet.delete. induction s as [|y s IH]; intros Hx; [reflexivity|].
  cbn. apply not_elem_of_cons in Hx as [Hne Hx].
  rewrite bool_decide_eq_false_2 by congruence. cbn. now rewrite IH.
Qed.

Lemma set_delete_present {A} `{EqDecision A} (s : list A) (x : A) :
  NoDup s -> x ∈ s -> s ≡ₚ x :: JSSet.delete s x.
Proof.
  unfold JSSet.delete. induction s as [|y s IH]; intros Hnd Hx.
  - now apply elem_of_nil in Hx.
  - apply NoDup_cons in Hnd as [Hy Hnd]. cbn.
    destruct (decide (y = x)) as [->|Hne].
    + rewrite bool_decide_eq_true_2 by reflexivity. cbn.
      fold (JSSet.delete s x). now rewrite set_delete_absent.
    + rewrite bool_decide_eq_false_2 by exact Hne. cbn.
      apply elem_of_cons in Hx as [Hx | Hx]; [congruence|].
      rewrite (IH Hnd Hx) at 1. apply Permutation_swap.
Qed.

(** X24. Ticking a row of the cart or of the history toggles its id in the
    set of selected ids and touches no other id: afterwards the id is
    selected exactly when it was not, and ticking the same row again gives
    back the selection there was, up to the order of the set. *)
Theorem toggle_selection (selected : list string) (id : string) :
  NoDup selected ->
  let once := toggle selected id in
  NoDup once
  /\ (id ∈ once <-> id ∉ selected)
  /\ (forall other, other <> id -> (other ∈ once <-> other ∈ selected))
  /\ toggle once id ≡ₚ selected.
Proof.
  intros Hnd once. subst once. unfold toggle.
  destruct (JSSet.has selected id) eqn:E.
  - apply set_has_true in E.
    assert (Hout : id ∉ JSSet.delete selected id)
      by (rewrite set_delete_elem; tauto).
    split; [now apply set_delete_NoDup|].
    split; [tauto|]. split; [intros other Hne; rewrite set_delete_elem; tauto|].
    assert (JSSet.has (JSSet.delete selected id) id = false) as ->
      by (apply not_true_iff_false; now rewrite set_has_true).
    unfold JSSet.add.
    assert (JSSet.has (JSSet.delete selected id) id = false) as ->
      by (apply not_true_iff_false; now rewrite set_has_true).
    rewrite (set_delete_present selected id Hnd E) at 2.
    symmetry. apply Permutation_cons_append.
  - assert (Hout : id ∉ selected)
      by (rewrite <- set_has_true; congruence).
    split; [now apply set_add_NoDup|].
    split; [rewrite set_add_elem; tauto|].
    split; [intros other Hne; rewrite set_add_elem; tauto|].
    assert (JSSet.has (JSSet.add selected id) id = true) as ->
      by (apply set_has_true, set_add_elem; now right).
    unfold JSSet.add. rewrite E. unfold JSSet.delete.
    rewrite List.filter_app. cbn.
    rewrite bool_decide_eq_true_2 by reflexivity. cbn. rewrite app_nil_r.
    fold (JSSet.delete selected id). now rewrite set_delete_absent.
Qed.

(** X25. "Select all" compares the size of the selection with the number
    of items. When the items of the cart have distinct ids and the
    selection is a set of ids of the cart, it clears the selection when
    every item is selected, and selects every item, in the order of the
    cart, when one is not; pressed twice from a partial selection it
    leaves nothing selected. *)
Theorem handleSelectAllCart_selection (st : State) :
  let ids := map ExportCart.id (cartItems st) in
  NoDup ids -> NoDup (selectedCartItems st) ->
  (forall x, x ∈ selectedCartItems st -> x ∈ ids) ->
  ((forall x, x ∈ ids -> x ∈ selectedCartItems st) ->
   selectedCartItems (handleSelectAllCart st) = [])
  /\ ((exists x, x ∈ ids /\ x ∉ selectedCartItems st) ->
      selectedCartItems (handleSelectAllCart st) = ids
      /\ selectedCartItems (handleSelectAllCart (handleSelectAllCart st)) = [])
  /\ cartItems (handleSelectAllCart st) = cartItems st
  /\ selectedHistoryItems (handleSelectAllCart st) = selectedHistoryItems st.
Proof.
  intros ids Hids Hsel Hsub.
  assert (Hlen : length ids = length (cartItems st)) by apply length_map.
  assert (Hle : selectedCartItems st ⊆+ ids) by now apply NoDup_submseteq.
  unfold handleSelectAllCart, JSSet.size.
  split; [|split].
  - intros Hall.
    assert (ids ⊆+ selectedCartItems st) by now apply NoDup_submseteq.
    assert (length (selectedCartItems st) = length (cartItems st)) as ->.
    { apply submseteq_length in Hle. apply submseteq_length in H. lia. }
    now rewrite Nat.eqb_refl.
  - intros (x & Hx & Hout).
    assert (Hne : (length (selectedCartItems st) =? length (cartItems st))%nat = false).
    { apply Nat.eqb_neq. intros Heq. apply Hout.
      rewrite (submseteq_length_Permutation _ _ Hle); [exact Hx | lia]. }
    rewrite Hne. cbn [selectedCartItems setSelectedCartItems cartItems].
    fold ids. rewrite (set_fromArray_NoDup_id ids Hids).
    split; [reflexivity|]. now rewrite Hlen, Nat.eqb_refl.
  - now destruct (_ =? _)%nat.
Qed.


End ExportCartProperties.

Lemma toggle_selection_witness :
  let once := ExportCart.toggle ["c1"; "c2"] "c1" in
  NoDup once
  /\ ("c1" ∈ once <-> "c1" ∉ ["c1"; "c2"])
  /\ (forall other, other <> "c1" -> (other ∈ once <-> other ∈ ["c1"; "c2"]))
  /\ ExportCart.toggle once "c1" ≡ₚ ["c1"; "c2"].
Proof.
  apply (toggle_selection ["c1"; "c2"] "c1").
  apply (bool_decide_unpack _). vm_compute. exact I.
Defined.

Lemma handleSelectAllCart_selection_witness :
  let item name :=
    {| ExportCart.id := name; ExportCart.productName := "Rice";
       ExportCart.exportingFrom := "Thailand"; ExportCart.importingTo := "Singapore";
       ExportCart.quantity := 4; ExportCart.unit := "kg";
       ExportCart.productCost := 20; ExportCart.totalCost := 22;
       ExportCart.tariffType := "percentage"; ExportCart.source := None;
       ExportCart.calculationDate := "2025-01-01"; ExportCart.currency := None;
       ExportCart.breakdown := None |} in
  let st :=
    {| ExportCart.cartItems := [item "c1"; item "c2"];
       ExportCart.historyItems := [];
       ExportCart.selectedCartItems := ["c1"];
       ExportCart.selectedHistoryItems := [];
       ExportCart.isLoadingCart := false; ExportCart.isLoadingHistory := false;
       ExportCart.error := ""; ExportCart.successMessage := "" |} in
  ExportCart.selectedCartItems (ExportCart.handleSelectAllCart st) = ["c1"; "c2"]
  /\ ExportCart.selectedCartItems
       (ExportCart.handleSelectAllCart (ExportCart.handleSelectAllCart st)) = [].
Proof.
  intros item st.
  assert (Hids : NoDup (map ExportCart.id (ExportCart.cartItems st)))
    by (apply (bool_decide_unpack _); vm_compute; exact I).
  assert (Hsel : NoDup (ExportCart.selectedCartItems st))
    by (apply (bool_decide_unpack _); vm_compute; exact I).
  assert (Hsub : forall x, x ∈ ExportCart.selectedCartItems st ->
                           x ∈ map ExportCart.id (ExportCart.cartItems st)).
  { intros x Hx. cbn in Hx. apply list_elem_of_singleton in Hx as ->.
    apply list_elem_of_here. }
  destruct (handleSelectAllCart_selection st Hids Hsel Hsub) as (_ & Hpartial & _).
  apply Hpartial. exists "c2". split.
  - cbn. apply list_elem_of_further, list_elem_of_here.
  - cbn. intros Hin. apply list_elem_of_singleton in Hin. discriminate Hin.
Defined.

(** ** components/tariff-filters.tsx: the reset button *)

Section ResetProperties.
Import Http.

Variable API_BASE_URL : string.
Variable urlSearchParams : list (string * string) -> string.

(** X27. The reset button of the filters hands an empty selection to
    the trends chart, whose handler takes it for an incomplete one: the
    chart is cleared, the message "Please fill in all the boxes" is shown,
    and nothing is sent, whatever was selected or shown before. *)
Theorem handleReset_clears (session : SessionResult)
    (answer : FetchResult Trends.TrendsBody)
    (st : TariffFilters.State) (parent : Trends.State) :
  let out :=
    TariffFilters.handleReset
      (Trends.handleFilterChange API_BASE_URL urlSearchParams session answer)
      st parent in
  TariffFilters.localFilters out.1 = TariffFilters.resetFilters
  /\ Trends.filters out.2.1 = TariffFilters.resetFilters
  /\ Trends.chartData out.2.1 = []
  /\ Trends.error out.2.1 = Some "Please fill in all the boxes"
  /\ Trends.loading out.2.1 = Trends.loading parent
  /\ out.2.2 = []
  /\ TariffFilters.exportCountries out.1 = TariffFilters.exportCountries st
  /\ TariffFilters.products out.1 = TariffFilters.products st.
Proof. intros out. subst out. repeat split. Qed.

End ResetProperties.
